(** * Spatial cropping of binary PLY point clouds

    A shallow embedding of [crop_ply_spatial.py] and the properties of its
    header reader, record codec, bounds estimator, chunked filter and writer.

    Python integers are [Z], Python floats are IEEE 754 binary64 values
    ([spec_float] of the standard library, precision 53, [emax] 1024), byte
    strings are [list byte], text is [string], the file system is a finite
    map from paths to contents, and what the program prints is a list of
    events.  Exceptions are values of [exn]; the header loop, which has no
    bound in the source, takes fuel. *)

From Stdlib Require Import ZArith Lia List String Ascii Bool.
From Stdlib Require Import Floats.SpecFloat Strings.Byte DecimalString DecimalZ.
From stdpp Require Import gmap strings list.

Local Open Scope Z_scope.

(** ** Exceptions and fallible pure code *)

Inductive exn : Type :=
| FileNotFoundError
| UnicodeDecodeError
| UnicodeEncodeError
| IndexError
| ValueError
| ZeroDivisionError
| OverflowError
| StructError.

Inductive result (A : Type) : Type :=
| Ok (a : A)
| Raise (e : exn).

Arguments Ok {A} a.
Arguments Raise {A} e.

Definition rbind {A B : Type} (r : result A) (k : A -> result B) : result B :=
  match r with
  | Ok a => k a
  | Raise e => Raise e
  end.

Notation "x <- c ;; k" := (rbind c (fun x => k))
  (at level 60, c at next level, right associativity).

(** [xs[i]] on a Python list. *)
Definition py_index {A : Type} (xs : list A) (i : nat) : result A :=
  match xs !! i with
  | Some x => Ok x
  | None => Raise IndexError
  end.

Fixpoint rmapM {A B : Type} (f : A -> result B) (xs : list A) : result (list B) :=
  match xs with
  | [] => Ok []
  | x :: xs' => y <- f x ;; ys <- rmapM f xs' ;; Ok (y :: ys)
  end.

(** ** IEEE 754 values, conversions and bit patterns *)

Module IEEE.

(** [float(z)] for a Python integer: the nearest binary64 value. *)
Definition of_Z (z : Z) : spec_float := binary_normalize 53 1024 z 0 false.

(** A binary32 value seen as a binary64 value (exact). *)
Definition widen (x : spec_float) : spec_float :=
  match x with
  | S754_finite s m e => binary_round 53 1024 s m e
  | _ => x
  end.

(** A binary64 value rounded to binary32 (to nearest, ties to even). *)
Definition narrow (x : spec_float) : spec_float :=
  match x with
  | S754_finite s m e => binary_round 24 128 s m e
  | _ => x
  end.

Definition is_nan (x : spec_float) : bool :=
  match x with S754_nan => true | _ => false end.

Definition is_infinity (x : spec_float) : bool :=
  match x with S754_infinity _ => true | _ => false end.

Definition is_finite (x : spec_float) : bool :=
  match x with S754_zero _ | S754_finite _ _ _ => true | _ => false end.

(** [int(x)]: truncation toward zero. *)
Definition trunc (x : spec_float) : result Z :=
  match x with
  | S754_zero _ => Ok 0
  | S754_finite s m e => Ok (cond_Zopp s (Z.shiftl (Zpos m) e))
  | S754_nan => Raise ValueError
  | S754_infinity _ => Raise OverflowError
  end.

Definition add : spec_float -> spec_float -> spec_float := SFadd 53 1024.
Definition sub : spec_float -> spec_float -> spec_float := SFsub 53 1024.
Definition mul : spec_float -> spec_float -> spec_float := SFmul 53 1024.
Definition div : spec_float -> spec_float -> spec_float := SFdiv 53 1024.

(** The literal [0.1]. *)
Definition tenth : spec_float := S754_finite false 7205759403792794 (-56).

Section Bits.

(** [mw] fraction bits and [ew] exponent bits: 23 and 8, or 52 and 11. *)
Variables mw ew : Z.

Definition bias_emin : Z := 3 - 2 ^ (ew - 1) - (mw + 1).

Definition join_bits (s : bool) (ex fr : Z) : Z :=
  (if s then 2 ^ (mw + ew) else 0) + ex * 2 ^ mw + fr.

(** The bit pattern of a value; every NaN becomes the quiet NaN with a
    clear sign, which is what a Python [nan] packs to. *)
Definition bits_of_float (x : spec_float) : Z :=
  match x with
  | S754_zero s => join_bits s 0 0
  | S754_infinity s => join_bits s (2 ^ ew - 1) 0
  | S754_nan => join_bits false (2 ^ ew - 1) (2 ^ (mw - 1))
  | S754_finite s m e =>
      if 2 ^ mw <=? Zpos m
      then join_bits s (e - bias_emin + 1) (Zpos m - 2 ^ mw)
      else join_bits s 0 (Zpos m)
  end.

Definition float_of_bits (b : Z) : spec_float :=
  let fr := b mod 2 ^ mw in
  let ex := (b / 2 ^ mw) mod 2 ^ ew in
  let s := Z.odd (b / 2 ^ (mw + ew)) in
  if ex =? 0 then
    match fr with
    | Zpos m => S754_finite s m bias_emin
    | _ => S754_zero s
    end
  else if ex =? 2 ^ ew - 1 then
    (if fr =? 0 then S754_infinity s else S754_nan)
  else
    match fr + 2 ^ mw with
    | Zpos m => S754_finite s m (ex + bias_emin - 1)
    | _ => S754_nan
    end.

End Bits.

(** [format(x, '.3f')]: the exact value times 1000, rounded to the nearest
    integer with ties to even, printed with three decimals. *)
Definition round_half_even (n d : Z) : Z :=
  let q := n / d in
  match Z.compare (2 * (n mod d)) d with
  | Lt => q
  | Gt => q + 1
  | Eq => if Z.even q then q else q + 1
  end.

Definition thousandths (m : positive) (e : Z) : Z :=
  match e with
  | Zneg p => round_half_even (Zpos m * 1000) (2 ^ Zpos p)
  | _ => Zpos m * 1000 * 2 ^ e
  end.

End IEEE.

Definition string_of_Z (z : Z) : string := NilZero.string_of_int (Z.to_int z).

Definition digit_char (d : Z) : ascii := ascii_of_nat (48 + Z.to_nat d).

Definition format_3f (x : spec_float) : string :=
  match x with
  | S754_nan => "nan"
  | S754_infinity s => if s then "-inf" else "inf"
  | S754_zero s => if s then "-0.000" else "0.000"
  | S754_finite s m e =>
      let n := IEEE.thousandths m e in
      ((if s then "-" else "") +:+ string_of_Z (n / 1000) +:+ "." +:+
       String (digit_char (n / 100 mod 10))
         (String (digit_char (n / 10 mod 10))
            (String (digit_char (n mod 10)) EmptyString)))%string
  end.

(** ** Bytes *)

Definition byte_to_Z (b : byte) : Z := Z.of_N (Byte.to_N b).

Definition Z_to_byte (z : Z) : byte :=
  match Byte.of_N (Z.to_N (z mod 256)) with
  | Some b => b
  | None => x00
  end.

Fixpoint bytes_of_Z_le (n : nat) (z : Z) : list byte :=
  match n with
  | O => []
  | S n' => Z_to_byte (z mod 256) :: bytes_of_Z_le n' (z / 256)
  end.

Fixpoint Z_of_bytes_le (bs : list byte) : Z :=
  match bs with
  | [] => 0
  | b :: bs' => byte_to_Z b + 256 * Z_of_bytes_le bs'
  end.

(** [bytes.decode('ascii')] and [str.encode('ascii')]. *)
Definition is_ascii_byte (b : byte) : bool := byte_to_Z b <? 128.

Definition decode_ascii (bs : list byte) : result string :=
  if forallb is_ascii_byte bs
  then Ok (string_of_list_byte bs)
  else Raise UnicodeDecodeError.

Definition encode_ascii (s : string) : result (list byte) :=
  let bs := list_byte_of_string s in
  if forallb is_ascii_byte bs then Ok bs else Raise UnicodeEncodeError.

(** ** Python numbers and the [struct] module *)

Inductive pyval : Type :=
| PInt (z : Z)
| PFloat (x : spec_float).

(** [float(v)]. *)
Definition float_of_val (v : pyval) : result spec_float :=
  match v with
  | PFloat x => Ok x
  | PInt z =>
      let x := IEEE.of_Z z in
      if IEEE.is_infinity x then Raise OverflowError else Ok x
  end.

(** [int(v)]. *)
Definition int_of_val (v : pyval) : result Z :=
  match v with
  | PInt z => Ok z
  | PFloat x => IEEE.trunc x
  end.

(** The value of a number as a binary64, the way NumPy promotes an integer
    that meets a float. *)
Definition as_float (v : pyval) : spec_float :=
  match v with
  | PFloat x => x
  | PInt z => IEEE.of_Z z
  end.

(** The four format characters the program emits. *)
Inductive code : Type := Cf | CB | Ci | Cd.

Definition code_of_ascii (c : ascii) : result code :=
  if (c =? "f")%char then Ok Cf
  else if (c =? "B")%char then Ok CB
  else if (c =? "i")%char then Ok Ci
  else if (c =? "d")%char then Ok Cd
  else Raise StructError.

(** A format string is read as [<] followed by format characters; only
    the little-endian, unpadded formats the program builds are modelled. *)
Definition parse_format (format_str : string) : result (list code) :=
  match format_str with
  | String c rest =>
      if (c =? "<")%char
      then rmapM code_of_ascii (list_ascii_of_string rest)
      else Raise StructError
  | EmptyString => Raise StructError
  end.

Definition code_size (c : code) : nat :=
  match c with
  | Cf => 4
  | CB => 1
  | Ci => 4
  | Cd => 8
  end%nat.

Definition codes_size (cs : list code) : nat := foldr (fun c n => (code_size c + n)%nat) 0%nat cs.

(** [struct.calcsize]. *)
Definition struct_calcsize (format_str : string) : result nat :=
  cs <- parse_format format_str ;; Ok (codes_size cs).

Definition signed32 (u : Z) : Z := if u <? 2 ^ 31 then u else u - 2 ^ 32.

Definition unpack_value (c : code) (bs : list byte) : pyval :=
  match c with
  | Cf => PFloat (IEEE.widen (IEEE.float_of_bits 23 8 (Z_of_bytes_le bs)))
  | CB => PInt (Z_of_bytes_le bs)
  | Ci => PInt (signed32 (Z_of_bytes_le bs))
  | Cd => PFloat (IEEE.float_of_bits 52 11 (Z_of_bytes_le bs))
  end.

Fixpoint unpack_codes (cs : list code) (data : list byte) : list pyval :=
  match cs with
  | [] => []
  | c :: cs' =>
      unpack_value c (take (code_size c) data)
        :: unpack_codes cs' (drop (code_size c) data)
  end.

(** [struct.unpack(format_str, data)]. *)
Definition struct_unpack (format_str : string) (data : list byte) : result (list pyval) :=
  cs <- parse_format format_str ;;
  if (length data =? codes_size cs)%nat
  then Ok (unpack_codes cs data)
  else Raise StructError.

Definition pack_value (c : code) (v : pyval) : result (list byte) :=
  match c with
  | Cf =>
      x <- float_of_val v ;;
      let y := IEEE.narrow x in
      if IEEE.is_finite x && IEEE.is_infinity y
      then Raise OverflowError
      else Ok (bytes_of_Z_le 4 (IEEE.bits_of_float 23 8 y))
  | Cd =>
      x <- float_of_val v ;;
      Ok (bytes_of_Z_le 8 (IEEE.bits_of_float 52 11 x))
  | CB =>
      match v with
      | PInt z =>
          if (0 <=? z) && (z <=? 255)
          then Ok (bytes_of_Z_le 1 z)
          else Raise StructError
      | PFloat _ => Raise StructError
      end
  | Ci =>
      match v with
      | PInt z =>
          if (- 2 ^ 31 <=? z) && (z <? 2 ^ 31)
          then Ok (bytes_of_Z_le 4 (z mod 2 ^ 32))
          else Raise StructError
      | PFloat _ => Raise StructError
      end
  end.

Fixpoint pack_codes (cs : list code) (vs : list pyval) : result (list byte) :=
  match cs, vs with
  | [], [] => Ok []
  | c :: cs', v :: vs' =>
      bs <- pack_value c v ;;
      rest <- pack_codes cs' vs' ;;
      Ok (bs ++ rest)
  | _, _ => Raise StructError
  end.

(** [struct.pack(format_str, *values)]. *)
Definition struct_pack (format_str : string) (values : list pyval) : result (list byte) :=
  cs <- parse_format format_str ;; pack_codes cs values.

(** ** NumPy arrays of records *)

Definition is_pyfloat (v : pyval) : bool :=
  match v with PFloat _ => true | PInt _ => false end.

(** [np.array(rows)]: the array is of floats as soon as one entry is a
    float, and of integers otherwise. *)
Definition np_array (rows : list (list pyval)) : list (list pyval) :=
  if existsb (existsb is_pyfloat) rows
  then map (map (fun v => PFloat (as_float v))) rows
  else rows.

(** [np.min(col)] and [np.max(col)] propagate NaN; among equal values
    (the two zeros) the later one is kept. *)
Definition np_minimum (a b : spec_float) : spec_float :=
  if SFltb a b || IEEE.is_nan a then a else b.

Definition np_maximum (a b : spec_float) : spec_float :=
  if SFltb b a || IEEE.is_nan a then a else b.

Definition np_reduce (f : spec_float -> spec_float -> spec_float) (col : list spec_float)
  : spec_float :=
  match col with
  | [] => S754_nan
  | x :: xs => fold_left f xs x
  end.

(** Column [k] of the rows, as floats; [None] when the rows are narrower. *)
Definition column (k : nat) (rows : list (list pyval)) : option (list spec_float) :=
  mapM (fun row => as_float <$> row !! k) rows.

(** ** Python text *)

(** The characters [str.strip] and [str.split] treat as white space in
    ASCII text. *)
Definition is_space (c : ascii) : bool :=
  let n := nat_of_ascii c in
  ((9 <=? n) && (n <=? 13) || (28 <=? n) && (n <=? 32))%nat.

Fixpoint lstrip (s : string) : string :=
  match s with
  | EmptyString => EmptyString
  | String c s' => if is_space c then lstrip s' else s
  end.

Fixpoint rstrip (s : string) : string :=
  match s with
  | EmptyString => EmptyString
  | String c s' =>
      match rstrip s' with
      | EmptyString => if is_space c then EmptyString else String c EmptyString
      | t => String c t
      end
  end.

(** [s.strip()]. *)
Definition strip (s : string) : string := rstrip (lstrip s).

Fixpoint split_aux (s : string) (tok : string) : list string :=
  match s with
  | EmptyString => if String.eqb tok "" then [] else [tok]
  | String c s' =>
      if is_space c
      then (if String.eqb tok "" then split_aux s' "" else tok :: split_aux s' "")
      else split_aux s' (tok +:+ String c EmptyString)
  end.

(** [s.split()]. *)
Definition split (s : string) : list string := split_aux s "".

Definition is_digit (c : ascii) : bool :=
  let n := nat_of_ascii c in ((48 <=? n) && (n <=? 57))%nat.

(** Decimal digits, with single underscores allowed between digits. *)
Fixpoint digits_value (acc : Z) (after_digit : bool) (cs : list ascii) : option Z :=
  match cs with
  | [] => if after_digit then Some acc else None
  | c :: cs' =>
      if is_digit c
      then digits_value (10 * acc + (Z.of_nat (nat_of_ascii c) - 48)) true cs'
      else if (c =? "_")%char && after_digit
      then digits_value acc false cs'
      else None
  end.

(** [int(s)] on a token without white space. *)
Definition int_of_str (s : string) : result Z :=
  let parsed :=
    match list_ascii_of_string s with
    | c :: cs =>
        if (c =? "-")%char then Z.opp <$> digits_value 0 false cs
        else if (c =? "+")%char then digits_value 0 false cs
        else digits_value 0 false (c :: cs)
    | [] => None
    end in
  match parsed with
  | Some z => Ok z
  | None => Raise ValueError
  end.

Definition nl : string := String (ascii_of_nat 10) EmptyString.

(** ** The world: files and standard output *)

Definition range3 : Type := (spec_float * spec_float) * (spec_float * spec_float)
                            * (spec_float * spec_float).

(** One constructor per [print] of the program, carrying the values that
    are printed rather than their text. *)
Inductive event : Type :=
| EvAnalyzing (filepath : string)
| EvNoVerticesRead
| EvSpatialAnalysis (sampled : nat)
| EvAxisRange (axis : nat) (lo hi extent : spec_float)
| EvCenter (cx cy cz : spec_float)
| EvCenterCrop (ratio : spec_float)
| EvSuggestedHeading
| EvSuggested (axis : nat) (lo hi : spec_float)
| EvUsingSuggested
| EvCroppingTo (r : range3)
| EvProcessing (vertex_count : Z)
| EvProgress (progress vertex_count : Z) (kept : nat)
| EvNoVerticesRemain
| EvResults (original : Z) (cropped : nat)
| EvSaved (output_path : string).

Record world : Type := World {
  files : gmap string (list byte);
  stdout : list event
}.

Inductive outcome (A : Type) : Type :=
| Ret (a : A)
| Exc (e : exn)
| Timeout.

Arguments Ret {A} a.
Arguments Exc {A} e.
Arguments Timeout {A}.

Definition M (A : Type) : Type := world -> outcome A * world.

Definition ret {A : Type} (a : A) : M A := fun w => (Ret a, w).

Definition bind {A B : Type} (c : M A) (k : A -> M B) : M B :=
  fun w =>
    match c w with
    | (Ret a, w') => k a w'
    | (Exc e, w') => (Exc e, w')
    | (Timeout, w') => (Timeout, w')
    end.

Notation "x <~ c ;; k" := (bind c (fun x => k))
  (at level 60, c at next level, right associativity).
Notation "c ;;; k" := (bind c (fun _ => k))
  (at level 60, right associativity).

Definition liftR {A : Type} (r : result A) : M A :=
  fun w => match r with Ok a => (Ret a, w) | Raise e => (Exc e, w) end.

Definition liftO {A : Type} (o : outcome A) : M A := fun w => (o, w).

Definition print (ev : event) : M unit :=
  fun w => (Ret tt, World (files w) (stdout w ++ [ev])).

(** [open(path, 'rb')], reading the whole content. *)
Definition open_read (path : string) : M (list byte) :=
  fun w =>
    match files w !! path with
    | Some data => (Ret data, w)
    | None => (Exc FileNotFoundError, w)
    end.

(** [open(path, 'wb')] creates or empties the file. *)
Definition open_write (path : string) : M unit :=
  fun w => (Ret tt, World (<[path := []]> (files w)) (stdout w)).

(** [f.write(bs)] on a file opened by [open_write]. *)
Definition f_write (path : string) (bs : list byte) : M unit :=
  fun w =>
    (Ret tt, World (<[path := default [] (files w !! path) ++ bs]> (files w)) (stdout w)).

Fixpoint for_each {A : Type} (body : A -> M unit) (xs : list A) : M unit :=
  match xs with
  | [] => ret tt
  | x :: xs' => body x ;;; for_each body xs'
  end.

(** ** Reading the header *)

(** [f.readline()]: the bytes up to and including the next newline, and
    what is left of the file. *)
Fixpoint readline (rest : list byte) : list byte * list byte :=
  match rest with
  | [] => ([], [])
  | b :: rest' =>
      if Byte.eqb b x0a then ([b], rest')
      else let '(l, r) := readline rest' in (b :: l, r)
  end.

(** The [while line != 'end_header'] loop. *)
Fixpoint header_loop (fuel : nat) (rest : list byte) (pos : nat) (line : string)
  (header_lines : list string) : outcome (list string * nat) :=
  if String.eqb line "end_header" then Ret (header_lines, pos)
  else
    match fuel with
    | O => Timeout
    | S fuel' =>
        let '(raw, rest') := readline rest in
        match decode_ascii raw with
        | Raise e => Exc e
        | Ok s =>
            let line' := strip s in
            header_loop fuel' rest' (pos + length raw)%nat line' (header_lines ++ [line'])
        end
    end.

Definition read_header_bytes (fuel : nat) (data : list byte) : outcome (list string * nat) :=
  let '(raw, rest) := readline data in
  match decode_ascii raw with
  | Raise e => Exc e
  | Ok s => let line := strip s in header_loop fuel rest (length raw) line [line]
  end.

Definition read_ply_header (fuel : nat) (filepath : string) : M (list string * nat) :=
  data <~ open_read filepath ;; liftO (read_header_bytes fuel data).

(** ** Parsing the header *)

Definition header_state : Type := Z * list (string * string) * option string.

Definition parse_header_line (st : header_state) (line : string) : result header_state :=
  let '(vertex_count, properties, format_type) := st in
  if String.prefix "format" line then
    f <- py_index (split line) 1 ;;
    Ok (vertex_count, properties, Some f)
  else if String.prefix "element vertex" line then
    t <- py_index (split line) 2 ;;
    n <- int_of_str t ;;
    Ok (n, properties, format_type)
  else if String.prefix "property" line then
    let parts := split line in
    prop_type <- py_index parts 1 ;;
    prop_name <- py_index parts 2 ;;
    Ok (vertex_count, properties ++ [(prop_type, prop_name)], format_type)
  else Ok st.

Fixpoint parse_header_lines (st : header_state) (header_lines : list string)
  : result header_state :=
  match header_lines with
  | [] => Ok st
  | line :: rest => st' <- parse_header_line st line ;; parse_header_lines st' rest
  end.

Definition parse_ply_header (header_lines : list string) : result header_state :=
  parse_header_lines (0, [], None) header_lines.

(** ** The record layout *)

Definition create_struct_format (properties : list (string * string)) : string :=
  fold_left
    (fun format_str '(prop_type, prop_name) =>
       if String.eqb prop_type "float" then format_str +:+ "f"
       else if String.eqb prop_type "uchar" then format_str +:+ "B"
       else if String.eqb prop_type "int" then format_str +:+ "i"
       else if String.eqb prop_type "double" then format_str +:+ "d"
       else format_str)
    properties "<"%string.

(** ** Estimating the bounds from a sample *)

(** The number of values of [range(0, stop, step)] for a positive step. *)
Definition range_length (stop step : Z) : nat := Z.to_nat ((stop + step - 1) / step).

(** [a // b]. *)
Definition floordiv (a b : Z) : result Z :=
  if b =? 0 then Raise ZeroDivisionError else Ok (a / b).

Record bounds_info : Type := BoundsInfo {
  min_bounds : list spec_float;
  max_bounds : list spec_float;
  center : list spec_float;
  ranges : list spec_float;
  vertex_count_of : Z;
  properties_of : list (string * string)
}.

Section Sampling.

Variable format_str : string.
Variable vertex_size : nat.
Variable data : list byte.
Variable data_offset : nat.
Variable actual_sample_size : Z.
Variable step : Z.

(** [f.seek(data_offset + i * vertex_size); f.read(vertex_size)]. *)
Definition read_at (i : Z) : list byte :=
  take vertex_size (drop (Z.to_nat (Z.of_nat data_offset + i * Z.of_nat vertex_size)) data).

(** The [for i in range(0, vertex_count, step)] loop; [n] counts the
    values of the range still to visit. *)
Fixpoint sample_loop (n : nat) (i : Z) (vertices : list (list pyval))
  : result (list (list pyval)) :=
  match n with
  | O => Ok vertices
  | S n' =>
      if Z.of_nat (length vertices) >=? actual_sample_size then Ok vertices
      else
        let vertex_data := read_at i in
        if negb (length vertex_data =? vertex_size)%nat then Ok vertices
        else
          vertex <- struct_unpack format_str vertex_data ;;
          sample_loop n' (i + step) (vertices ++ [vertex])
  end.

End Sampling.

(** [xyz = vertices[:, :3]], column by column. *)
Definition first_three_columns (rows : list (list pyval)) : list (list spec_float) :=
  omap (fun k => column k rows) [0; 1; 2]%nat.

Definition two : spec_float := IEEE.of_Z 2.

Definition print_axis_range (axis : nat) (min_b max_b rng : list spec_float) : M unit :=
  lo <~ liftR (py_index min_b axis) ;;
  hi <~ liftR (py_index max_b axis) ;;
  ext <~ liftR (py_index rng axis) ;;
  print (EvAxisRange axis lo hi ext).

(** Lines 67 to 86 of the source: the evenly spaced sample. *)
Definition draw_sample (format_str : string) (vertex_size : nat) (data : list byte)
  (data_offset : nat) (vertex_count sample_size : Z) : result (list (list pyval)) :=
  let actual_sample_size := Z.min sample_size vertex_count in
  q <- floordiv vertex_count actual_sample_size ;;
  let step := Z.max 1 q in
  sample_loop format_str vertex_size data data_offset actual_sample_size step
    (range_length vertex_count step) 0 [].

(** Lines 88 to 116: the bounds of the sample. *)
Definition summarize_sample (sampled : list (list pyval)) (vertex_count : Z)
  (properties : list (string * string)) : M (option bounds_info) :=
  let vertices := np_array sampled in
  if (length vertices =? 0)%nat then
    print EvNoVerticesRead ;;; ret None
  else
    let xyz := first_three_columns vertices in
    let min_b := map (np_reduce np_minimum) xyz in
    let max_b := map (np_reduce np_maximum) xyz in
    let ctr := zip_with (fun a b => IEEE.div (IEEE.add a b) two) min_b max_b in
    let rng := zip_with IEEE.sub max_b min_b in
    print (EvSpatialAnalysis (length vertices)) ;;;
    print_axis_range 0 min_b max_b rng ;;;
    print_axis_range 1 min_b max_b rng ;;;
    print_axis_range 2 min_b max_b rng ;;;
    cx <~ liftR (py_index ctr 0) ;;
    cy <~ liftR (py_index ctr 1) ;;
    cz <~ liftR (py_index ctr 2) ;;
    print (EvCenter cx cy cz) ;;;
    ret (Some (BoundsInfo min_b max_b ctr rng vertex_count properties)).

Definition analyze_point_cloud_bounds (fuel : nat) (filepath : string) (sample_size : Z)
  : M (option bounds_info) :=
  print (EvAnalyzing filepath) ;;;
  hd <~ read_ply_header fuel filepath ;;
  let '(header_lines, data_offset) := hd in
  st <~ liftR (parse_ply_header header_lines) ;;
  let '(vertex_count, properties, format_type) := st in
  let format_str := create_struct_format properties in
  vertex_size <~ liftR (struct_calcsize format_str) ;;
  data <~ open_read filepath ;;
  sampled <~ liftR (draw_sample format_str vertex_size data data_offset vertex_count
                      sample_size) ;;
  summarize_sample sampled vertex_count properties.

(** ** Writing a PLY file *)

(** The conversion of [vertex[i]] to the type of property [i]. *)
Definition convert_value (prop_type : string) (v : pyval) : result pyval :=
  if String.eqb prop_type "float" then x <- float_of_val v ;; Ok (PFloat x)
  else if String.eqb prop_type "uchar" then z <- int_of_val v ;; Ok (PInt (z mod 256))
  else if String.eqb prop_type "int" then z <- int_of_val v ;; Ok (PInt z)
  else if String.eqb prop_type "double" then x <- float_of_val v ;; Ok (PFloat x)
  else Ok v.

(** The [for i, (prop_type, prop_name) in enumerate(properties)] loop. *)
Fixpoint convert_vertex (i : nat) (properties : list (string * string))
  (vertex : list pyval) : result (list pyval) :=
  match properties with
  | [] => Ok []
  | (prop_type, prop_name) :: rest =>
      v <- py_index vertex i ;;
      c <- convert_value prop_type v ;;
      cs <- convert_vertex (S i) rest vertex ;;
      Ok (c :: cs)
  end.

(** One record of the body: conversion, then [struct.pack]. *)
Definition encode_vertex (properties : list (string * string)) (vertex : list pyval)
  : result (list byte) :=
  converted_vertex <- convert_vertex 0 properties vertex ;;
  struct_pack (create_struct_format properties) converted_vertex.

Definition write_text (path : string) (text : string) : M unit :=
  bs <~ liftR (encode_ascii text) ;; f_write path bs.

Definition write_ply_file (output_path : string) (vertices : list (list pyval))
  (properties : list (string * string)) (comments : list string) : M unit :=
  let vertex_count := length vertices in
  open_write output_path ;;;
  f_write output_path (list_byte_of_string ("ply" +:+ nl)) ;;;
  f_write output_path (list_byte_of_string ("format binary_little_endian 1.0" +:+ nl)) ;;;
  for_each (fun comment => write_text output_path ("comment " +:+ comment +:+ nl))
    comments ;;;
  write_text output_path
    ("element vertex " +:+ string_of_Z (Z.of_nat vertex_count) +:+ nl) ;;;
  for_each (fun '(prop_type, prop_name) =>
              write_text output_path
                ("property " +:+ prop_type +:+ " " +:+ prop_name +:+ nl))
    properties ;;;
  f_write output_path (list_byte_of_string ("end_header" +:+ nl)) ;;;
  for_each (fun vertex =>
              vertex_data <~ liftR (encode_vertex properties vertex) ;;
              f_write output_path vertex_data)
    vertices.

(** ** Cropping *)

Definition chunk_size : Z := 50000.

(** The mask of one row: all six comparisons, on the first three columns. *)
Definition in_range (r : range3) (row : list pyval) : result bool :=
  let '(x_range, y_range, z_range) := r in
  x <- py_index row 0 ;;
  y <- py_index row 1 ;;
  z <- py_index row 2 ;;
  Ok (SFleb (fst x_range) (as_float x) && SFleb (as_float x) (snd x_range)
      && SFleb (fst y_range) (as_float y) && SFleb (as_float y) (snd y_range)
      && SFleb (fst z_range) (as_float z) && SFleb (as_float z) (snd z_range)).

(** [chunk_array[mask]]. *)
Definition select_rows (mask : list bool) (rows : list (list pyval)) : list (list pyval) :=
  map snd (List.filter fst (zip mask rows)).

Section Filtering.

Variable format_str : string.
Variable vertex_size : nat.
Variable vertex_count : Z.
Variable r : range3.

(** The [for i in range(chunk_count)] loop; the file position is the list
    of bytes not read yet. *)
Fixpoint read_chunk (n : nat) (rest : list byte) (chunk_vertices : list (list pyval))
  : result (list (list pyval) * list byte) :=
  match n with
  | O => Ok (chunk_vertices, rest)
  | S n' =>
      let vertex_data := take vertex_size rest in
      let rest' := drop vertex_size rest in
      if negb (length vertex_data =? vertex_size)%nat then Ok (chunk_vertices, rest')
      else
        vertex <- struct_unpack format_str vertex_data ;;
        read_chunk n' rest' (chunk_vertices ++ [vertex])
  end.

(** The [for chunk_start in range(0, vertex_count, chunk_size)] loop. *)
Fixpoint chunk_loop (n : nat) (chunk_start : Z) (rest : list byte)
  (cropped_vertices : list (list pyval)) : M (list (list pyval)) :=
  match n with
  | O => ret cropped_vertices
  | S n' =>
      let chunk_end := Z.min (chunk_start + chunk_size) vertex_count in
      let chunk_count := chunk_end - chunk_start in
      rd <~ liftR (read_chunk (Z.to_nat chunk_count) rest []) ;;
      let '(chunk_vertices, rest') := rd in
      match chunk_vertices with
      | [] => ret cropped_vertices
      | _ :: _ =>
          let chunk_array := np_array chunk_vertices in
          mask <~ liftR (rmapM (in_range r) chunk_array) ;;
          let filtered_chunk := select_rows mask chunk_array in
          let cropped_vertices' :=
            if (0 <? length filtered_chunk)%nat
            then cropped_vertices ++ filtered_chunk
            else cropped_vertices in
          let progress := Z.min chunk_end vertex_count in
          print (EvProgress progress vertex_count (length cropped_vertices')) ;;;
          chunk_loop n' (chunk_start + chunk_size) rest' cropped_vertices'
      end
  end.

End Filtering.

Definition centered (c half : spec_float) : spec_float * spec_float :=
  (IEEE.sub c half, IEEE.add c half).

(** The three ways of choosing the ranges. *)
Definition choose_ranges (bi : bounds_info)
  (x_range y_range z_range : option (spec_float * spec_float))
  (center_crop_ratio : option spec_float) (interactive : bool) : M range3 :=
  match center_crop_ratio with
  | Some ratio =>
      let new_ranges := map (fun x => IEEE.mul x ratio) (ranges bi) in
      c0 <~ liftR (py_index (center bi) 0) ;;
      n0 <~ liftR (py_index new_ranges 0) ;;
      c1 <~ liftR (py_index (center bi) 1) ;;
      n1 <~ liftR (py_index new_ranges 1) ;;
      c2 <~ liftR (py_index (center bi) 2) ;;
      n2 <~ liftR (py_index new_ranges 2) ;;
      print (EvCenterCrop ratio) ;;;
      ret (centered c0 (IEEE.div n0 two), centered c1 (IEEE.div n1 two),
           centered c2 (IEEE.div n2 two))
  | None =>
      let suggest lo hi :=
        let margin := IEEE.tenth in
        (IEEE.add lo (IEEE.mul (IEEE.sub hi lo) margin),
         IEEE.sub hi (IEEE.mul (IEEE.sub hi lo) margin)) in
      if interactive then
        print EvSuggestedHeading ;;;
        lo0 <~ liftR (py_index (min_bounds bi) 0) ;;
        hi0 <~ liftR (py_index (max_bounds bi) 0) ;;
        lo1 <~ liftR (py_index (min_bounds bi) 1) ;;
        hi1 <~ liftR (py_index (max_bounds bi) 1) ;;
        lo2 <~ liftR (py_index (min_bounds bi) 2) ;;
        hi2 <~ liftR (py_index (max_bounds bi) 2) ;;
        let xr := suggest lo0 hi0 in
        let yr := suggest lo1 hi1 in
        let zr := suggest lo2 hi2 in
        print (EvSuggested 0 (fst xr) (snd xr)) ;;;
        print (EvSuggested 1 (fst yr) (snd yr)) ;;;
        print (EvSuggested 2 (fst zr) (snd zr)) ;;;
        print EvUsingSuggested ;;;
        ret (xr, yr, zr)
      else
        let default_to given axis :=
          match given with
          | Some rg => ret rg
          | None =>
              lo <~ liftR (py_index (min_bounds bi) axis) ;;
              hi <~ liftR (py_index (max_bounds bi) axis) ;;
              ret (lo, hi)
          end in
        xr <~ default_to x_range 0%nat ;;
        yr <~ default_to y_range 1%nat ;;
        zr <~ default_to z_range 2%nat ;;
        ret (xr, yr, zr)
  end.

Definition format_range (axis : string) (rg : spec_float * spec_float) : string :=
  axis +:+ " range: [" +:+ format_3f (fst rg) +:+ ", " +:+ format_3f (snd rg) +:+ "]".

Definition crop_comments (input_path : string) (r : range3) (vertex_count : Z)
  (cropped : nat) : list string :=
  let '(x_range, y_range, z_range) := r in
  [ "Spatially cropped from " +:+ input_path;
    format_range "X" x_range;
    format_range "Y" y_range;
    format_range "Z" z_range;
    "Original: " +:+ string_of_Z vertex_count +:+ ", Cropped: "
      +:+ string_of_Z (Z.of_nat cropped) ]%string.

(** Lines 169 to 237: the second reading of the header, the filtering
    pass and the output. *)
Definition crop_pass (fuel : nat) (input_path output_path : string) (r : range3) : M bool :=
  hd <~ read_ply_header fuel input_path ;;
  let '(header_lines, data_offset) := hd in
  st <~ liftR (parse_ply_header header_lines) ;;
  let '(vertex_count, properties, format_type) := st in
  let format_str := create_struct_format properties in
  vertex_size <~ liftR (struct_calcsize format_str) ;;
  print (EvProcessing vertex_count) ;;;
  data <~ open_read input_path ;;
  cropped <~ chunk_loop format_str vertex_size vertex_count r
               (range_length vertex_count chunk_size) 0 (drop data_offset data) [] ;;
  match cropped with
  | [] => print EvNoVerticesRemain ;;; ret false
  | _ :: _ =>
      let cropped_vertices := np_array cropped in
      print (EvResults vertex_count (length cropped_vertices)) ;;;
      write_ply_file output_path cropped_vertices properties
        (crop_comments input_path r vertex_count (length cropped_vertices)) ;;;
      print (EvSaved output_path) ;;;
      ret true
  end.

Definition crop_by_bounds (fuel : nat) (input_path output_path : string)
  (x_range y_range z_range : option (spec_float * spec_float))
  (center_crop_ratio : option spec_float) (interactive : bool) : M bool :=
  bounds <~ analyze_point_cloud_bounds fuel input_path 10000 ;;
  match bounds with
  | None => ret false
  | Some bi =>
      r <~ choose_ranges bi x_range y_range z_range center_crop_ratio interactive ;;
      print (EvCroppingTo r) ;;;
      crop_pass fuel input_path output_path r
  end.

(** ** Vocabulary of the properties *)

(** The format character of a supported type tag. *)
Definition code_of_type (prop_type : string) : option code :=
  if String.eqb prop_type "float" then Some Cf
  else if String.eqb prop_type "uchar" then Some CB
  else if String.eqb prop_type "int" then Some Ci
  else if String.eqb prop_type "double" then Some Cd
  else None.

(** The layout of a field list: one code per supported field. *)
Definition layout (properties : list (string * string)) : list code :=
  omap (fun p => code_of_type (fst p)) properties.

(** A value that fits the type of its field: a binary32 number in a
    [float] field, a binary64 number in a [double] field, a signed 32-bit
    integer in an [int] field, any integer in a [uchar] field. *)
Inductive typed_value : string -> pyval -> Prop :=
| typed_float y :
    valid_binary 24 128 y = true -> typed_value "float" (PFloat (IEEE.widen y))
| typed_double x :
    valid_binary 53 1024 x = true -> typed_value "double" (PFloat x)
| typed_int z :
    - 2 ^ 31 <= z < 2 ^ 31 -> typed_value "int" (PInt z)
| typed_uchar z :
    typed_value "uchar" (PInt z).

(** What a field reads back as: itself, except that an unsigned byte is
    reduced modulo 256. *)
Definition read_back (prop_type : string) (v : pyval) : pyval :=
  match v with
  | PInt z => if String.eqb prop_type "uchar" then PInt (z mod 256) else v
  | PFloat _ => v
  end.

(** The lines of a file, each with its newline; the last one may lack it. *)
Fixpoint split_lines (data : list byte) : list (list byte) :=
  match data with
  | [] => []
  | b :: rest =>
      if Byte.eqb b x0a then [b] :: split_lines rest
      else
        match split_lines rest with
        | [] => [[b]]
        | l :: ls => (b :: l) :: ls
        end
  end.

(** A raw line as the header loop sees it: decoded, then stripped. *)
Definition line_text (raw : list byte) : result string :=
  s <- decode_ascii raw ;; Ok (strip s).

(** No line of the file is the terminator. *)
Definition no_terminator (data : list byte) : Prop :=
  Forall (fun raw => line_text raw <> Ok "end_header"%string) (split_lines data).

(** The longest prefix whose elements all pass the test. *)
Fixpoint take_while {A : Type} (p : A -> bool) (xs : list A) : list A :=
  match xs with
  | [] => []
  | x :: xs' => if p x then x :: take_while p xs' else []
  end.

(** The first [n] records of a body, up to the first one that is cut
    short by the end of the file. *)
Fixpoint records_of (vertex_size : nat) (n : nat) (rest : list byte) : list (list byte) :=
  match n with
  | O => []
  | S n' =>
      if (length (take vertex_size rest) =? vertex_size)%nat
      then take vertex_size rest :: records_of vertex_size n' (drop vertex_size rest)
      else []
  end.

(** What is left of the body after reading them. *)
Fixpoint rest_after (vertex_size : nat) (n : nat) (rest : list byte) : list byte :=
  match n with
  | O => rest
  | S n' =>
      if (length (take vertex_size rest) =? vertex_size)%nat
      then rest_after vertex_size n' (drop vertex_size rest)
      else drop vertex_size rest
  end.

(** The records of a file, decoded: those the declared count and the
    length of the body allow. *)
Definition decoded_records (properties : list (string * string)) (vertex_count : Z)
  (body : list byte) : list (list pyval) :=
  map (unpack_codes (layout properties))
    (records_of (codes_size (layout properties)) (Z.to_nat vertex_count) body).

(** The mask as a total test: a row too short to have three coordinates
    is not inside. *)
Definition inside (r : range3) (row : list pyval) : bool :=
  match in_range r row with
  | Ok b => b
  | Raise _ => false
  end.

(** The world in which a file has the given content. *)
Definition set_file (path : string) (content : list byte) (w : world) : world :=
  World (<[path := content]> (files w)) (stdout w).

(** The world after more has been printed. *)
Definition printed (evs : list event) (w : world) : world :=
  World (files w) (stdout w ++ evs).

(** The header that [write_ply_file] emits, as text. *)
Definition comment_line (comment : string) : string := "comment " +:+ comment +:+ nl.

Definition property_line (p : string * string) : string :=
  "property " +:+ fst p +:+ " " +:+ snd p +:+ nl.

Definition header_text (vertex_count : nat) (properties : list (string * string))
  (comments : list string) : string :=
  ("ply" +:+ nl) +:+ ("format binary_little_endian 1.0" +:+ nl)
  +:+ foldr (fun comment s => comment_line comment +:+ s) "" comments
  +:+ ("element vertex " +:+ string_of_Z (Z.of_nat vertex_count) +:+ nl)
  +:+ foldr (fun p s => property_line p +:+ s) "" properties
  +:+ ("end_header" +:+ nl).

(** A computation that leaves every file as it was. *)
Definition read_only {A : Type} (c : M A) : Prop :=
  forall w, files (snd (c w)) = files w.

(** A computation that only prints, and only events of a given kind. *)
Definition prints (P : event -> Prop) {A : Type} (c : M A) : Prop :=
  forall w, exists evs, snd (c w) = printed evs w /\ Forall P evs.

Definition prints_only {A : Type} (c : M A) : Prop := prints (fun _ => True) c.

Definition is_progress (ev : event) : Prop :=
  exists progress vertex_count kept, ev = EvProgress progress vertex_count kept.

(** ** Sample files *)

Module Sample.

Definition f32_one : list byte := [x00; x00; x80; x3f].
Definition f32_minus_one : list byte := [x00; x00; x80; xbf].
Definition f32_zero : list byte := [x00; x00; x00; x00].
Definition f32_half : list byte := [x00; x00; x00; x3f].
Definition f32_minus_half : list byte := [x00; x00; x00; xbf].
Definition f32_hundred : list byte := [x00; x00; xc8; x42].

Definition properties : list (string * string) :=
  [("float", "x"); ("float", "y"); ("float", "z");
   ("uchar", "red"); ("uchar", "green"); ("uchar", "blue")]%string.

(** Five records: the third one lies at (100, 0, 0), the others inside
    the cube from -1 to 1, two of them on its boundary. *)
Definition record0 : list byte := f32_one ++ f32_one ++ f32_one ++ [xff; x00; x00].
Definition record1 : list byte := f32_zero ++ f32_zero ++ f32_zero ++ [x00; xff; x00].
Definition record2 : list byte := f32_hundred ++ f32_zero ++ f32_zero ++ [x00; x00; xff].
Definition record3 : list byte :=
  f32_minus_one ++ f32_minus_one ++ f32_minus_one ++ [x01; x02; x03].
Definition record4 : list byte := f32_half ++ f32_minus_half ++ f32_half ++ [x0a; x14; x1e].

Definition body : list byte := record0 ++ record1 ++ record2 ++ record3 ++ record4.

Definition input : list byte := list_byte_of_string (header_text 5 properties []) ++ body.

Definition world_of (data : list byte) : world := World {["in.ply"%string := data]} [].

Definition one : spec_float := IEEE.of_Z 1.
Definition minus_one : spec_float := IEEE.of_Z (-1).
Definition unit_range : spec_float * spec_float := (minus_one, one).
Definition unit_cube : range3 := (unit_range, unit_range, unit_range).
Definition far_range : spec_float * spec_float := (IEEE.of_Z 5, IEEE.of_Z 6).

(** A header that never ends. *)
Definition unterminated : list byte :=
  list_byte_of_string
    ("ply" +:+ nl +:+ "format binary_little_endian 1.0" +:+ nl
     +:+ "element vertex 1" +:+ nl +:+ "property float x" +:+ nl).

(** A file that declares no record. *)
Definition empty_declared : list byte := list_byte_of_string (header_text 0 properties []).

(** A file that declares five records and holds none. *)
Definition empty_body : list byte := list_byte_of_string (header_text 5 properties []).

(** A file with a field of a type the program does not know. *)
Definition short_properties : list (string * string) :=
  [("float", "x"); ("float", "y"); ("float", "z"); ("short", "s")]%string.

Definition with_short : list byte :=
  list_byte_of_string (header_text 1 short_properties [])
  ++ f32_one ++ f32_zero ++ f32_half ++ [x07; x00].

(** A record with a value for each supported type. *)
Definition mixed_properties : list (string * string) :=
  [("float", "x"); ("double", "t"); ("int", "id"); ("uchar", "red")]%string.

Definition mixed_record : list pyval :=
  [PFloat (IEEE.widen (S754_finite false 12582912 (-23)));
   PFloat IEEE.tenth; PInt (-5); PInt 300].

(** The header lines of [input], the result of its analysis, and a crop
    that keeps nothing. *)
Definition header_lines : list string :=
  [ "ply"; "format binary_little_endian 1.0"; "element vertex 5";
    "property float x"; "property float y"; "property float z";
    "property uchar red"; "property uchar green"; "property uchar blue";
    "end_header" ]%string.

Definition analysed : outcome (option bounds_info) * world :=
  analyze_point_cloud_bounds 20 "in.ply" 10000 (world_of input).

Definition bounds : bounds_info :=
  match fst analysed with
  | Ret (Some bi) => bi
  | _ => BoundsInfo [] [] [] [] 0 []
  end.

Definition far_cube : range3 := (far_range, unit_range, unit_range).

End Sample.


(** ** Further vocabulary *)

(** A computation that changes no file other than the one at [path]. *)
Definition writes_only (path : string) {A : Type} (c : M A) : Prop :=
  forall w p, p <> path -> files (snd (c w)) !! p = files w !! p.

(** The sample file with the first letter of its second line replaced by
    the byte 0xe9. *)
Definition latin1_header : list byte :=
  firstn 4 Sample.input ++ [xe9] ++ skipn 5 Sample.input.

(** A header line that starts with one of the three keywords the parser
    looks for. *)
Definition is_keyword_line (line : string) : bool :=
  String.prefix "format" line || String.prefix "element vertex" line
  || String.prefix "property" line.

(** The type and name on a [property] line, whatever element the line
    belongs to. *)
Definition property_of_line (line : string) : option (string * string) :=
  if String.prefix "property" line then
    match split line with
    | _ :: prop_type :: prop_name :: _ => Some (prop_type, prop_name)
    | _ => None
    end
  else None.

(** The number of tokens a keyword line is indexed up to. *)
Definition tokens_needed (line : string) : nat :=
  if String.prefix "format" line then 2
  else if String.prefix "element vertex" line then 3
  else if String.prefix "property" line then 3
  else 0.

(** A header with a face element after the vertex element. *)
Definition header_with_faces : list string :=
  [ "ply"; "format ascii 1.0"; "element vertex 1"; "property float x";
    "element face 2"; "property list uchar int vertex_indices"; "end_header" ]%string.

(** A file with two fields only. *)
Definition two_fields : list (string * string) := [("float", "x"); ("float", "y")]%string.

Definition flat_input : list byte :=
  list_byte_of_string (header_text 1 two_fields []) ++ Sample.f32_one ++ Sample.f32_one.

(** A file that declares a negative number of records. *)
Definition negative_declared : list byte :=
  list_byte_of_string
    ("ply" +:+ nl +:+ "format binary_little_endian 1.0" +:+ nl
     +:+ "element vertex -5" +:+ nl
     +:+ "property float x" +:+ nl +:+ "property float y" +:+ nl
     +:+ "property float z" +:+ nl +:+ "end_header" +:+ nl)
  ++ Sample.body.

(** The sample drawn from [Sample.input] and its first column. *)
Definition sampled_rows : list (list pyval) :=
  match draw_sample (create_struct_format Sample.properties)
          (codes_size (layout Sample.properties)) Sample.input 175 5 10000 with
  | Ok rows => rows
  | Raise _ => []
  end.

Definition x_column : list spec_float :=
  default [] (column 0 (np_array sampled_rows)).

(** A range with its ends the wrong way round. *)
Definition inverted_range : spec_float * spec_float := (Sample.one, Sample.minus_one).

(** ** The command line of the crop script *)

Module Cli.

(** The namespace that [parser.parse_args()] returns; an option that was
    not given is [None]. *)
Record arguments : Type := Arguments {
  input : string;
  output : string;
  analyze_only : bool;
  x_min : option spec_float;
  x_max : option spec_float;
  y_min : option spec_float;
  y_max : option spec_float;
  z_min : option spec_float;
  z_max : option spec_float;
  center_crop : option spec_float;
  interactive : bool
}.

(** The two messages [main] prints itself. Each is printed just before
    [main] returns and before anything else is printed, so [main] hands
    them back with its exit status. *)
Inductive message : Type :=
| InputDoesNotExist (path : string)
| BothBoundsRequired (axis : nat).

(** [os.path.exists(path)]. *)
Definition path_exists (path : string) : M bool :=
  fun w => (Ret (match files w !! path with Some _ => true | None => false end), w).

(** The two bounds of one axis: no range when neither is given, the range
    when both are, and [None] for the error when only one is. *)
Definition axis_range (lo hi : option spec_float)
  : option (option (spec_float * spec_float)) :=
  match lo, hi with
  | None, None => Some None
  | Some a, Some b => Some (Some (a, b))
  | _, _ => None
  end.

Definition main (fuel : nat) (args : arguments) : M (Z * list message) :=
  found <~ path_exists (input args) ;;
  if negb found then ret (1, [InputDoesNotExist (input args)])
  else if analyze_only args then
    analyze_point_cloud_bounds fuel (input args) 10000 ;;; ret (0, [])
  else
    match axis_range (x_min args) (x_max args) with
    | None => ret (1, [BothBoundsRequired 0])
    | Some x_range =>
        match axis_range (y_min args) (y_max args) with
        | None => ret (1, [BothBoundsRequired 1])
        | Some y_range =>
            match axis_range (z_min args) (z_max args) with
            | None => ret (1, [BothBoundsRequired 2])
            | Some z_range =>
                success <~ crop_by_bounds fuel (input args) (output args)
                             x_range y_range z_range (center_crop args)
                             (interactive args) ;;
                ret (if success then 0 else 1, [])
            end
        end
    end.

(** One bound of a pair given without the other. *)
Definition one_sided (lo hi : option spec_float) : bool :=
  match lo, hi with
  | Some _, None | None, Some _ => true
  | _, _ => false
  end.

(** Command lines on the sample file. *)
Definition crop_to_unit_cube : arguments :=
  Arguments "in.ply" "out.ply" false
    (Some Sample.minus_one) (Some Sample.one) (Some Sample.minus_one) (Some Sample.one)
    (Some Sample.minus_one) (Some Sample.one) None false.

Definition lower_x_only : arguments :=
  Arguments "in.ply" "out.ply" false (Some Sample.minus_one) None None None None None None
    false.

Definition analysis_with_one_bound : arguments :=
  Arguments "in.ply" "out.ply" true (Some Sample.minus_one) None None None None None None
    false.

End Cli.

(** ** The frame loop of the video script *)

Module Viz.

(** What the loop does that can be seen from outside: its two kinds of
    message, the calls to [ax.view_init] with the elevation and the
    azimuth as floats, the frames grabbed and the closing message. *)
Inductive event : Type :=
| Generating (n_frames : Z)
| Frame (number n_frames : Z)
| ViewInit (elev azim : spec_float)
| GrabFrame
| Saved (out : string).

(** [a - b] on numbers: integers stay integers, anything else is a
    float. *)
Definition py_sub (a b : pyval) : result pyval :=
  match a, b with
  | PInt x, PInt y => Ok (PInt (x - y))
  | _, _ => x <- float_of_val a ;; y <- float_of_val b ;; Ok (PFloat (IEEE.sub x y))
  end.

(** [i / n] on integers: true division. The quotient of the two
    conversions is the correctly rounded quotient for operands below
    2^53 in magnitude, which frame numbers are. *)
Definition py_truediv (i n : Z) : result spec_float :=
  if n =? 0 then Raise ZeroDivisionError
  else Ok (IEEE.div (IEEE.of_Z i) (IEEE.of_Z n)).

(** [azim_start + (azim_end - azim_start) * (i / (n_frames - 1))], the
    operands evaluated from left to right. *)
Definition azimuth (azim_start azim_end : pyval) (i n_frames : Z) : result spec_float :=
  d <- py_sub azim_end azim_start ;;
  q <- py_truediv i (n_frames - 1) ;;
  df <- float_of_val d ;;
  s <- float_of_val azim_start ;;
  Ok (IEEE.add s (IEEE.mul df q)).

(** The [for i in range(n_frames)] loop; [count] is the number of values
    of the range still to visit. *)
Fixpoint frame_loop (elev azim_start azim_end : pyval) (n_frames : Z) (count : nat)
  (i : Z) (trace : list event) : list event * result unit :=
  match count with
  | O => (trace, Ok tt)
  | S count' =>
      let trace1 := if i mod 10 =? 0 then trace ++ [Frame (i + 1) n_frames] else trace in
      match azimuth azim_start azim_end i n_frames with
      | Raise e => (trace1, Raise e)
      | Ok az =>
          match float_of_val elev with
          | Raise e => (trace1, Raise e)
          | Ok el =>
              frame_loop elev azim_start azim_end n_frames count' (i + 1)
                (trace1 ++ [ViewInit el az; GrabFrame])
          end
      end
  end.

(** Lines 116 to 132 of [main]: the number of frames, the loop and the
    closing message, for the elevation and the azimuths that the style or
    the command line gave. *)
Definition render (seconds fps : Z) (elev azim_start azim_end : pyval) (out : string)
  : list event * result unit :=
  let n_frames := Z.max 1 (seconds * fps) in
  match frame_loop elev azim_start azim_end n_frames (Z.to_nat n_frames) 0
          [Generating n_frames] with
  | (trace, Ok _) => (trace ++ [Saved out], Ok tt)
  | (trace, Raise e) => (trace, Raise e)
  end.

(** Both azimuths come from a style, as integers, or both from the
    command line, as floats. *)
Definition same_kind (a b : pyval) : bool :=
  match a, b with
  | PInt _, PInt _ | PFloat _, PFloat _ => true
  | _, _ => false
  end.

Definition is_frame_message (ev : event) : bool :=
  match ev with Frame _ _ => true | _ => false end.

(** The azimuth of frame [i] once the operands are floats. *)
Definition azimuth_of (s df : spec_float) (n_frames : Z) (i : Z) : spec_float :=
  IEEE.add s (IEEE.mul df (IEEE.div (IEEE.of_Z i) (IEEE.of_Z (n_frames - 1)))).

(** The preset called neon, for two seconds at five frames a second. *)
Definition neon_elev : pyval := PInt 18.
Definition neon_az0 : pyval := PInt (-80).
Definition neon_az1 : pyval := PInt 280.

End Viz.

(** ** Text that survives a header *)

(** A word as [str.split] returns them: not empty and without white
    space. *)
Definition is_token (s : string) : bool :=
  match s with
  | EmptyString => false
  | String _ _ => forallb (fun c => negb (is_space c)) (list_ascii_of_string s)
  end.

(** Text without a line feed. *)
Definition no_newline (s : string) : bool :=
  forallb (fun c => negb (Ascii.eqb c (ascii_of_nat 10))) (list_ascii_of_string s).

(** The lines of the header that [write_ply_file] emits before the
    terminator, without their line feed. *)
Definition written_lines (vertex_count : nat) (properties : list (string * string))
  (comments : list string) : list string :=
  ["ply"; "format binary_little_endian 1.0"]%string
  ++ map (fun comment => "comment " +:+ comment) comments
  ++ ["element vertex " +:+ string_of_Z (Z.of_nat vertex_count)]
  ++ map (fun p => "property " +:+ fst p +:+ " " +:+ snd p) properties.

(** Lines of text as bytes, a line feed after each. *)
Definition raw_line (line : string) : list byte := list_byte_of_string (line +:+ nl).

(** A computation that returns or raises, and that only appends to the
    file at [path] when that file exists. *)
Definition appends_to (path : string) {A : Type} (c : M A) : Prop :=
  forall w content,
    files w !! path = Some content ->
    fst (c w) <> Timeout
    /\ exists more, files (snd (c w)) !! path = Some (content ++ more).

(** The first two lines of every file that [write_ply_file] opens. *)
Definition magic : list byte :=
  list_byte_of_string ("ply" +:+ nl +:+ "format binary_little_endian 1.0" +:+ nl).

(** * Properties of the model *)

(** ** Bytes *)

Lemma byte_to_Z_range b : 0 <= byte_to_Z b < 256.
Proof.
  unfold byte_to_Z. pose proof (Byte.to_N_bounded b) as H.
  lia.
Qed.

Lemma byte_to_Z_to_byte z : byte_to_Z (Z_to_byte z) = z mod 256.
Proof.
  unfold Z_to_byte, byte_to_Z.
  pose proof (Z.mod_pos_bound z 256 ltac:(lia)) as Hr.
  destruct (Byte.of_N (Z.to_N (z mod 256))) as [b|] eqn:E.
  - apply Byte.to_of_N in E. rewrite E. lia.
  - exfalso. pose proof (Byte.to_of_N_option_map (Z.to_N (z mod 256))) as H.
    rewrite E in H. simpl in H.
    destruct (N.leb_spec (Z.to_N (z mod 256)) 255); [discriminate | lia].
Qed.

Lemma Z_to_byte_to_Z b : Z_to_byte (byte_to_Z b) = b.
Proof.
  unfold Z_to_byte, byte_to_Z.
  rewrite Z.mod_small by (pose proof (Byte.to_N_bounded b); lia).
  rewrite N2Z.id, Byte.of_to_N. reflexivity.
Qed.

Lemma length_bytes_of_Z_le n z : length (bytes_of_Z_le n z) = n.
Proof. revert z. induction n as [|n IH]; intros z; simpl; [reflexivity|]. now rewrite IH. Qed.

Lemma Z_of_bytes_of_Z_le n z :
  0 <= z < 256 ^ Z.of_nat n -> Z_of_bytes_le (bytes_of_Z_le n z) = z.
Proof.
  revert z. induction n as [|n IH]; intros z Hz.
  - simpl in *. lia.
  - cbn [bytes_of_Z_le Z_of_bytes_le].
    rewrite byte_to_Z_to_byte, Z.mod_mod by lia.
    rewrite IH.
    + pose proof (Z.div_mod z 256 ltac:(lia)). lia.
    + rewrite Nat2Z.inj_succ, Z.pow_succ_r in Hz by lia.
      split; [apply Z.div_pos; lia | apply Z.div_lt_upper_bound; lia].
Qed.

Lemma Z_of_bytes_le_range bs : 0 <= Z_of_bytes_le bs < 256 ^ Z.of_nat (length bs).
Proof.
  induction bs as [|b bs IH]; simpl length; cbn [Z_of_bytes_le].
  - simpl. lia.
  - rewrite Nat2Z.inj_succ, Z.pow_succ_r by lia.
    pose proof (byte_to_Z_range b). lia.
Qed.

Lemma bytes_of_Z_of_bytes_le bs : bytes_of_Z_le (length bs) (Z_of_bytes_le bs) = bs.
Proof.
  induction bs as [|b bs IH]; [reflexivity|].
  simpl length. cbn [bytes_of_Z_le Z_of_bytes_le].
  pose proof (byte_to_Z_range b) as Hb.
  replace ((byte_to_Z b + 256 * Z_of_bytes_le bs) mod 256) with (byte_to_Z b).
  2:{ apply Z.mod_unique with (q := Z_of_bytes_le bs); lia. }
  replace ((byte_to_Z b + 256 * Z_of_bytes_le bs) / 256) with (Z_of_bytes_le bs).
  2:{ apply Z.div_unique with (r := byte_to_Z b); lia. }
  now rewrite Z_to_byte_to_Z, IH.
Qed.

(** ** Binary digits *)

Lemma digits2_pos_bounds m :
  2 ^ (Zpos (digits2_pos m) - 1) <= Zpos m < 2 ^ Zpos (digits2_pos m).
Proof.
  induction m as [m IH|m IH|]; cbn [digits2_pos].
  - rewrite Pos2Z.inj_succ. replace (Z.succ (Zpos (digits2_pos m)) - 1) with (Z.succ (Zpos (digits2_pos m) - 1)) by lia.
    rewrite !Z.pow_succ_r by lia. lia.
  - rewrite Pos2Z.inj_succ. replace (Z.succ (Zpos (digits2_pos m)) - 1) with (Z.succ (Zpos (digits2_pos m) - 1)) by lia.
    rewrite !Z.pow_succ_r by lia. lia.
  - simpl. lia.
Qed.

Lemma digits2_pos_unique m d :
  2 ^ (d - 1) <= Zpos m < 2 ^ d -> Zpos (digits2_pos m) = d.
Proof.
  intros [Hlo Hhi]. pose proof (digits2_pos_bounds m) as [Hlo' Hhi'].
  destruct (Z.lt_trichotomy (Zpos (digits2_pos m)) d) as [Hlt|[Heq|Hgt]]; [|assumption|]; exfalso.
  - assert (2 ^ Zpos (digits2_pos m) <= 2 ^ (d - 1)) by (apply Z.pow_le_mono_r; lia). lia.
  - assert (0 <= d \/ d < 0) as [Hd|Hd] by lia.
    + assert (2 ^ d <= 2 ^ (Zpos (digits2_pos m) - 1)) by (apply Z.pow_le_mono_r; lia). lia.
    + rewrite (Z.pow_neg_r 2 d) in Hhi by lia. lia.
Qed.

Lemma digits2_pos_shift m d :
  Zpos (digits2_pos (Pos.iter xO m d)) = Zpos (digits2_pos m) + Zpos d.
Proof.
  induction d as [|d IH] using Pos.peano_ind.
  - simpl. lia.
  - rewrite Pos.iter_succ. cbn [digits2_pos]. rewrite Pos2Z.inj_succ, IH. lia.
Qed.

Lemma Zpos_shift m d : Zpos (Pos.iter xO m d) = Zpos m * 2 ^ Zpos d.
Proof.
  induction d as [|d IH] using Pos.peano_ind.
  - simpl. lia.
  - rewrite Pos.iter_succ, Pos2Z.inj_succ, Z.pow_succ_r by lia.
    rewrite Pos2Z.inj_xO, IH. lia.
Qed.

(** ** Rounding a value that needs no rounding *)

Lemma iter_pos_iter {A : Type} (f : A -> A) p x : SpecFloat.iter_pos f p x = Pos.iter f x p.
Proof.
  revert x. induction p as [p IH|p IH|]; intros x; cbn [SpecFloat.iter_pos Pos.iter].
  - rewrite !IH. now rewrite !Pos.iter_swap.
  - now rewrite !IH.
  - reflexivity.
Qed.

Lemma shr_shifted m d :
  SpecFloat.iter_pos shr_1 d (Build_shr_record (Zpos (Pos.iter xO m d)) false false)
  = Build_shr_record (Zpos m) false false.
Proof.
  rewrite iter_pos_iter.
  induction d as [|d IH] using Pos.peano_ind.
  - reflexivity.
  - rewrite Pos.iter_succ_r. rewrite (Pos.iter_succ d _ xO m). exact IH.
Qed.

Lemma shr_fexp_exact prec emax m e :
  fexp prec emax (Zpos (digits2_pos m) + e) = e ->
  shr_fexp prec emax (Zpos m) e loc_Exact = (Build_shr_record (Zpos m) false false, e).
Proof.
  intros H. unfold shr_fexp. cbn [Zdigits2]. rewrite H, Z.sub_diag. reflexivity.
Qed.

Lemma bounded_inv prec emax m e :
  bounded prec emax m e = true ->
  fexp prec emax (Zpos (digits2_pos m) + e) = e /\ e <= emax - prec.
Proof.
  unfold bounded, canonical_mantissa. intros [Hc He]%andb_true_iff.
  split; [now apply Z.eqb_eq | now apply Z.leb_le].
Qed.

Lemma binary_round_aux_exact prec emax s m e :
  bounded prec emax m e = true ->
  binary_round_aux prec emax s (Zpos m) e loc_Exact = S754_finite s m e.
Proof.
  intros [Hc He]%bounded_inv. unfold binary_round_aux.
  rewrite shr_fexp_exact by assumption. cbn [shr_m loc_of_shr_record round_nearest_even].
  rewrite shr_fexp_exact by assumption. cbn [shr_m].
  apply Z.leb_le in He. now rewrite He.
Qed.

(** A canonical value is left alone. *)
Lemma binary_round_canonical prec emax s m e :
  bounded prec emax m e = true ->
  binary_round prec emax s m e = S754_finite s m e.
Proof.
  intros Hb. pose proof (bounded_inv _ _ _ _ Hb) as [Hc He].
  unfold binary_round, shl_align. rewrite Hc, Z.sub_diag.
  now apply binary_round_aux_exact.
Qed.

(** A short mantissa is padded with zeros on the right. *)
Lemma binary_round_pad prec emax s m e d :
  Zpos (digits2_pos m) + Zpos d = prec ->
  3 - emax - prec <= e - Zpos d <= emax - prec ->
  binary_round prec emax s m e = S754_finite s (Pos.iter xO m d) (e - Zpos d).
Proof.
  intros Hd [Hlo Hhi].
  assert (Hf : fexp prec emax (Zpos (digits2_pos m) + e) = e - Zpos d).
  { unfold fexp, emin. lia. }
  unfold binary_round, shl_align. rewrite Hf.
  replace (e - Zpos d - e) with (Zneg d) by lia.
  apply binary_round_aux_exact.
  unfold bounded, canonical_mantissa. apply andb_true_iff. split.
  - apply Z.eqb_eq. rewrite digits2_pos_shift. unfold fexp, emin. lia.
  - now apply Z.leb_le.
Qed.

(** Padding zeros are dropped again when the target format is narrower. *)
Lemma binary_round_unpad prec emax s m e d :
  bounded prec emax m e = true ->
  binary_round prec emax s (Pos.iter xO m d) (e - Zpos d) = S754_finite s m e.
Proof.
  intros Hb. pose proof (bounded_inv _ _ _ _ Hb) as [Hc He].
  assert (Hf : fexp prec emax (Zpos (digits2_pos (Pos.iter xO m d)) + (e - Zpos d)) = e).
  { rewrite digits2_pos_shift. rewrite <- Hc at 2. f_equal. lia. }
  unfold binary_round, shl_align. rewrite Hf.
  replace (e - (e - Zpos d)) with (Zpos d) by lia.
  unfold binary_round_aux, shr_fexp at 1. cbn [Zdigits2]. rewrite Hf.
  replace (e - (e - Zpos d)) with (Zpos d) by lia.
  cbn [shr shr_record_of_loc]. rewrite shr_shifted.
  cbn [shr_m loc_of_shr_record round_nearest_even].
  replace (e - Zpos d + Zpos d) with e by lia.
  rewrite shr_fexp_exact by assumption. cbn [shr_m].
  apply Z.leb_le in He. now rewrite He.
Qed.

(** ** Bit patterns *)

Lemma split_join_bits mw ew s ex fr :
  0 <= mw -> 0 <= ew -> 0 <= fr < 2 ^ mw -> 0 <= ex < 2 ^ ew ->
  IEEE.join_bits mw ew s ex fr mod 2 ^ mw = fr
  /\ (IEEE.join_bits mw ew s ex fr / 2 ^ mw) mod 2 ^ ew = ex
  /\ Z.odd (IEEE.join_bits mw ew s ex fr / 2 ^ (mw + ew)) = s.
Proof.
  intros Hmw Hew Hfr Hex. unfold IEEE.join_bits.
  set (S := if s then 1 else 0).
  assert (HS : (if s then 2 ^ (mw + ew) else 0) = S * 2 ^ ew * 2 ^ mw).
  { subst S. rewrite Z.pow_add_r by lia. destruct s; lia. }
  rewrite HS.
  assert (Hpm : 0 < 2 ^ mw) by (apply Z.pow_pos_nonneg; lia).
  assert (Hpe : 0 < 2 ^ ew) by (apply Z.pow_pos_nonneg; lia).
  assert (Hdiv : (S * 2 ^ ew * 2 ^ mw + ex * 2 ^ mw + fr) / 2 ^ mw = S * 2 ^ ew + ex).
  { symmetry. apply Z.div_unique with (r := fr); lia. }
  split; [|split].
  - symmetry. apply Z.mod_unique with (q := S * 2 ^ ew + ex); lia.
  - rewrite Hdiv. symmetry. apply Z.mod_unique with (q := S); lia.
  - rewrite Z.pow_add_r, <- Z.div_div, Hdiv by lia.
    replace ((S * 2 ^ ew + ex) / 2 ^ ew) with S.
    + subst S. now destruct s.
    + apply Z.div_unique with (r := ex); lia.
Qed.

Lemma join_bits_range mw ew s ex fr :
  0 <= mw -> 0 <= ew -> 0 <= fr < 2 ^ mw -> 0 <= ex < 2 ^ ew ->
  0 <= IEEE.join_bits mw ew s ex fr < 2 ^ (mw + ew + 1).
Proof.
  intros Hmw Hew Hfr Hex. unfold IEEE.join_bits.
  assert (Hpm : 0 < 2 ^ mw) by (apply Z.pow_pos_nonneg; lia).
  assert (Hpe : 0 < 2 ^ ew) by (apply Z.pow_pos_nonneg; lia).
  replace (2 ^ (mw + ew + 1)) with (2 * (2 ^ mw * 2 ^ ew))
    by (rewrite !Z.pow_add_r by lia; lia).
  rewrite Z.pow_add_r by lia.
  destruct s; nia.
Qed.

Section BitsRoundTrip.

Variables mw ew : Z.
Hypothesis Hmw : 0 < mw.
Hypothesis Hew : 1 < ew.

Lemma pow_ew_split : 2 ^ ew = 2 * (2 ^ (ew - 1)).
Proof using Hew. rewrite <- Z.pow_succ_r by lia. f_equal. lia. Qed.

Lemma emax_ge_2 : 2 <= (2 ^ (ew - 1)).
Proof using Hew.
  change 2 with (2 ^ 1) at 1. apply Z.pow_le_mono_r; lia.
Qed.

(** The fields of the bit pattern of a value, whatever the value. *)
Lemma bits_fields x :
  valid_binary (mw + 1) (2 ^ (ew - 1)) x = true ->
  exists s ex fr,
    IEEE.bits_of_float mw ew x = IEEE.join_bits mw ew s ex fr
    /\ 0 <= fr < 2 ^ mw /\ 0 <= ex < 2 ^ ew
    /\ IEEE.float_of_bits mw ew (IEEE.join_bits mw ew s ex fr) = x.
Proof using Hmw Hew.
  intros Hv.
  pose proof pow_ew_split as Hpe. pose proof emax_ge_2 as Hem.
  assert (Hpm : 0 < 2 ^ mw) by (apply Z.pow_pos_nonneg; lia).
  assert (Hhalf : 0 < 2 ^ (mw - 1) < 2 ^ mw).
  { split; [apply Z.pow_pos_nonneg; lia | apply Z.pow_lt_mono_r; lia]. }
  assert (Hdec : forall s ex fr, 0 <= fr < 2 ^ mw -> 0 <= ex < 2 ^ ew ->
            IEEE.float_of_bits mw ew (IEEE.join_bits mw ew s ex fr)
            = if ex =? 0 then
                match fr with Zpos m => S754_finite s m (IEEE.bias_emin mw ew) | _ => S754_zero s end
              else if ex =? 2 ^ ew - 1 then (if fr =? 0 then S754_infinity s else S754_nan)
              else match fr + 2 ^ mw with
                   | Zpos m => S754_finite s m (ex + IEEE.bias_emin mw ew - 1)
                   | _ => S754_nan end).
  { intros s ex fr Hfr Hex. unfold IEEE.float_of_bits.
    destruct (split_join_bits mw ew s ex fr) as (-> & -> & ->); try lia. reflexivity. }
  destruct x as [s|s| |s m e]; cbn [IEEE.bits_of_float].
  - exists s, 0, 0. split; [reflexivity|]. split; [lia|]. split; [lia|].
    rewrite Hdec by lia. reflexivity.
  - exists s, (2 ^ ew - 1), 0. split; [reflexivity|]. split; [lia|]. split; [lia|].
    rewrite Hdec by lia.
    destruct (Z.eqb_spec (2 ^ ew - 1) 0); [lia|]. rewrite Z.eqb_refl. reflexivity.
  - exists false, (2 ^ ew - 1), (2 ^ (mw - 1)). split; [reflexivity|]. split; [lia|]. split; [lia|].
    rewrite Hdec by lia.
    destruct (Z.eqb_spec (2 ^ ew - 1) 0); [lia|]. rewrite Z.eqb_refl.
    destruct (Z.eqb_spec (2 ^ (mw - 1)) 0); [lia|]. reflexivity.
  - cbn [valid_binary] in Hv. apply bounded_inv in Hv as [Hc He].
    pose proof (digits2_pos_bounds m) as [Hdlo Hdhi].
    unfold fexp, SpecFloat.emin in Hc. fold (IEEE.bias_emin mw ew) in *.
    assert (Hemin : IEEE.bias_emin mw ew = 3 - (2 ^ (ew - 1)) - (mw + 1)) by reflexivity.
    destruct (Z.leb_spec (2 ^ mw) (Zpos m)) as [Hn|Hs].
    + (* normal *)
      assert (Hd : Zpos (digits2_pos m) = (mw + 1)).
      { assert (mw < Zpos (digits2_pos m)).
        { apply (Z.pow_lt_mono_r_iff 2); lia. }
        lia. }
      assert (Hm : Zpos m < 2 * 2 ^ mw).
      { rewrite Hd in Hdhi. rewrite Z.pow_add_r, Z.pow_1_r in Hdhi by lia. lia. }
      exists s, (e - IEEE.bias_emin mw ew + 1), (Zpos m - 2 ^ mw).
      split; [reflexivity|]. split; [lia|]. split; [lia|].
      rewrite Hdec by lia.
      destruct (Z.eqb_spec (e - IEEE.bias_emin mw ew + 1) 0); [lia|].
      destruct (Z.eqb_spec (e - IEEE.bias_emin mw ew + 1) (2 ^ ew - 1)); [lia|].
      replace (Zpos m - 2 ^ mw + 2 ^ mw) with (Zpos m) by lia.
      f_equal. lia.
    + (* subnormal *)
      assert (Hd : Zpos (digits2_pos m) <= mw).
      { destruct (Z.le_gt_cases (Zpos (digits2_pos m)) mw) as [|Hgt]; [assumption|].
        assert (2 ^ mw <= 2 ^ (Zpos (digits2_pos m) - 1)) by (apply Z.pow_le_mono_r; lia). lia. }
      exists s, 0, (Zpos m). split; [reflexivity|]. split; [lia|]. split; [lia|].
      rewrite Hdec by lia. cbn. f_equal. lia.
Qed.

Lemma float_of_bits_of_float x :
  valid_binary (mw + 1) (2 ^ (ew - 1)) x = true ->
  IEEE.float_of_bits mw ew (IEEE.bits_of_float mw ew x) = x.
Proof using Hmw Hew.
  intros Hv. destruct (bits_fields x Hv) as (s & ex & fr & -> & _ & _ & H). exact H.
Qed.

Lemma bits_of_float_range x :
  valid_binary (mw + 1) (2 ^ (ew - 1)) x = true ->
  0 <= IEEE.bits_of_float mw ew x < 2 ^ (mw + ew + 1).
Proof using Hmw Hew.
  intros Hv. destruct (bits_fields x Hv) as (s & ex & fr & -> & Hfr & Hex & _).
  apply join_bits_range; lia.
Qed.

End BitsRoundTrip.

(** ** Widening and narrowing *)

Lemma bounded32_inv m e :
  bounded 24 128 m e = true ->
  Zpos (digits2_pos m) <= 24 /\ -149 <= e <= 104.
Proof.
  intros [Hc He]%bounded_inv. unfold fexp, SpecFloat.emin in Hc. lia.
Qed.

Lemma widen_finite s m e :
  bounded 24 128 m e = true ->
  exists d, IEEE.widen (S754_finite s m e) = S754_finite s (Pos.iter xO m d) (e - Zpos d)
            /\ bounded 53 1024 (Pos.iter xO m d) (e - Zpos d) = true.
Proof.
  intros Hb. destruct (bounded32_inv _ _ Hb) as [Hd He].
  pose proof (Pos2Z.is_pos (digits2_pos m)) as Hpos.
  destruct (53 - Zpos (digits2_pos m)) as [|d|d] eqn:Ed; try lia.
  exists d. split.
  - cbn [IEEE.widen]. apply binary_round_pad; lia.
  - unfold bounded, canonical_mantissa. apply andb_true_iff. split.
    + apply Z.eqb_eq. rewrite digits2_pos_shift. unfold fexp, SpecFloat.emin. lia.
    + apply Z.leb_le. lia.
Qed.

Lemma widen_valid y :
  valid_binary 24 128 y = true -> valid_binary 53 1024 (IEEE.widen y) = true.
Proof.
  destruct y as [s|s| |s m e]; try reflexivity.
  intros Hb. destruct (widen_finite s m e Hb) as (d & -> & Hd). exact Hd.
Qed.

Lemma narrow_widen y :
  valid_binary 24 128 y = true -> IEEE.narrow (IEEE.widen y) = y.
Proof.
  destruct y as [s|s| |s m e]; try reflexivity.
  intros Hb. destruct (widen_finite s m e Hb) as (d & -> & _).
  cbn [IEEE.narrow]. now apply binary_round_unpad.
Qed.

Lemma widen_no_overflow y :
  valid_binary 24 128 y = true ->
  IEEE.is_finite (IEEE.widen y) && IEEE.is_infinity (IEEE.narrow (IEEE.widen y)) = false.
Proof.
  intros Hv. rewrite narrow_widen by assumption.
  destruct y as [s|s| |s m e]; try reflexivity.
  apply andb_false_r.
Qed.

(** ** The format string and the layout *)

Lemma rbind_Ok {A B : Type} (r : result A) (k : A -> result B) b :
  rbind r k = Ok b <-> exists a, r = Ok a /\ k a = Ok b.
Proof.
  destruct r as [a|e]; cbn; split.
  - intros H. now exists a.
  - now intros (a' & [= ->] & H).
  - discriminate.
  - now intros (a' & [=] & _).
Qed.

Lemma rmapM_app {A B : Type} (f : A -> result B) xs ys xs' ys' :
  rmapM f xs = Ok xs' -> rmapM f ys = Ok ys' -> rmapM f (xs ++ ys) = Ok (xs' ++ ys').
Proof.
  revert xs'. induction xs as [|x xs IH]; intros xs' Hx Hy; cbn in *.
  - injection Hx as <-. exact Hy.
  - destruct (f x) as [y|]; cbn in *; [|discriminate].
    destruct (rmapM f xs) as [zs|]; cbn in *; [|discriminate].
    injection Hx as <-. now rewrite (IH zs eq_refl Hy).
Qed.

Lemma list_ascii_of_string_app s t :
  list_ascii_of_string (s +:+ t) = list_ascii_of_string s ++ list_ascii_of_string t.
Proof. induction s as [|c s IH]; simpl; [reflexivity | now f_equal]. Qed.

Lemma parse_format_snoc format_str cs ch c :
  parse_format format_str = Ok cs -> code_of_ascii ch = Ok c ->
  parse_format (format_str +:+ String ch EmptyString) = Ok (cs ++ [c]).
Proof.
  destruct format_str as [|c0 rest]; [discriminate|]. simpl.
  destruct (Ascii.eqb c0 "<"); [|discriminate]. intros Hcs Hc.
  rewrite list_ascii_of_string_app. apply rmapM_app; [assumption|].
  simpl. now rewrite Hc.
Qed.

Lemma layout_cons t n ps :
  layout ((t, n) :: ps)
  = match code_of_type t with Some c => c :: layout ps | None => layout ps end.
Proof. reflexivity. Qed.

Lemma fold_format_layout properties acc cs :
  parse_format acc = Ok cs ->
  parse_format
    (fold_left
      (fun format_str '(prop_type, prop_name) =>
         if String.eqb prop_type "float" then format_str +:+ "f"
         else if String.eqb prop_type "uchar" then format_str +:+ "B"
         else if String.eqb prop_type "int" then format_str +:+ "i"
         else if String.eqb prop_type "double" then format_str +:+ "d"
         else format_str)
      properties acc)
  = Ok (cs ++ layout properties).
Proof.
  revert acc cs. induction properties as [|[t n] ps IH]; intros acc cs Hacc.
  - cbn. now rewrite app_nil_r.
  - cbn [fold_left]. rewrite layout_cons. unfold code_of_type.
    destruct (String.eqb t "float").
    { rewrite (IH _ (cs ++ [Cf])); [now rewrite <- app_assoc|].
      now apply parse_format_snoc. }
    destruct (String.eqb t "uchar").
    { rewrite (IH _ (cs ++ [CB])); [now rewrite <- app_assoc|].
      now apply parse_format_snoc. }
    destruct (String.eqb t "int").
    { rewrite (IH _ (cs ++ [Ci])); [now rewrite <- app_assoc|].
      now apply parse_format_snoc. }
    destruct (String.eqb t "double").
    { rewrite (IH _ (cs ++ [Cd])); [now rewrite <- app_assoc|].
      now apply parse_format_snoc. }
    now apply IH.
Qed.

(** The format string the program builds always parses, to the layout. *)
Lemma parse_format_create properties :
  parse_format (create_struct_format properties) = Ok (layout properties).
Proof. unfold create_struct_format. now apply (fold_format_layout properties "<" []). Qed.

Lemma struct_calcsize_create properties :
  struct_calcsize (create_struct_format properties) = Ok (codes_size (layout properties)).
Proof. unfold struct_calcsize. now rewrite parse_format_create. Qed.

Lemma length_unpack_codes cs data : length (unpack_codes cs data) = length cs.
Proof. revert data. induction cs as [|c cs IH]; intros data; cbn; [reflexivity | now rewrite IH]. Qed.

Lemma struct_unpack_create properties data :
  length data = codes_size (layout properties) ->
  struct_unpack (create_struct_format properties) data
  = Ok (unpack_codes (layout properties) data).
Proof.
  intros H. unfold struct_unpack. rewrite parse_format_create. cbn.
  rewrite H, Nat.eqb_refl. reflexivity.
Qed.

(** ** One field through the codec *)

Lemma signed32_mod z : - 2 ^ 31 <= z < 2 ^ 31 -> signed32 (z mod 2 ^ 32) = z.
Proof.
  change (2 ^ 31) with 2147483648. intros Hz. unfold signed32.
  change (2 ^ 31) with 2147483648. change (2 ^ 32) with 4294967296.
  destruct (Z.ltb_spec (z mod 4294967296) 2147483648) as [Hlt|Hge].
  - destruct (Z.neg_nonneg_cases z) as [Hneg|Hpos].
    + exfalso. assert (z mod 4294967296 = z + 4294967296).
      { symmetry. apply Z.mod_unique with (q := -1); lia. } lia.
    + apply Z.mod_small. lia.
  - destruct (Z.neg_nonneg_cases z) as [Hneg|Hpos].
    + assert (z mod 4294967296 = z + 4294967296).
      { symmetry. apply Z.mod_unique with (q := -1); lia. } lia.
    + rewrite Z.mod_small in Hge by lia. lia.
Qed.

Lemma typed_value_round_trip t v :
  typed_value t v ->
  exists c v1 bs,
    code_of_type t = Some c /\ convert_value t v = Ok v1 /\ pack_value c v1 = Ok bs
    /\ length bs = code_size c /\ unpack_value c bs = read_back t v.
Proof.
  destruct 1 as [y Hv|x Hv|z Hz|z].
  - exists Cf, (PFloat (IEEE.widen y)), (bytes_of_Z_le 4 (IEEE.bits_of_float 23 8 y)).
    split; [reflexivity|]. split; [reflexivity|]. split; [|split].
    + cbn [pack_value float_of_val rbind]. rewrite widen_no_overflow by assumption.
      now rewrite narrow_widen.
    + apply length_bytes_of_Z_le.
    + cbn [unpack_value read_back]. rewrite Z_of_bytes_of_Z_le.
      * now rewrite (float_of_bits_of_float 23 8 ltac:(lia) ltac:(lia) y Hv).
      * apply (bits_of_float_range 23 8 ltac:(lia) ltac:(lia) y Hv).
  - exists Cd, (PFloat x), (bytes_of_Z_le 8 (IEEE.bits_of_float 52 11 x)).
    split; [reflexivity|]. split; [reflexivity|]. split; [reflexivity|]. split.
    + apply length_bytes_of_Z_le.
    + cbn [unpack_value read_back]. rewrite Z_of_bytes_of_Z_le.
      * now rewrite (float_of_bits_of_float 52 11 ltac:(lia) ltac:(lia) x Hv).
      * apply (bits_of_float_range 52 11 ltac:(lia) ltac:(lia) x Hv).
  - exists Ci, (PInt z), (bytes_of_Z_le 4 (z mod 2 ^ 32)).
    split; [reflexivity|]. split; [reflexivity|]. split; [|split].
    + cbn [pack_value].
      destruct (Z.leb_spec (- 2 ^ 31) z); [|lia].
      destruct (Z.ltb_spec z (2 ^ 31)); [|lia]. reflexivity.
    + apply length_bytes_of_Z_le.
    + cbn [unpack_value]. rewrite Z_of_bytes_of_Z_le.
      * now rewrite signed32_mod.
      * change (256 ^ Z.of_nat 4) with (2 ^ 32). apply Z.mod_pos_bound. reflexivity.
  - pose proof (Z.mod_pos_bound z 256 ltac:(lia)) as Hr.
    exists CB, (PInt (z mod 256)), (bytes_of_Z_le 1 (z mod 256)).
    split; [reflexivity|]. split; [reflexivity|]. split; [|split].
    + cbn [pack_value].
      destruct (Z.leb_spec 0 (z mod 256)); [|lia].
      destruct (Z.leb_spec (z mod 256) 255); [|lia]. reflexivity.
    + reflexivity.
    + cbn [unpack_value]. rewrite Z_of_bytes_of_Z_le; [reflexivity|].
      change (256 ^ Z.of_nat 1) with 256. lia.
Qed.

(** ** A whole record through the codec *)

Lemma record_round_trip_from properties r pre :
  Forall2 typed_value (map fst properties) r ->
  exists conv data,
    convert_vertex (length pre) properties (pre ++ r) = Ok conv
    /\ pack_codes (layout properties) conv = Ok data
    /\ length data = codes_size (layout properties)
    /\ unpack_codes (layout properties) data = zip_with read_back (map fst properties) r.
Proof.
  revert r pre. induction properties as [|[t n] ps IH]; intros r pre Hr.
  - inversion Hr; subst. exists [], []. repeat split; reflexivity.
  - cbn [map fst] in Hr. inversion Hr as [|? v ? r' Hv Hr']; subst.
    destruct (typed_value_round_trip t v Hv) as (c & v1 & bs & Hc & Hconv & Hpack & Hlen & Hun).
    destruct (IH r' (pre ++ [v])) as (conv & data & Hcv & Hpk & Hl & Hu); [assumption|].
    rewrite length_app in Hcv. cbn [length] in Hcv. rewrite Nat.add_1_r in Hcv.
    rewrite <- app_assoc in Hcv. cbn [app] in Hcv.
    exists (v1 :: conv), (bs ++ data).
    rewrite layout_cons, Hc. split; [|split; [|split]].
    + cbn [convert_vertex]. unfold py_index.
      rewrite lookup_app_r by lia. rewrite Nat.sub_diag. cbn [lookup list_lookup rbind].
      rewrite Hconv. cbn [rbind]. rewrite Hcv. reflexivity.
    + cbn [pack_codes]. rewrite Hpack. cbn [rbind]. rewrite Hpk. reflexivity.
    + rewrite length_app, Hlen, Hl. reflexivity.
    + cbn [unpack_codes map fst zip_with]. rewrite <- Hlen.
      rewrite take_app_length, drop_app_length. now rewrite Hun, Hu.
Qed.

(** ** The header loop *)

Lemma readline_app rest : fst (readline rest) ++ snd (readline rest) = rest.
Proof.
  induction rest as [|b rest IH]; [reflexivity|]. cbn [readline].
  destruct (Byte.eqb b x0a); [reflexivity|].
  destruct (readline rest) as [l r]. cbn in *. now rewrite IH.
Qed.

Lemma readline_split_lines b rest :
  split_lines (b :: rest)
  = fst (readline (b :: rest)) :: split_lines (snd (readline (b :: rest))).
Proof.
  revert b. induction rest as [|b' rest IH]; intros b.
  - cbn. destruct (Byte.eqb b x0a); reflexivity.
  - change (split_lines (b :: b' :: rest))
      with (if Byte.eqb b x0a then [b] :: split_lines (b' :: rest)
            else match split_lines (b' :: rest) with
                 | [] => [[b]]
                 | l :: ls => (b :: l) :: ls
                 end).
    change (readline (b :: b' :: rest))
      with (if Byte.eqb b x0a then ([b], b' :: rest)
            else let '(l, r) := readline (b' :: rest) in (b :: l, r)).
    destruct (Byte.eqb b x0a); [reflexivity|]. rewrite (IH b').
    destruct (readline (b' :: rest)) as [l r]. reflexivity.
Qed.

Lemma terminator_neq line : String.eqb line "end_header" = false <-> line <> "end_header"%string.
Proof. apply String.eqb_neq. Qed.

(** Without a terminator line the loop goes on for ever: past the end of
    the file every [readline] is empty, and an empty line is not the
    terminator. *)
Lemma header_loop_no_terminator fuel rest pos line header_lines :
  line <> "end_header"%string ->
  forallb is_ascii_byte rest = true ->
  no_terminator rest ->
  header_loop fuel rest pos line header_lines = Timeout.
Proof.
  revert rest pos line header_lines.
  induction fuel as [|fuel IH]; intros rest pos line header_lines Hline Hascii Hno;
    cbn [header_loop]; apply terminator_neq in Hline; rewrite Hline; [reflexivity|].
  destruct rest as [|b rest].
  - cbn. apply IH; [discriminate | reflexivity | constructor].
  - unfold no_terminator in Hno. rewrite readline_split_lines in Hno.
    pose proof (readline_app (b :: rest)) as Happ.
    destruct (readline (b :: rest)) as [raw rest'] eqn:E. cbn [fst snd] in *.
    rewrite <- Happ, forallb_app in Hascii. apply andb_true_iff in Hascii as [Hraw Hrest].
    inversion Hno as [|? ? Hhd Htl]; subst.
    unfold line_text, decode_ascii in Hhd. unfold decode_ascii. rewrite Hraw in *.
    cbn [rbind] in Hhd. apply IH; [congruence | assumption | assumption].
Qed.

Lemma read_header_bytes_no_terminator fuel data :
  forallb is_ascii_byte data = true ->
  no_terminator data ->
  read_header_bytes fuel data = Timeout.
Proof.
  intros Hascii Hno. unfold read_header_bytes.
  destruct data as [|b rest].
  - cbn. apply header_loop_no_terminator; [discriminate | reflexivity | constructor].
  - unfold no_terminator in Hno. rewrite readline_split_lines in Hno.
    pose proof (readline_app (b :: rest)) as Happ.
    destruct (readline (b :: rest)) as [raw rest'] eqn:E. cbn [fst snd] in *.
    rewrite <- Happ, forallb_app in Hascii. apply andb_true_iff in Hascii as [Hraw Hrest].
    inversion Hno as [|? ? Hhd Htl]; subst.
    unfold line_text, decode_ascii in Hhd. unfold decode_ascii. rewrite Hraw in *.
    cbn [rbind] in Hhd. apply header_loop_no_terminator; [congruence | assumption | assumption].
Qed.

(** More fuel does not change a run that ended. *)
Lemma header_loop_more_fuel fuel fuel' rest pos line header_lines :
  header_loop fuel rest pos line header_lines <> Timeout ->
  (fuel <= fuel')%nat ->
  header_loop fuel' rest pos line header_lines = header_loop fuel rest pos line header_lines.
Proof.
  revert fuel' rest pos line header_lines.
  induction fuel as [|fuel IH]; intros fuel' rest pos line header_lines Hend Hle.
  - destruct fuel'; cbn [header_loop] in *;
      destruct (String.eqb line "end_header"); congruence.
  - destruct fuel' as [|fuel']; [lia|]. cbn [header_loop] in *.
    destruct (String.eqb line "end_header"); [reflexivity|].
    destruct (readline rest) as [raw rest']. destruct (decode_ascii raw); [|reflexivity].
    apply IH; [assumption | lia].
Qed.

Lemma read_header_bytes_more_fuel fuel fuel' data :
  read_header_bytes fuel data <> Timeout ->
  (fuel <= fuel')%nat ->
  read_header_bytes fuel' data = read_header_bytes fuel data.
Proof.
  unfold read_header_bytes. destruct (readline data) as [raw rest].
  destruct (decode_ascii raw); [|reflexivity]. apply header_loop_more_fuel.
Qed.

Lemma readline_of_split_lines rest raw more :
  split_lines rest = raw :: more ->
  readline rest = (raw, snd (readline rest)) /\ split_lines (snd (readline rest)) = more.
Proof.
  destruct rest as [|b rest]; [discriminate|]. intros H.
  rewrite readline_split_lines in H. destruct (readline (b :: rest)) as [l r0].
  cbn [fst snd] in *. injection H as <- <-. split; reflexivity.
Qed.

Lemma header_loop_done fuel rest pos header_lines :
  header_loop fuel rest pos "end_header" header_lines = Ret (header_lines, pos).
Proof. destruct fuel; reflexivity. Qed.

Lemma header_loop_step fuel rest pos line header_lines raw rest' s :
  line <> "end_header"%string ->
  readline rest = (raw, rest') ->
  decode_ascii raw = Ok s ->
  header_loop (S fuel) rest pos line header_lines
  = header_loop fuel rest' (pos + length raw)%nat (strip s) (header_lines ++ [strip s]).
Proof.
  intros Hline%terminator_neq Hr Hd. cbn [header_loop]. now rewrite Hline, Hr, Hd.
Qed.

Lemma line_text_Ok raw s : line_text raw = Ok s -> exists s0, decode_ascii raw = Ok s0 /\ s = strip s0.
Proof.
  unfold line_text. destruct (decode_ascii raw) as [s0|]; [|discriminate].
  cbn [rbind]. intros [= <-]. eauto.
Qed.

(** With a terminator line, preceded by lines of ASCII text, the loop
    returns the stripped lines up to the terminator and the offset of the
    byte after it; one unit of fuel per line before the terminator is
    enough. *)
Lemma header_loop_returns pre texts t more rest pos line header_lines :
  line <> "end_header"%string ->
  Forall2 (fun raw s => line_text raw = Ok s /\ s <> "end_header"%string) pre texts ->
  line_text t = Ok "end_header"%string ->
  split_lines rest = pre ++ t :: more ->
  header_loop (S (length pre)) rest pos line header_lines
  = Ret (header_lines ++ texts ++ ["end_header"%string],
         (pos + length (concat pre ++ t))%nat).
Proof.
  intros Hline Hpre Ht. revert rest pos line header_lines Hline.
  induction Hpre as [|raw s pre texts [Hraw Hs] _ IH];
    intros rest pos line header_lines Hline Hsplit; cbn [length].
  - apply readline_of_split_lines in Hsplit as [Hrl _].
    apply line_text_Ok in Ht as (s0 & Hd & Hs0).
    rewrite (header_loop_step _ _ _ _ _ _ _ _ Hline Hrl Hd), <- Hs0.
    now rewrite header_loop_done.
  - cbn [app] in Hsplit. apply readline_of_split_lines in Hsplit as [Hrl Hmore].
    apply line_text_Ok in Hraw as (s0 & Hd & ->).
    rewrite (header_loop_step _ _ _ _ _ _ _ _ Hline Hrl Hd).
    rewrite (IH _ _ _ _ Hs Hmore). cbn [concat app].
    rewrite <- !app_assoc, !length_app. cbn [app]. f_equal. f_equal. lia.
Qed.

(** The reader returns on every file that has a terminator line after
    lines of ASCII text. *)
Lemma read_header_bytes_returns pre texts t more data :
  Forall2 (fun raw s => line_text raw = Ok s /\ s <> "end_header"%string) pre texts ->
  line_text t = Ok "end_header"%string ->
  split_lines data = pre ++ t :: more ->
  read_header_bytes (length pre) data
  = Ret (texts ++ ["end_header"%string], length (concat pre ++ t)).
Proof.
  intros Hpre Ht Hsplit. unfold read_header_bytes.
  destruct Hpre as [|raw s pre texts [Hraw Hs] Hpre].
  - cbn [app] in Hsplit. apply readline_of_split_lines in Hsplit as [-> _].
    apply line_text_Ok in Ht as (s0 & -> & <-). now rewrite header_loop_done.
  - cbn [app] in Hsplit. apply readline_of_split_lines in Hsplit as [-> Hmore].
    apply line_text_Ok in Hraw as (s0 & -> & ->). cbn [length].
    rewrite (header_loop_returns pre texts t more _ _ _ _ Hs Hpre Ht Hmore).
    cbn [concat app]. rewrite <- !app_assoc, !length_app. reflexivity.
Qed.

(** ** The sampling loop *)

Lemma struct_unpack_ok format_str cs data :
  parse_format format_str = Ok cs ->
  length data = codes_size cs ->
  struct_unpack format_str data = Ok (unpack_codes cs data).
Proof.
  intros Hp Hl. unfold struct_unpack. rewrite Hp. cbn [rbind].
  now rewrite Hl, Nat.eqb_refl.
Qed.

Lemma map_seq_shift (f : nat -> Z) (n : nat) :
  map f (seq 1 n) = map (fun k => f (S k)) (seq 0 n).
Proof. rewrite <- seq_shift, map_map. reflexivity. Qed.

Lemma sample_loop_spec format_str cs vertex_size data data_offset sample step n i acc :
  parse_format format_str = Ok cs ->
  vertex_size = codes_size cs ->
  sample_loop format_str vertex_size data data_offset sample step n i acc
  = Ok (acc ++ map (fun j => unpack_codes cs (read_at vertex_size data data_offset j))
          (take_while
             (fun j => (length (read_at vertex_size data data_offset j) =? vertex_size)%nat)
             (map (fun k => i + Z.of_nat k * step)
                (seq 0 (min n (Z.to_nat sample - length acc)))))).
Proof.
  intros Hp Hv. revert i acc.
  induction n as [|n IH]; intros i acc.
  - cbn. now rewrite app_nil_r.
  - cbn [sample_loop].
    destruct (Z.geb_spec (Z.of_nat (length acc)) sample) as [Hfull|Hroom].
    + replace (Z.to_nat sample - length acc)%nat with 0%nat by lia.
      rewrite Nat.min_0_r. cbn. now rewrite app_nil_r.
    + destruct (Z.to_nat sample - length acc)%nat as [|m] eqn:Em; [lia|].
      rewrite <- Nat.succ_min_distr. cbn [seq map take_while].
      replace (i + Z.of_nat 0 * step) with i by lia.
      destruct (length (read_at vertex_size data data_offset i) =? vertex_size)%nat eqn:El;
        cbn [negb].
      * apply Nat.eqb_eq in El.
        rewrite (struct_unpack_ok _ cs) by (assumption || lia). cbn [rbind].
        rewrite IH. rewrite length_app. cbn [length].
        replace (Z.to_nat sample - (length acc + 1))%nat with m by lia.
        rewrite <- app_assoc. cbn [app map]. do 3 f_equal.
        rewrite map_seq_shift. f_equal. f_equal. apply map_ext. intros k. lia.
      * cbn. now rewrite app_nil_r.
Qed.

Lemma range_length_covers N sample :
  0 < sample <= N ->
  (Z.to_nat sample <= range_length N (Z.max 1 (N / sample)))%nat.
Proof.
  intros [Hs HN]. unfold range_length.
  assert (Hq : 1 <= N / sample) by (apply Z.div_le_lower_bound; lia).
  rewrite Z.max_r by lia.
  apply Z2Nat.inj_le; [lia | apply Z.div_pos; lia |].
  apply Z.div_le_lower_bound; [lia|].
  pose proof (Z.mul_div_le N sample ltac:(lia)). lia.
Qed.

(** ** Reading records in sequence *)

Lemma read_chunk_spec format_str cs vertex_size n rest acc :
  parse_format format_str = Ok cs ->
  vertex_size = codes_size cs ->
  read_chunk format_str vertex_size n rest acc
  = Ok (acc ++ map (unpack_codes cs) (records_of vertex_size n rest),
        rest_after vertex_size n rest).
Proof.
  intros Hp Hv. revert rest acc. induction n as [|n IH]; intros rest acc.
  - cbn. now rewrite app_nil_r.
  - cbn [read_chunk records_of rest_after].
    destruct (length (take vertex_size rest) =? vertex_size)%nat eqn:El; cbn [negb].
    + apply Nat.eqb_eq in El.
      rewrite (struct_unpack_ok _ cs) by (assumption || lia). cbn [rbind].
      rewrite IH, <- app_assoc. reflexivity.
    + cbn. now rewrite app_nil_r.
Qed.

Lemma records_of_nil vertex_size n : (0 < vertex_size)%nat -> records_of vertex_size n [] = [].
Proof.
  intros Hv. destruct n as [|n]; [reflexivity|]. cbn [records_of].
  rewrite take_nil. cbn [length]. destruct (Nat.eqb_spec 0 vertex_size); [lia | reflexivity].
Qed.

Lemma records_of_add vertex_size a b rest :
  (0 < vertex_size)%nat ->
  records_of vertex_size (a + b) rest
  = records_of vertex_size a rest ++ records_of vertex_size b (rest_after vertex_size a rest).
Proof.
  intros Hv. revert rest. induction a as [|a IH]; intros rest; [reflexivity|].
  cbn [Nat.add records_of rest_after].
  destruct (Nat.eqb_spec (length (take vertex_size rest)) vertex_size) as [El|El].
  - now rewrite IH.
  - rewrite length_take in El. rewrite drop_ge by lia.
    now rewrite records_of_nil.
Qed.

Lemma records_of_first_missing vertex_size n m rest :
  records_of vertex_size (S n) rest = [] -> records_of vertex_size (S m) rest = [].
Proof.
  cbn [records_of]. destruct (length (take vertex_size rest) =? vertex_size)%nat;
    [discriminate | reflexivity].
Qed.

(** ** Arrays of decoded records *)

Lemma length_np_array_row rows row : row ∈ np_array rows -> exists row', row' ∈ rows /\ length row = length row'.
Proof.
  unfold np_array. destruct (existsb (existsb is_pyfloat) rows).
  - intros (row' & -> & Hin)%list_elem_of_fmap. exists row'. split; [assumption|].
    now rewrite length_map.
  - intros Hin. now exists row.
Qed.

Lemma unpack_codes_floats cs d d' :
  existsb is_pyfloat (unpack_codes cs d) = existsb is_pyfloat (unpack_codes cs d').
Proof.
  revert d d'. induction cs as [|c cs IH]; intros d d'; [reflexivity|].
  cbn [unpack_codes existsb]. rewrite (IH _ (drop (code_size c) d')).
  destruct c; reflexivity.
Qed.

(** The array of decoded rows is the rows, each promoted or not according
    to the layout alone. *)
Lemma np_array_decoded cs recs :
  np_array (map (unpack_codes cs) recs)
  = map (fun row => if existsb is_pyfloat (unpack_codes cs [])
                    then map (fun v => PFloat (as_float v)) row else row)
      (map (unpack_codes cs) recs).
Proof.
  unfold np_array.
  assert (H : existsb (existsb is_pyfloat) (map (unpack_codes cs) recs)
              = match recs with [] => false | _ => existsb is_pyfloat (unpack_codes cs []) end).
  { induction recs as [|d recs IH]; [reflexivity|]. cbn [map existsb]. rewrite IH.
    rewrite (unpack_codes_floats cs d []). destruct recs; [apply orb_false_r | apply orb_diag]. }
  rewrite H. destruct recs as [|d recs]; [reflexivity|].
  destruct (existsb is_pyfloat (unpack_codes cs [])); [reflexivity|].
  now rewrite map_id.
Qed.

Lemma np_array_decoded_app cs recs recs' :
  np_array (map (unpack_codes cs) (recs ++ recs'))
  = np_array (map (unpack_codes cs) recs) ++ np_array (map (unpack_codes cs) recs').
Proof. rewrite !np_array_decoded, !map_app. reflexivity. Qed.

Lemma np_array_decoded_width cs recs row :
  row ∈ np_array (map (unpack_codes cs) recs) -> length row = length cs.
Proof.
  intros (row' & Hin & ->)%length_np_array_row.
  apply list_elem_of_fmap in Hin as (d & -> & _). apply length_unpack_codes.
Qed.

(** ** The mask *)

Lemma in_range_inside r row :
  (3 <= length row)%nat -> in_range r row = Ok (inside r row).
Proof.
  intros Hw. unfold inside. destruct row as [|x [|y [|z row]]]; cbn [length] in Hw; try lia.
  destruct r as [[xr yr] zr]. reflexivity.
Qed.

Lemma mask_spec r rows :
  Forall (fun row => (3 <= length row)%nat) rows ->
  rmapM (in_range r) rows = Ok (map (inside r) rows).
Proof.
  induction 1 as [|row rows Hrow _ IH]; [reflexivity|].
  cbn [rmapM map]. rewrite in_range_inside by assumption. cbn [rbind].
  now rewrite IH.
Qed.

Lemma select_rows_filter (f : list pyval -> bool) rows :
  select_rows (map f rows) rows = List.filter f rows.
Proof.
  unfold select_rows. induction rows as [|row rows IH]; [reflexivity|].
  cbn [map zip zip_with List.filter fst]. destruct (f row); cbn [map snd]; now rewrite IH.
Qed.

(** The six comparisons, read off the test. *)
Lemma inside_iff r x y z row :
  inside r (x :: y :: z :: row) = true
  <-> SFleb (fst (fst (fst r))) (as_float x) = true
      /\ SFleb (as_float x) (snd (fst (fst r))) = true
      /\ SFleb (fst (snd (fst r))) (as_float y) = true
      /\ SFleb (as_float y) (snd (snd (fst r))) = true
      /\ SFleb (fst (snd r)) (as_float z) = true
      /\ SFleb (as_float z) (snd (snd r)) = true.
Proof.
  destruct r as [[[xlo xhi] [ylo yhi]] [zlo zhi]]. unfold inside. cbn.
  rewrite !andb_true_iff. tauto.
Qed.

(** ** The chunk loop *)

Lemma codes_size_ge_length cs : (length cs <= codes_size cs)%nat.
Proof.
  induction cs as [|c cs IH]; [reflexivity|]. cbn [length codes_size foldr].
  fold (codes_size cs). destruct c; cbn [code_size]; lia.
Qed.

Lemma range_length_zero x : range_length x chunk_size = 0%nat -> x <= 0.
Proof.
  unfold range_length, chunk_size. intros H.
  destruct (Z.le_gt_cases x 0) as [|Hx]; [assumption|]. exfalso.
  assert (1 <= (x + 50000 - 1) / 50000) by (apply Z.div_le_lower_bound; lia). lia.
Qed.

Lemma range_length_succ x n :
  range_length x chunk_size = S n ->
  0 < x /\ range_length (x - chunk_size) chunk_size = n.
Proof.
  unfold range_length, chunk_size. intros H.
  assert (Hx : 0 < x).
  { destruct (Z.le_gt_cases x 0) as [Hx|]; [|assumption]. exfalso.
    assert ((x + 50000 - 1) / 50000 < 1) by (apply Z.div_lt_upper_bound; lia). lia. }
  split; [assumption|].
  replace (x - 50000 + 50000 - 1) with (x + 50000 - 1 + (-1) * 50000) by lia.
  rewrite Z.div_add by lia. lia.
Qed.

Lemma chunk_loop_spec format_str cs vertex_size N r n s rest acc w :
  parse_format format_str = Ok cs ->
  vertex_size = codes_size cs ->
  (3 <= length cs)%nat ->
  n = range_length (N - s) chunk_size ->
  exists evs,
    chunk_loop format_str vertex_size N r n s rest acc w
    = (Ret (acc ++ List.filter (inside r)
              (np_array (map (unpack_codes cs)
                           (records_of vertex_size (Z.to_nat (N - s)) rest)))),
       printed evs w)
    /\ Forall is_progress evs.
Proof.
  intros Hp Hv Hw. revert s rest acc w.
  assert (Hpos : (0 < vertex_size)%nat).
  { pose proof (codes_size_ge_length cs). lia. }
  induction n as [|n IH]; intros s rest acc [fs out] Hn.
  - symmetry in Hn. apply range_length_zero in Hn.
    exists []. split; [|constructor]. unfold printed. cbn [chunk_loop ret files stdout].
    replace (Z.to_nat (N - s)) with 0%nat by lia. cbn. now rewrite !app_nil_r.
  - symmetry in Hn. apply range_length_succ in Hn as [Hx Hn].
    cbn [chunk_loop]. unfold bind at 1, liftR.
    rewrite (read_chunk_spec _ cs) by assumption. cbn [app].
    set (c := Z.min (s + chunk_size) N - s).
    assert (Hc : c = Z.min chunk_size (N - s)) by (subst c; lia).
    destruct (Z.to_nat c) as [|c'] eqn:Ec; [unfold chunk_size in *; lia|].
    destruct (Z.to_nat (N - s)) as [|m] eqn:Em; [lia|].
    destruct (records_of vertex_size (S c') rest) as [|d recs] eqn:Erecs.
    + exists []. split; [|constructor]. unfold printed. cbn [map ret files stdout].
      rewrite (records_of_first_missing _ _ m _ Erecs). cbn. now rewrite !app_nil_r.
    + cbn [map]. change (unpack_codes cs d :: map (unpack_codes cs) recs)
        with (map (unpack_codes cs) (d :: recs)).
      rewrite <- Erecs.
      set (chunk_array := np_array (map (unpack_codes cs) (records_of vertex_size (S c') rest))).
      assert (Hwide : Forall (fun row => (3 <= length row)%nat) chunk_array).
      { apply Forall_forall. intros row Hin. subst chunk_array.
        apply np_array_decoded_width in Hin. lia. }
      unfold bind at 1, liftR. rewrite (mask_spec r _ Hwide).
      rewrite select_rows_filter.
      set (acc' := if (0 <? length (List.filter (inside r) chunk_array))%nat
                   then acc ++ List.filter (inside r) chunk_array else acc).
      assert (Hacc : acc' = acc ++ List.filter (inside r) chunk_array).
      { subst acc'. destruct (List.filter (inside r) chunk_array); cbn;
          [now rewrite app_nil_r | reflexivity]. }
      unfold bind at 1, print. cbn [files stdout].
      destruct (IH (s + chunk_size) (rest_after vertex_size (S c') rest) acc'
                  (World fs (out ++ [EvProgress (Z.min (Z.min (s + chunk_size) N) N) N (length acc')])))
        as (evs & Hrun & Hevs).
      { rewrite <- Hn. f_equal. lia. }
      rewrite Hrun. unfold printed. cbn [files stdout].
      exists (EvProgress (Z.min (Z.min (s + chunk_size) N) N) N (length acc') :: evs).
      split; [|constructor; [unfold is_progress; eauto | assumption]].
      rewrite <- app_assoc. cbn [app]. f_equal. f_equal.
      rewrite Hacc, <- app_assoc. f_equal.
      subst chunk_array. rewrite <- List.filter_app, <- np_array_decoded_app. do 3 f_equal.
      rewrite <- Em.
      destruct (Z.le_gt_cases (N - s) chunk_size) as [Hsmall|Hbig].
      * replace (Z.to_nat (N - (s + chunk_size))) with 0%nat by lia.
        simpl (records_of vertex_size 0 _). rewrite app_nil_r. f_equal. lia.
      * replace (Z.to_nat (N - s)) with (S c' + Z.to_nat (N - (s + chunk_size)))%nat by lia.
        symmetry. now apply records_of_add.
Qed.

(** ** Computations in the world *)

Lemma printed_nil w : printed [] w = w.
Proof. destruct w. unfold printed. cbn. now rewrite app_nil_r. Qed.

Lemma printed_printed evs evs' w : printed evs' (printed evs w) = printed (evs ++ evs') w.
Proof. unfold printed. cbn. now rewrite app_assoc. Qed.

Lemma files_printed evs w : files (printed evs w) = files w.
Proof. reflexivity. Qed.

Lemma bind_Ret {A B : Type} (c : M A) (k : A -> M B) w b w' :
  bind c k w = (Ret b, w') <-> exists a w1, c w = (Ret a, w1) /\ k a w1 = (Ret b, w').
Proof.
  unfold bind. destruct (c w) as [[a| |] w1]; split.
  - intros H. now exists a, w1.
  - now intros (a' & w1' & [= -> ->] & H).
  - discriminate.
  - now intros (a' & w1' & [=] & _).
  - discriminate.
  - now intros (a' & w1' & [=] & _).
Qed.

Lemma liftR_Ret {A : Type} (r : result A) w a w' :
  liftR r w = (Ret a, w') <-> r = Ok a /\ w' = w.
Proof.
  unfold liftR. destruct r; split.
  - now intros [= -> ->].
  - now intros [[= ->] ->].
  - discriminate.
  - now intros [[=] _].
Qed.

Lemma prints_weaken (P Q : event -> Prop) {A : Type} (c : M A) :
  (forall ev, P ev -> Q ev) -> prints P c -> prints Q c.
Proof.
  intros HPQ Hc w. destruct (Hc w) as (evs & Hw & Hevs). exists evs.
  split; [assumption|]. eapply Forall_impl; eauto.
Qed.

Lemma prints_read_only P {A : Type} (c : M A) : prints P c -> read_only c.
Proof. intros H w. destruct (H w) as (evs & -> & _). reflexivity. Qed.

Lemma prints_ret P {A : Type} (a : A) : prints P (ret a).
Proof. intros w. exists []. cbn. now rewrite printed_nil. Qed.

Lemma prints_liftR P {A : Type} (r : result A) : prints P (liftR r).
Proof. intros w. exists []. rewrite printed_nil. unfold liftR. now destruct r. Qed.

Lemma prints_liftO P {A : Type} (o : outcome A) : prints P (liftO o).
Proof. intros w. exists []. now rewrite printed_nil. Qed.

Lemma prints_print (P : event -> Prop) ev : P ev -> prints P (print ev).
Proof. intros H w. exists [ev]. split; [reflexivity | now constructor]. Qed.

Lemma prints_open_read P path : prints P (open_read path).
Proof.
  intros w. exists []. rewrite printed_nil. unfold open_read.
  now destruct (files w !! path).
Qed.

Lemma prints_bind P {A B : Type} (c : M A) (k : A -> M B) :
  prints P c -> (forall a, prints P (k a)) -> prints P (bind c k).
Proof.
  intros Hc Hk w. unfold bind. destruct (Hc w) as (evs & Hw & Hevs).
  destruct (c w) as [[a| |] w1]; cbn [snd] in Hw; subst w1.
  - destruct (Hk a (printed evs w)) as (evs' & -> & Hevs'). exists (evs ++ evs').
    rewrite printed_printed. split; [reflexivity | now apply Forall_app].
  - now exists evs.
  - now exists evs.
Qed.

Ltac prints :=
  repeat first
    [ apply prints_ret | apply prints_liftR | apply prints_liftO
    | apply prints_print; first [ exact I | discriminate | unfold is_progress; eauto ]
    | apply prints_open_read
    | apply prints_bind; [|intros ?]
    | match goal with
      | |- prints _ (let '(_, _) := ?x in _) => destruct x
      | |- prints _ (match ?x with _ => _ end) => destruct x
      | |- prints _ (if ?x then _ else _) => destruct x
      end ].

Lemma prints_read_ply_header P fuel path : prints P (read_ply_header fuel path).
Proof. unfold read_ply_header. prints. Qed.

Lemma prints_print_axis_range axis min_b max_b rng :
  prints (fun _ => True) (print_axis_range axis min_b max_b rng).
Proof. unfold print_axis_range. prints. Qed.

Lemma prints_summarize_sample sampled vertex_count properties :
  prints (fun _ => True) (summarize_sample sampled vertex_count properties).
Proof.
  unfold summarize_sample.
  destruct (length (np_array sampled) =? 0)%nat;
    repeat first [ apply prints_print_axis_range | progress prints ].
Qed.

Lemma prints_only_analyze fuel path sample_size :
  prints_only (analyze_point_cloud_bounds fuel path sample_size).
Proof.
  unfold prints_only, analyze_point_cloud_bounds.
  repeat first [ apply prints_read_ply_header | apply prints_summarize_sample
               | progress prints ].
Qed.

(** Choosing the ranges prints neither of the two error messages. *)
Lemma prints_choose_ranges bi xr yr zr ratio interactive :
  prints (fun ev => ev <> EvNoVerticesRead /\ ev <> EvNoVerticesRemain)
    (choose_ranges bi xr yr zr ratio interactive).
Proof.
  unfold choose_ranges.
  repeat first
    [ apply prints_print; split; discriminate
    | progress prints ].
Qed.

Lemma prints_chunk_loop format_str vertex_size N r n s rest acc :
  prints is_progress (chunk_loop format_str vertex_size N r n s rest acc).
Proof.
  revert s rest acc. induction n as [|n IH]; intros s rest acc; cbn [chunk_loop].
  - prints.
  - repeat first [ apply IH | progress prints ].
Qed.

(** ** The analysis, once the header is read *)

Lemma print_run {B : Type} ev (k : unit -> M B) w :
  bind (print ev) k w = k tt (printed [ev] w).
Proof. reflexivity. Qed.

Lemma read_ply_header_run fuel path w data :
  files w !! path = Some data ->
  read_ply_header fuel path w = (read_header_bytes fuel data, w).
Proof. intros H. unfold read_ply_header, bind, open_read, liftO. now rewrite H. Qed.

Lemma analyze_run fuel path sample_size w data header_lines data_offset N properties fmt :
  files w !! path = Some data ->
  read_header_bytes fuel data = Ret (header_lines, data_offset) ->
  parse_ply_header header_lines = Ok (N, properties, fmt) ->
  analyze_point_cloud_bounds fuel path sample_size w
  = bind (liftR (draw_sample (create_struct_format properties)
                   (codes_size (layout properties)) data data_offset N sample_size))
      (fun sampled => summarize_sample sampled N properties)
      (printed [EvAnalyzing path] w).
Proof.
  intros Hf Hh Hp. unfold analyze_point_cloud_bounds. rewrite print_run.
  unfold bind at 1. rewrite (read_ply_header_run _ _ _ data) by assumption.
  rewrite Hh. unfold bind at 1, liftR at 1. rewrite Hp.
  unfold bind at 1, liftR at 1. rewrite struct_calcsize_create.
  unfold bind at 1, open_read. cbn [files printed]. rewrite Hf. reflexivity.
Qed.

(** Whatever the analysis returns, it has read and parsed the header. *)
Lemma analyze_returns_inv fuel path sample_size w ob w1 :
  analyze_point_cloud_bounds fuel path sample_size w = (Ret ob, w1) ->
  exists data header_lines data_offset N properties fmt,
    files w !! path = Some data
    /\ read_header_bytes fuel data = Ret (header_lines, data_offset)
    /\ parse_ply_header header_lines = Ok (N, properties, fmt).
Proof.
  unfold analyze_point_cloud_bounds. rewrite print_run.
  intros (hd & w2 & Hread & Hrest)%bind_Ret.
  unfold read_ply_header in Hread.
  apply bind_Ret in Hread as (data & w3 & Hopen & Hlift).
  unfold open_read in Hopen. cbn [files printed] in Hopen.
  destruct (files w !! path) as [data'|] eqn:Hf; [|discriminate].
  injection Hopen as Hd Hw3. subst data' w3. unfold liftO in Hlift.
  injection Hlift as Hh Hw2. subst w2.
  destruct hd as [header_lines data_offset].
  apply bind_Ret in Hrest as (st & w4 & Hparse & _).
  apply liftR_Ret in Hparse as [Hparse _]. destruct st as [[N properties] fmt].
  now exists data, header_lines, data_offset, N, properties, fmt.
Qed.

(** ** The sample and the width of the records *)

Lemma draw_sample_rows format_str cs vertex_size data data_offset N sample_size sampled :
  parse_format format_str = Ok cs ->
  vertex_size = codes_size cs ->
  draw_sample format_str vertex_size data data_offset N sample_size = Ok sampled ->
  exists recs, sampled = map (unpack_codes cs) recs.
Proof.
  intros Hp Hv. unfold draw_sample.
  destruct (floordiv N (Z.min sample_size N)) as [q|]; [|discriminate]. cbn [rbind].
  rewrite (sample_loop_spec _ cs) by assumption. cbn [app]. intros [= <-].
  rewrite <- map_map. eauto.
Qed.

Lemma first_three_columns_length rows row :
  row ∈ rows -> (length (first_three_columns rows) <= length row)%nat.
Proof.
  intros Hin. unfold first_three_columns.
  assert (Hcol : forall k, is_Some (column k rows) -> (k < length row)%nat).
  { intros k [col Hcol]. unfold column in Hcol. apply mapM_Some in Hcol.
    apply list_elem_of_lookup in Hin as [i Hi].
    destruct (Forall2_lookup_l _ _ _ _ _ Hcol Hi) as (x & _ & Hx).
    destruct (row !! k) eqn:Hk; [|discriminate]. now apply lookup_lt_Some in Hk. }
  pose proof (Hcol 0%nat) as C0. pose proof (Hcol 1%nat) as C1. pose proof (Hcol 2%nat) as C2.
  cbn [omap list_omap].
  destruct (column 0 rows); destruct (column 1 rows); destruct (column 2 rows);
    cbn [length];
    repeat match goal with
           | H : is_Some (Some _) -> _ |- _ => specialize (H ltac:(eauto))
           end; lia.
Qed.

Lemma liftR_run {A B : Type} (r : result A) (k : A -> M B) w :
  bind (liftR r) k w = match r with Ok a => k a w | Raise e => (Exc e, w) end.
Proof. unfold bind, liftR. now destruct r. Qed.

Lemma py_index_Ok {A : Type} (xs : list A) i x :
  py_index xs i = Ok x -> (i < length xs)%nat.
Proof.
  unfold py_index. destruct (xs !! i) eqn:E; [|discriminate].
  intros _. now apply lookup_lt_Some in E.
Qed.

Lemma print_axis_range_run {B : Type} axis min_b max_b rng (k : unit -> M B) w :
  bind (print_axis_range axis min_b max_b rng) k w
  = match py_index min_b axis, py_index max_b axis, py_index rng axis with
    | Ok lo, Ok hi, Ok ext => k tt (printed [EvAxisRange axis lo hi ext] w)
    | Raise e, _, _ => (Exc e, w)
    | Ok _, Raise e, _ => (Exc e, w)
    | Ok _, Ok _, Raise e => (Exc e, w)
    end.
Proof.
  unfold print_axis_range, bind, liftR, print.
  destruct (py_index min_b axis); [|reflexivity].
  destruct (py_index max_b axis); [|reflexivity].
  destruct (py_index rng axis); reflexivity.
Qed.

(** When the analysis yields bounds, the sample was not empty, it had
    three columns, and the message for an empty sample was not printed. *)
Lemma summarize_sample_Some sampled N properties w bi w1 :
  summarize_sample sampled N properties w = (Ret (Some bi), w1) ->
  np_array sampled <> []
  /\ (3 <= length (first_three_columns (np_array sampled)))%nat
  /\ exists evs, w1 = printed evs w /\ Forall (fun ev => ev <> EvNoVerticesRead) evs.
Proof.
  unfold summarize_sample.
  destruct (np_array sampled) as [|row rows] eqn:Erows; [discriminate|].
  cbn [length Nat.eqb]. rewrite <- Erows.
  set (xyz := first_three_columns (np_array sampled)).
  rewrite print_run.
  repeat first
    [ rewrite print_axis_range_run | rewrite liftR_run | rewrite print_run
    | match goal with
      | |- context [match py_index ?l ?i with _ => _ end] =>
          destruct (py_index l i) eqn:?; [|discriminate]
      end ].
  unfold ret. intros [= _ <-].
  split; [congruence|]. split.
  - match goal with
    | H : py_index (map _ xyz) 2 = Ok _ |- _ =>
        apply py_index_Ok in H; now rewrite length_map in H
    end.
  - rewrite !printed_printed. eexists. split; [reflexivity|].
    repeat constructor; discriminate.
Qed.

Lemma analysis_width fuel path sample_size w bi w1 data header_lines data_offset N properties fmt :
  files w !! path = Some data ->
  read_header_bytes fuel data = Ret (header_lines, data_offset) ->
  parse_ply_header header_lines = Ok (N, properties, fmt) ->
  analyze_point_cloud_bounds fuel path sample_size w = (Ret (Some bi), w1) ->
  (3 <= length (layout properties))%nat
  /\ exists evs, w1 = printed evs w /\ Forall (fun ev => ev <> EvNoVerticesRead) evs.
Proof.
  intros Hf Hh Hp. rewrite (analyze_run _ _ _ _ _ _ _ _ _ _ Hf Hh Hp), liftR_run.
  destruct (draw_sample _ _ _ _ _ _) as [sampled|] eqn:Es; [|discriminate].
  intros (Hne & Hcols & evs & -> & Hevs)%summarize_sample_Some.
  destruct (draw_sample_rows _ _ _ _ _ _ _ _ (parse_format_create properties) eq_refl Es)
    as [recs ->].
  split.
  - destruct (np_array (map (unpack_codes (layout properties)) recs)) as [|row rows] eqn:E;
      [congruence|].
    assert (Hin : row ∈ np_array (map (unpack_codes (layout properties)) recs))
      by (rewrite E; constructor).
    pose proof (np_array_decoded_width _ _ _ Hin) as Hlen.
    rewrite <- E in Hcols. pose proof (first_three_columns_length _ _ Hin). lia.
  - exists (EvAnalyzing path :: evs). rewrite printed_printed. split; [reflexivity|].
    constructor; [discriminate | assumption].
Qed.

(** ** Arrays of arrays *)

Lemma promote_promote (row : list pyval) :
  map (fun v => PFloat (as_float v)) (map (fun v => PFloat (as_float v)) row)
  = map (fun v => PFloat (as_float v)) row.
Proof. rewrite map_map. reflexivity. Qed.

Lemma existsb_filter_false {A : Type} (p f : A -> bool) xs :
  existsb p xs = false -> existsb p (List.filter f xs) = false.
Proof.
  induction xs as [|x xs IH]; [reflexivity|]. cbn [existsb List.filter].
  intros [Hx Hxs]%orb_false_iff. destruct (f x); cbn [existsb]; rewrite ?Hx; auto.
Qed.

(** Rows kept from an array form the same array again. *)
Lemma np_array_filter f rows :
  np_array (List.filter f (np_array rows)) = List.filter f (np_array rows).
Proof.
  unfold np_array at 2 3. destruct (existsb (existsb is_pyfloat) rows) eqn:E.
  - unfold np_array. destruct (existsb _ (List.filter f _)); [|reflexivity].
    induction rows as [|row rows IH] in |- *; [reflexivity|]. cbn [map List.filter].
    destruct (f _); cbn [map]; [rewrite promote_promote|]; now rewrite IH.
  - unfold np_array. now rewrite existsb_filter_false.
Qed.

(** ** Writing *)

Lemma files_set_file path content w : files (set_file path content w) !! path = Some content.
Proof. unfold set_file. cbn. apply lookup_insert_eq. Qed.

Lemma set_file_set_file path c1 c2 w : set_file path c2 (set_file path c1 w) = set_file path c2 w.
Proof. unfold set_file. cbn. now rewrite insert_insert_eq. Qed.

Lemma open_write_run {B : Type} path (k : unit -> M B) w :
  bind (open_write path) k w = k tt (set_file path [] w).
Proof. reflexivity. Qed.

Lemma f_write_set_file path bs content w :
  f_write path bs (set_file path content w) = (Ret tt, set_file path (content ++ bs) w).
Proof.
  unfold f_write. rewrite files_set_file. cbn [default].
  f_equal. unfold set_file. cbn. now rewrite insert_insert_eq.
Qed.

Lemma f_write_run {B : Type} path bs (k : unit -> M B) content w :
  bind (f_write path bs) k (set_file path content w) = k tt (set_file path (content ++ bs) w).
Proof. unfold bind. now rewrite f_write_set_file. Qed.

Lemma encode_ascii_Ok s bs : encode_ascii s = Ok bs -> bs = list_byte_of_string s.
Proof. unfold encode_ascii. destruct (forallb _ _); [now intros [= <-] | discriminate]. Qed.

Lemma write_text_run {B : Type} path text (k : unit -> M B) content w :
  bind (write_text path text) k (set_file path content w)
  = match encode_ascii text with
    | Ok bs => k tt (set_file path (content ++ bs) w)
    | Raise e => (Exc e, set_file path content w)
    end.
Proof.
  unfold write_text, bind at 1. unfold bind, liftR.
  destruct (encode_ascii text); [|reflexivity]. now rewrite f_write_set_file.
Qed.

Lemma rmapM_Forall2 {A B : Type} (f : A -> result B) xs ys :
  rmapM f xs = Ok ys <-> Forall2 (fun x y => f x = Ok y) xs ys.
Proof.
  revert ys. induction xs as [|x xs IH]; intros ys; cbn [rmapM]; split.
  - intros [= <-]. constructor.
  - intros H. inversion H. reflexivity.
  - intros (y & Hy & (ys' & Hys & [= <-])%rbind_Ok)%rbind_Ok.
    constructor; [assumption | now apply IH].
  - intros H. inversion H as [|? y ? ys' Hy Hys]; subst. rewrite Hy. cbn [rbind].
    apply IH in Hys. now rewrite Hys.
Qed.

(** A loop of writes appends the chunks in order, when none fails. *)
Lemma for_each_write_Ret {A : Type} path (g : A -> result (list byte)) body xs content w u w' :
  (forall x, body x = (bs <~ liftR (g x) ;; f_write path bs)) ->
  for_each body xs (set_file path content w) = (Ret u, w') ->
  exists chunks, rmapM g xs = Ok chunks /\ w' = set_file path (content ++ concat chunks) w.
Proof.
  intros Hbody. revert content. induction xs as [|x xs IH]; intros content; cbn [for_each].
  - unfold ret. intros [= _ <-]. exists []. cbn. now rewrite app_nil_r.
  - rewrite Hbody. unfold bind at 1. rewrite liftR_run.
    destruct (g x) as [bs|] eqn:Eg; [|discriminate]. rewrite f_write_set_file.
    intros (chunks & Hchunks & ->)%IH. exists (bs :: chunks). cbn [rmapM concat].
    rewrite Eg. cbn [rbind]. rewrite Hchunks. cbn [rbind].
    split; [reflexivity |]. now rewrite <- app_assoc.
Qed.

Lemma list_byte_of_string_app s t :
  list_byte_of_string (s +:+ t) = list_byte_of_string s ++ list_byte_of_string t.
Proof. unfold list_byte_of_string. now rewrite list_ascii_of_string_app, map_app. Qed.

Lemma concat_encoded {A : Type} (f : A -> string) xs chunks :
  rmapM (fun x => encode_ascii (f x)) xs = Ok chunks ->
  concat chunks = list_byte_of_string (foldr (fun x s => f x +:+ s) "" xs).
Proof.
  revert chunks. induction xs as [|x xs IH]; intros chunks; cbn [rmapM foldr].
  - now intros [= <-].
  - intros (bs & Hbs%encode_ascii_Ok & (rest & Hrest & [= <-])%rbind_Ok)%rbind_Ok.
    cbn [concat]. rewrite list_byte_of_string_app, (IH _ Hrest). now subst bs.
Qed.

(** What a successful [write_ply_file] leaves in the file: the header,
    then the encoded records in order. *)
Lemma write_ply_file_Ret output_path vertices properties comments w u w' :
  write_ply_file output_path vertices properties comments w = (Ret u, w') ->
  exists chunks,
    rmapM (encode_vertex properties) vertices = Ok chunks
    /\ w' = set_file output_path
              (list_byte_of_string (header_text (length vertices) properties comments)
               ++ concat chunks) w.
Proof.
  unfold write_ply_file. rewrite open_write_run, !f_write_run.
  intros (u1 & w1 & Hcomments & H)%bind_Ret.
  apply (for_each_write_Ret _ (fun c => encode_ascii (comment_line c))) in Hcomments
    as (cchunks & Hc & ->); [|reflexivity].
  rewrite write_text_run in H.
  destruct (encode_ascii _) as [ebytes|] eqn:Ee; [|discriminate].
  apply encode_ascii_Ok in Ee. apply bind_Ret in H as (u2 & w2 & Hprops & H).
  apply (for_each_write_Ret _ (fun p => encode_ascii (property_line p))) in Hprops
    as (pchunks & Hp & ->); [|now intros [t n]].
  rewrite f_write_run in H.
  apply (for_each_write_Ret _ (encode_vertex properties)) in H
    as (vchunks & Hv & ->); [|reflexivity].
  exists vchunks. split; [assumption|]. f_equal.
  apply (concat_encoded comment_line) in Hc. apply (concat_encoded property_line) in Hp.
  subst ebytes. rewrite Hc, Hp. unfold header_text.
  rewrite !list_byte_of_string_app. cbn [app]. rewrite <- !app_assoc. reflexivity.
Qed.

(** ** The filtering pass, once the header is read *)

Lemma crop_pass_run fuel input_path output_path r w data header_lines data_offset N
  properties fmt :
  files w !! input_path = Some data ->
  read_header_bytes fuel data = Ret (header_lines, data_offset) ->
  parse_ply_header header_lines = Ok (N, properties, fmt) ->
  (3 <= length (layout properties))%nat ->
  exists evs,
    Forall is_progress evs
    /\ crop_pass fuel input_path output_path r w
       = match List.filter (inside r)
                 (np_array (decoded_records properties N (drop data_offset data))) with
         | [] => (Ret false, printed (EvProcessing N :: evs ++ [EvNoVerticesRemain]) w)
         | row :: rows =>
             (write_ply_file output_path (row :: rows) properties
                (crop_comments input_path r N (length (row :: rows))) ;;;
              print (EvSaved output_path) ;;;
              ret true)
               (printed (EvProcessing N :: evs ++ [EvResults N (length (row :: rows))]) w)
         end.
Proof.
  intros Hf Hh Hp Hw. unfold crop_pass.
  unfold bind at 1. rewrite (read_ply_header_run _ _ _ data) by assumption. rewrite Hh.
  rewrite liftR_run, Hp. rewrite liftR_run, struct_calcsize_create.
  rewrite print_run. unfold bind at 1, open_read. cbn [files printed]. rewrite Hf.
  destruct (chunk_loop_spec (create_struct_format properties) (layout properties)
              (codes_size (layout properties)) N r (range_length N chunk_size) 0
              (drop data_offset data) [] (printed [EvProcessing N] w)
              (parse_format_create properties) eq_refl Hw)
    as (evs & Hrun & Hevs).
  { now rewrite Z.sub_0_r. }
  exists evs. split; [assumption|].
  rewrite Z.sub_0_r in Hrun. cbn [app] in Hrun.
  fold (decoded_records properties N (drop data_offset data)) in Hrun.
  unfold bind at 1. rewrite Hrun.
  pose proof (np_array_filter (inside r)
                (decoded_records properties N (drop data_offset data))) as Hnp.
  destruct (List.filter (inside r) (np_array (decoded_records properties N _)))
    as [|row rows]; cbv beta iota.
  - rewrite print_run. unfold ret. rewrite !printed_printed. reflexivity.
  - rewrite Hnp. rewrite print_run, !printed_printed. reflexivity.
Qed.

(** * The claims *)

Ltac in_list := repeat first [ left; reflexivity | right ].

(** C1. The filtering pass keeps a record exactly when its first three
    values lie in the three closed ranges: whatever the chunking, it returns
    the decoded records, in order, that pass the six comparisons
    [xlo <= x], [x <= xhi], [ylo <= y], [y <= yhi], [zlo <= z], [z <= zhi].
    On the file of five records with fields float x, y, z and uchar red,
    green, blue, one record at (100, 0, 0) and four in the cube from -1 to 1,
    cropping to that cube succeeds, reports 5 original and 4 cropped
    vertices, and writes the four records that are in range. *)
Theorem crop_keeps_exactly_the_records_in_range :
  (forall properties N x_range y_range z_range body w,
     (3 <= length (layout properties))%nat ->
     let records := np_array (decoded_records properties N body) in
     let kept := List.filter (inside (x_range, y_range, z_range)) records in
     (exists evs,
        chunk_loop (create_struct_format properties) (codes_size (layout properties)) N
          (x_range, y_range, z_range) (range_length N chunk_size) 0 body [] w
        = (Ret kept, printed evs w))
     /\ forall row,
          In row kept
          <-> In row records
              /\ exists x y z others,
                   row = x :: y :: z :: others
                   /\ SFleb (fst x_range) (as_float x) = true
                   /\ SFleb (as_float x) (snd x_range) = true
                   /\ SFleb (fst y_range) (as_float y) = true
                   /\ SFleb (as_float y) (snd y_range) = true
                   /\ SFleb (fst z_range) (as_float z) = true
                   /\ SFleb (as_float z) (snd z_range) = true)
  /\ (let run :=
        crop_by_bounds 20 "in.ply" "out.ply" (Some Sample.unit_range)
          (Some Sample.unit_range) (Some Sample.unit_range) None false
          (Sample.world_of Sample.input) in
      fst run = Ret true
      /\ In (EvResults 5 4) (stdout (snd run))
      /\ files (snd run) !! "out.ply"%string
         = Some (list_byte_of_string
                   (header_text 4 Sample.properties
                      (crop_comments "in.ply" Sample.unit_cube 5 4))
                 ++ Sample.record0 ++ Sample.record1 ++ Sample.record3 ++ Sample.record4)).
Proof.
  split.
  - intros properties N x_range y_range z_range body w Hw records kept. split.
    + destruct (chunk_loop_spec (create_struct_format properties) (layout properties)
                  (codes_size (layout properties)) N (x_range, y_range, z_range)
                  (range_length N chunk_size) 0 body [] w
                  (parse_format_create properties) eq_refl Hw)
        as (evs & Hrun & _).
      { now rewrite Z.sub_0_r. }
      exists evs. rewrite Hrun, Z.sub_0_r. reflexivity.
    + intros row. subst kept. rewrite List.filter_In. split.
      * intros [Hin Hinside]. split; [assumption|].
        assert (Hlen : length row = length (layout properties)).
        { apply list_elem_of_In in Hin. subst records. unfold decoded_records in Hin.
          now apply np_array_decoded_width in Hin. }
        destruct row as [|x [|y [|z others]]]; cbn [length] in Hlen; try lia.
        exists x, y, z, others. split; [reflexivity|].
        now apply (inside_iff (x_range, y_range, z_range)) in Hinside.
      * intros [Hin (x & y & z & others & -> & H)]. split; [assumption|].
        now apply (inside_iff (x_range, y_range, z_range)).
  - vm_compute. split; [reflexivity|]. split; [in_list | reflexivity].
Qed.

Lemma crop_keeps_exactly_the_records_in_range_witness :
  (3 <= length (layout Sample.properties))%nat
  /\ exists evs,
       chunk_loop (create_struct_format Sample.properties)
         (codes_size (layout Sample.properties)) 5 Sample.unit_cube
         (range_length 5 chunk_size) 0 Sample.body [] (Sample.world_of Sample.input)
       = (Ret (List.filter (inside Sample.unit_cube)
                 (np_array (decoded_records Sample.properties 5 Sample.body))),
          printed evs (Sample.world_of Sample.input)).
Proof.
  assert (H : (3 <= length (layout Sample.properties))%nat) by (vm_compute; lia).
  split; [exact H|].
  exact (proj1 (proj1 crop_keeps_exactly_the_records_in_range Sample.properties 5
                  Sample.unit_range Sample.unit_range Sample.unit_range Sample.body
                  (Sample.world_of Sample.input) H)).
Defined.

(** C2. After a successful crop the output file is the header for the
    retained records and the field list of the input (an [element vertex]
    line with the number of retained records, one [property] line per input
    field with its type tag and name, in the order of the input), followed
    by the encoded buffer of each retained record, in the order in which the
    records were retained, which is their order in the input body. *)
Theorem crop_output_is_header_then_retained_records
  fuel input_path output_path x_range y_range z_range center_crop_ratio interactive w w' :
  crop_by_bounds fuel input_path output_path x_range y_range z_range center_crop_ratio
    interactive w = (Ret true, w') ->
  exists data header_lines data_offset N properties fmt r chunks,
    files w !! input_path = Some data
    /\ read_header_bytes fuel data = Ret (header_lines, data_offset)
    /\ parse_ply_header header_lines = Ok (N, properties, fmt)
    /\ let retained :=
         List.filter (inside r)
           (np_array (decoded_records properties N (drop data_offset data))) in
       Forall2 (fun row bs => encode_vertex properties row = Ok bs) retained chunks
       /\ files w'
          = <[output_path :=
                list_byte_of_string
                  (header_text (length retained) properties
                     (crop_comments input_path r N (length retained)))
                ++ concat chunks]> (files w).
Proof.
  unfold crop_by_bounds. intros (bounds & w1 & Han & H)%bind_Ret.
  destruct bounds as [bi|]; [|discriminate].
  apply bind_Ret in H as (r & w2 & Hr & H). rewrite print_run in H.
  destruct (analyze_returns_inv _ _ _ _ _ _ Han)
    as (data & header_lines & data_offset & N & properties & fmt & Hf & Hh & Hp).
  destruct (analysis_width _ _ _ _ _ _ _ _ _ _ _ _ Hf Hh Hp Han) as (Hw & evs1 & -> & _).
  destruct (prints_choose_ranges bi x_range y_range z_range center_crop_ratio interactive
              (printed evs1 w)) as (evs2 & Hw2 & _).
  rewrite Hr in Hw2. cbn [snd] in Hw2. subst w2. rewrite !printed_printed in H.
  cbv beta in H.
  match type of H with
  | crop_pass _ _ _ _ ?w3 = _ =>
      destruct (crop_pass_run fuel input_path output_path r w3 data header_lines
                  data_offset N properties fmt Hf Hh Hp Hw) as (evs3 & _ & Hrun)
  end.
  rewrite Hrun in H. clear Hrun.
  exists data, header_lines, data_offset, N, properties, fmt, r.
  destruct (List.filter (inside r) _) as [|row rows]; [discriminate|].
  apply bind_Ret in H as (u & w3 & Hwrite & H).
  apply write_ply_file_Ret in Hwrite as (chunks & Hchunks & ->).
  rewrite print_run in H. unfold ret in H. injection H as <-.
  exists chunks. split; [assumption|]. split; [assumption|]. split; [assumption|].
  split; [now apply rmapM_Forall2 | reflexivity].
Qed.

Lemma crop_output_is_header_then_retained_records_witness :
  let run :=
    crop_by_bounds 20 "in.ply" "out.ply" (Some Sample.unit_range) (Some Sample.unit_range)
      (Some Sample.unit_range) None false (Sample.world_of Sample.input) in
  run = (Ret true, snd run)
  /\ exists data header_lines data_offset N properties fmt r chunks,
       files (Sample.world_of Sample.input) !! "in.ply"%string = Some data
       /\ read_header_bytes 20 data = Ret (header_lines, data_offset)
       /\ parse_ply_header header_lines = Ok (N, properties, fmt)
       /\ let retained :=
            List.filter (inside r)
              (np_array (decoded_records properties N (drop data_offset data))) in
          Forall2 (fun row bs => encode_vertex properties row = Ok bs) retained chunks
          /\ files (snd run)
             = <["out.ply"%string :=
                   list_byte_of_string
                     (header_text (length retained) properties
                        (crop_comments "in.ply" r N (length retained)))
                   ++ concat chunks]> (files (Sample.world_of Sample.input)).
Proof.
  intros run.
  assert (H : run = (Ret true, snd run)).
  { assert (Hfst : fst run = Ret true) by (vm_compute; reflexivity).
    rewrite (surjective_pairing run) at 1. now rewrite Hfst. }
  split; [exact H|].
  exact (crop_output_is_header_then_retained_records 20 "in.ply" "out.ply"
           (Some Sample.unit_range) (Some Sample.unit_range) (Some Sample.unit_range)
           None false (Sample.world_of Sample.input) (snd run) H).
Defined.

(** C3. For a file of [N > 0] records and a ceiling [c > 0] the estimator
    takes [S = min c N] and [step = max 1 (N / S)] and decodes the records
    at indices 0, step, 2 step, ..., each read at its own offset, until [S]
    records are collected or a record is cut short by the end of the file.
    The sample is this function of the file and nothing else. *)
Theorem sample_is_evenly_spaced properties data data_offset N c :
  0 < N -> 0 < c ->
  let S := Z.min c N in
  let step := Z.max 1 (N / S) in
  let vertex_size := codes_size (layout properties) in
  draw_sample (create_struct_format properties) vertex_size data data_offset N c
  = Ok (map (fun i => unpack_codes (layout properties)
                        (read_at vertex_size data data_offset i))
          (take_while
             (fun i => (length (read_at vertex_size data data_offset i) =? vertex_size)%nat)
             (map (fun k => Z.of_nat k * step) (seq 0 (Z.to_nat S))))).
Proof.
  intros HN Hc S step vertex_size. unfold draw_sample. fold S.
  unfold floordiv. destruct (Z.eqb_spec S 0) as [H0|_]; [subst S; lia|].
  cbn [rbind]. fold step.
  rewrite (sample_loop_spec _ (layout properties)) by (apply parse_format_create || reflexivity).
  cbn [app length]. rewrite Nat.sub_0_r.
  rewrite Nat.min_r by (apply range_length_covers; subst S; lia).
  reflexivity.
Qed.

Lemma sample_is_evenly_spaced_witness :
  0 < 5 /\ 0 < 2
  /\ draw_sample (create_struct_format Sample.properties)
       (codes_size (layout Sample.properties)) Sample.input 175 5 2
     = Ok (map (fun i => unpack_codes (layout Sample.properties)
                           (read_at (codes_size (layout Sample.properties))
                              Sample.input 175 i))
             (take_while
                (fun i => (length (read_at (codes_size (layout Sample.properties))
                                     Sample.input 175 i)
                           =? codes_size (layout Sample.properties))%nat)
                (map (fun k => Z.of_nat k * Z.max 1 (5 / Z.min 2 5))
                   (seq 0 (Z.to_nat (Z.min 2 5)))))).
Proof.
  split; [lia|]. split; [lia|].
  apply (sample_is_evenly_spaced Sample.properties Sample.input 175 5 2); lia.
Defined.

(** C4. Encoding an integer [v] in an unsigned-byte field yields the byte
    [v mod 256], which lies between 0 and 255, and never fails: 300 gives
    44 and -1 gives 255. *)
Theorem uchar_is_reduced_modulo_256 :
  (forall v name,
     convert_value "uchar" (PInt v) = Ok (PInt (v mod 256))
     /\ encode_vertex [("uchar"%string, name)] [PInt v] = Ok [Z_to_byte (v mod 256)]
     /\ byte_to_Z (Z_to_byte (v mod 256)) = v mod 256
     /\ 0 <= v mod 256 <= 255)
  /\ encode_vertex [("uchar", "red")%string] [PInt 300] = Ok [x2c]
  /\ encode_vertex [("uchar", "red")%string] [PInt (-1)] = Ok [xff].
Proof.
  split; [|split; reflexivity].
  intros v name. pose proof (Z.mod_pos_bound v 256 ltac:(lia)) as Hr.
  split; [reflexivity|]. split; [|split].
  - unfold encode_vertex. cbn [convert_vertex py_index lookup list_lookup rbind].
    change (convert_value "uchar" (PInt v)) with (Ok (PInt (v mod 256))).
    cbn [rbind]. unfold struct_pack.
    change (parse_format (create_struct_format [("uchar"%string, name)])) with (Ok [CB]).
    cbn [rbind pack_codes pack_value].
    destruct (Z.leb_spec 0 (v mod 256)); [|lia].
    destruct (Z.leb_spec (v mod 256) 255); [|lia].
    cbn [andb rbind bytes_of_Z_le app]. now rewrite Z.mod_mod by lia.
  - rewrite byte_to_Z_to_byte. apply Z.mod_mod. lia.
  - lia.
Qed.

(** C5 as stated fails: 0.1, a value every Python float can hold, does
    not survive a [float] field, which keeps 24 bits of it. *)
Lemma float_field_rounds_a_double :
  valid_binary 53 1024 IEEE.tenth = true
  /\ exists data decoded,
       encode_vertex [("float", "x")%string] [PFloat IEEE.tenth] = Ok data
       /\ struct_unpack (create_struct_format [("float", "x")%string]) data = Ok decoded
       /\ decoded <> [PFloat IEEE.tenth].
Proof.
  split; [reflexivity|].
  eexists. eexists. split; [vm_compute; reflexivity|]. split; [vm_compute; reflexivity|].
  discriminate.
Qed.

(** C5, amended. For a field list over float, uchar, int and double and a
    record whose values fit their fields (a binary32 number in a float
    field, a binary64 number in a double field, a signed 32-bit integer in
    an int field, any integer in a uchar field), encoding succeeds and
    decoding the result gives the record back, exactly, in every float,
    double and int field; a uchar field comes back reduced modulo 256. *)
Theorem record_round_trip properties r :
  Forall2 typed_value (map fst properties) r ->
  exists data,
    encode_vertex properties r = Ok data
    /\ struct_unpack (create_struct_format properties) data
       = Ok (zip_with read_back (map fst properties) r)
    /\ forall i prop_type v,
         map fst properties !! i = Some prop_type ->
         r !! i = Some v ->
         prop_type <> "uchar"%string ->
         zip_with read_back (map fst properties) r !! i = Some v.
Proof.
  intros Hr.
  destruct (record_round_trip_from properties r [] Hr) as (conv & data & Hc & Hp & Hl & Hu).
  exists data. split; [|split].
  - unfold encode_vertex. cbn [length app] in Hc. rewrite Hc. cbn [rbind].
    unfold struct_pack. now rewrite parse_format_create.
  - rewrite struct_unpack_create by assumption. now rewrite Hu.
  - intros i t v Ht Hv Hne. rewrite lookup_zip_with, Ht, Hv. cbn.
    f_equal. destruct v as [z|x]; [|reflexivity]. cbn [read_back].
    destruct (String.eqb_spec t "uchar"); [contradiction | reflexivity].
Qed.

Lemma record_round_trip_witness :
  Forall2 typed_value (map fst Sample.mixed_properties) Sample.mixed_record
  /\ exists data,
       encode_vertex Sample.mixed_properties Sample.mixed_record = Ok data
       /\ struct_unpack (create_struct_format Sample.mixed_properties) data
          = Ok (zip_with read_back (map fst Sample.mixed_properties) Sample.mixed_record)
       /\ forall i prop_type v,
            map fst Sample.mixed_properties !! i = Some prop_type ->
            Sample.mixed_record !! i = Some v ->
            prop_type <> "uchar"%string ->
            zip_with read_back (map fst Sample.mixed_properties) Sample.mixed_record !! i
            = Some v.
Proof.
  assert (H : Forall2 typed_value (map fst Sample.mixed_properties) Sample.mixed_record).
  { repeat constructor; vm_compute; (reflexivity || discriminate). }
  split; [exact H|]. exact (record_round_trip Sample.mixed_properties Sample.mixed_record H).
Defined.

(** C6. What the program does on a header without terminator: when no
    line of an all-ASCII file is [end_header], the header loop never
    returns, whatever the fuel, so neither the analysis nor the crop
    returns or raises anything; they print the first message and write
    nothing. *)
Theorem missing_terminator_never_returns
  fuel path output_path x_range y_range z_range center_crop_ratio interactive sample_size
  w data :
  files w !! path = Some data ->
  forallb is_ascii_byte data = true ->
  no_terminator data ->
  read_header_bytes fuel data = Timeout
  /\ analyze_point_cloud_bounds fuel path sample_size w
     = (Timeout, printed [EvAnalyzing path] w)
  /\ crop_by_bounds fuel path output_path x_range y_range z_range center_crop_ratio
       interactive w
     = (Timeout, printed [EvAnalyzing path] w).
Proof.
  intros Hf Hascii Hno.
  pose proof (read_header_bytes_no_terminator fuel data Hascii Hno) as Hh.
  assert (Han : forall n, analyze_point_cloud_bounds fuel path n w
                          = (Timeout, printed [EvAnalyzing path] w)).
  { intros n. unfold analyze_point_cloud_bounds. rewrite print_run. unfold bind at 1.
    rewrite (read_ply_header_run _ _ _ data) by assumption. now rewrite Hh. }
  split; [assumption|]. split; [apply Han|].
  unfold crop_by_bounds, bind at 1. now rewrite Han.
Qed.

Lemma missing_terminator_never_returns_witness :
  files (Sample.world_of Sample.unterminated) !! "in.ply"%string = Some Sample.unterminated
  /\ forallb is_ascii_byte Sample.unterminated = true
  /\ no_terminator Sample.unterminated
  /\ read_header_bytes 1000 Sample.unterminated = Timeout
  /\ analyze_point_cloud_bounds 1000 "in.ply" 10000 (Sample.world_of Sample.unterminated)
     = (Timeout, printed [EvAnalyzing "in.ply"] (Sample.world_of Sample.unterminated))
  /\ crop_by_bounds 1000 "in.ply" "out.ply" None None None None false
       (Sample.world_of Sample.unterminated)
     = (Timeout, printed [EvAnalyzing "in.ply"] (Sample.world_of Sample.unterminated)).
Proof.
  assert (H1 : files (Sample.world_of Sample.unterminated) !! "in.ply"%string
               = Some Sample.unterminated) by reflexivity.
  assert (H2 : forallb is_ascii_byte Sample.unterminated = true) by reflexivity.
  assert (H3 : no_terminator Sample.unterminated).
  { unfold no_terminator.
    let l := eval vm_compute in (split_lines Sample.unterminated) in
    change (split_lines Sample.unterminated) with l.
    repeat constructor; vm_compute; discriminate. }
  split; [exact H1|]. split; [exact H2|]. split; [exact H3|].
  exact (missing_terminator_never_returns 1000 "in.ply" "out.ply" None None None None false
           10000 (Sample.world_of Sample.unterminated) Sample.unterminated H1 H2 H3).
Defined.

(** C7 as stated fails: a field list with the unknown tag [short] gets a
    layout, of the three fields that are known, and the analysis goes on to
    read the body and returns bounds. *)
Lemma unknown_type_tag_is_not_rejected :
  code_of_type "short" = None
  /\ In ("short", "s")%string Sample.short_properties
  /\ struct_calcsize (create_struct_format Sample.short_properties) = Ok 12%nat
  /\ exists bi w',
       analyze_point_cloud_bounds 20 "in.ply" 10000 (Sample.world_of Sample.with_short)
       = (Ret (Some bi), w')
       /\ In (EvSpatialAnalysis 1) (stdout w').
Proof.
  split; [reflexivity|]. split; [cbn; tauto|]. split; [reflexivity|].
  eexists. eexists. split; [vm_compute; reflexivity|]. cbn. tauto.
Qed.

(** C7, amended. Deriving the layout never fails: for every field list the
    format string is built, it parses, and its size is the sum of the
    widths of the fields whose tag is float, uchar, int or double; a field
    with any other tag is skipped, adding no code and no byte. *)
Theorem layout_skips_unknown_type_tags properties :
  parse_format (create_struct_format properties) = Ok (layout properties)
  /\ struct_calcsize (create_struct_format properties) = Ok (codes_size (layout properties))
  /\ layout properties
     = layout (List.filter (fun p => bool_decide (is_Some (code_of_type (fst p)))) properties)
  /\ length (layout properties)
     = length (List.filter (fun p => bool_decide (is_Some (code_of_type (fst p))))
                 properties).
Proof.
  split; [apply parse_format_create|]. split; [apply struct_calcsize_create|].
  induction properties as [|[t n] ps [IH1 IH2]]; [split; reflexivity|].
  cbn [List.filter fst]. rewrite layout_cons.
  destruct (code_of_type t) as [c|] eqn:E.
  - rewrite bool_decide_eq_true_2 by eauto. rewrite layout_cons, E. cbn [length].
    split; congruence.
  - rewrite bool_decide_eq_false_2 by (intros [? [=]]). split; assumption.
Qed.

(** C8. What the program does on a file that declares no record: with a
    sample size that is not negative, the division
    [vertex_count // actual_sample_size] is a division by zero, and the
    analysis raises it before it can report an empty sample. *)
Theorem zero_declared_count_divides_by_zero
  fuel path sample_size w data header_lines data_offset properties fmt :
  files w !! path = Some data ->
  read_header_bytes fuel data = Ret (header_lines, data_offset) ->
  parse_ply_header header_lines = Ok (0, properties, fmt) ->
  0 <= sample_size ->
  analyze_point_cloud_bounds fuel path sample_size w
  = (Exc ZeroDivisionError, printed [EvAnalyzing path] w).
Proof.
  intros Hf Hh Hp Hs. rewrite (analyze_run _ _ _ _ _ _ _ _ _ _ Hf Hh Hp), liftR_run.
  unfold draw_sample. rewrite Z.min_r by lia. reflexivity.
Qed.

Lemma zero_declared_count_divides_by_zero_witness :
  exists header_lines data_offset fmt,
    files (Sample.world_of Sample.empty_declared) !! "in.ply"%string
    = Some Sample.empty_declared
    /\ read_header_bytes 20 Sample.empty_declared = Ret (header_lines, data_offset)
    /\ parse_ply_header header_lines = Ok (0, Sample.properties, fmt)
    /\ 0 <= 10000
    /\ analyze_point_cloud_bounds 20 "in.ply" 10000 (Sample.world_of Sample.empty_declared)
       = (Exc ZeroDivisionError,
          printed [EvAnalyzing "in.ply"] (Sample.world_of Sample.empty_declared)).
Proof.
  eexists. eexists. eexists.
  assert (H1 : files (Sample.world_of Sample.empty_declared) !! "in.ply"%string
               = Some Sample.empty_declared) by reflexivity.
  split; [exact H1|]. split; [vm_compute; reflexivity|].
  split; [vm_compute; reflexivity|]. split; [lia|].
  eapply (zero_declared_count_divides_by_zero 20 "in.ply" 10000 _ _ _ _ _ _ H1);
    [vm_compute; reflexivity | vm_compute; reflexivity | lia].
Defined.

(** The part of C8 that the program honours: when the sample comes back
    empty, the analysis prints its message and returns no bounds. *)
Lemma empty_sample_is_reported
  fuel path sample_size w data header_lines data_offset N properties fmt :
  files w !! path = Some data ->
  read_header_bytes fuel data = Ret (header_lines, data_offset) ->
  parse_ply_header header_lines = Ok (N, properties, fmt) ->
  draw_sample (create_struct_format properties) (codes_size (layout properties)) data
    data_offset N sample_size = Ok [] ->
  analyze_point_cloud_bounds fuel path sample_size w
  = (Ret None, printed [EvAnalyzing path; EvNoVerticesRead] w).
Proof.
  intros Hf Hh Hp Hs. rewrite (analyze_run _ _ _ _ _ _ _ _ _ _ Hf Hh Hp), liftR_run, Hs.
  unfold summarize_sample. cbn [np_array existsb length Nat.eqb].
  rewrite print_run, printed_printed. reflexivity.
Qed.

Lemma filter_none {A : Type} (f : A -> bool) xs :
  Forall (fun x => f x = false) xs -> List.filter f xs = [].
Proof.
  induction 1 as [|x xs Hx _ IH]; [reflexivity|]. cbn [List.filter]. now rewrite Hx.
Qed.

(** C9. When the analysis has given bounds and the ranges chosen for the
    crop exclude every decoded record, the crop prints that no vertices
    remain, which is not the message of an empty sample, returns [False],
    and leaves every file, the output path included, as it was. *)
Theorem empty_crop_is_reported_and_nothing_is_written
  fuel input_path output_path x_range y_range z_range center_crop_ratio interactive
  w data header_lines data_offset N properties fmt bi w1 r w2 :
  files w !! input_path = Some data ->
  read_header_bytes fuel data = Ret (header_lines, data_offset) ->
  parse_ply_header header_lines = Ok (N, properties, fmt) ->
  analyze_point_cloud_bounds fuel input_path 10000 w = (Ret (Some bi), w1) ->
  choose_ranges bi x_range y_range z_range center_crop_ratio interactive w1 = (Ret r, w2) ->
  Forall (fun row => inside r row = false)
    (np_array (decoded_records properties N (drop data_offset data))) ->
  exists evs,
    crop_by_bounds fuel input_path output_path x_range y_range z_range center_crop_ratio
      interactive w
    = (Ret false, printed (evs ++ [EvNoVerticesRemain]) w)
    /\ ~ In EvNoVerticesRead evs
    /\ files (printed (evs ++ [EvNoVerticesRemain]) w) = files w
    /\ files (printed (evs ++ [EvNoVerticesRemain]) w) !! output_path
       = files w !! output_path.
Proof.
  intros Hf Hh Hp Han Hr Hout.
  destruct (analysis_width _ _ _ _ _ _ _ _ _ _ _ _ Hf Hh Hp Han) as (Hw & evs1 & -> & Hevs1).
  destruct (prints_choose_ranges bi x_range y_range z_range center_crop_ratio interactive
              (printed evs1 w)) as (evs2 & Hw2 & Hevs2).
  rewrite Hr in Hw2. cbn [snd] in Hw2. subst w2.
  destruct (crop_pass_run fuel input_path output_path r
              (printed [EvCroppingTo r] (printed evs2 (printed evs1 w)))
              data header_lines data_offset N properties fmt Hf Hh Hp Hw)
    as (evs3 & Hevs3 & Hrun).
  rewrite (filter_none _ _ Hout) in Hrun.
  exists (evs1 ++ evs2 ++ [EvCroppingTo r] ++ EvProcessing N :: evs3).
  split; [|split; [|split; reflexivity]].
  - unfold crop_by_bounds, bind at 1. rewrite Han. unfold bind at 1. rewrite Hr.
    rewrite print_run, Hrun, !printed_printed. f_equal. f_equal.
    rewrite <- !app_assoc. reflexivity.
  - rewrite !in_app_iff. intros [H|[H|[H|H]]].
    + now apply (proj1 (List.Forall_forall _ _) Hevs1) in H.
    + now apply (proj1 (List.Forall_forall _ _) Hevs2) in H as [? _].
    + destruct H as [H|[]]. discriminate.
    + destruct H as [H|H]; [discriminate|].
      apply (proj1 (List.Forall_forall _ _) Hevs3) in H as (? & ? & ? & [=]).
Qed.

Lemma empty_crop_is_reported_and_nothing_is_written_witness :
  exists evs,
    crop_by_bounds 20 "in.ply" "out.ply" (Some Sample.far_range) (Some Sample.unit_range)
      (Some Sample.unit_range) None false (Sample.world_of Sample.input)
    = (Ret false, printed (evs ++ [EvNoVerticesRemain]) (Sample.world_of Sample.input))
    /\ ~ In EvNoVerticesRead evs
    /\ files (printed (evs ++ [EvNoVerticesRemain]) (Sample.world_of Sample.input))
       = files (Sample.world_of Sample.input)
    /\ files (printed (evs ++ [EvNoVerticesRemain]) (Sample.world_of Sample.input))
         !! "out.ply"%string
       = files (Sample.world_of Sample.input) !! "out.ply"%string.
Proof.
  apply (empty_crop_is_reported_and_nothing_is_written 20 "in.ply" "out.ply"
           (Some Sample.far_range) (Some Sample.unit_range) (Some Sample.unit_range)
           None false (Sample.world_of Sample.input) Sample.input Sample.header_lines
           175%nat 5 Sample.properties (Some "binary_little_endian"%string)
           Sample.bounds (snd Sample.analysed) Sample.far_cube (snd Sample.analysed)).
  - reflexivity.
  - vm_compute. reflexivity.
  - vm_compute. reflexivity.
  - vm_compute. reflexivity.
  - vm_compute. reflexivity.
  - apply List.Forall_forall. intros row Hin. apply negb_true_iff. revert row Hin.
    apply List.forallb_forall. vm_compute. reflexivity.
Defined.

(** C10. The crop begins with the analysis of the input, whatever ranges
    it is given: when the analysis returns no bounds, raises, or does not
    return, the crop ends the same way in the world the analysis left, and
    that world has the files it had before, so nothing is written. *)
Theorem crop_fails_when_the_analysis_fails
  fuel input_path output_path x_range y_range z_range center_crop_ratio interactive w w1 :
  (analyze_point_cloud_bounds fuel input_path 10000 w = (Ret None, w1) ->
   crop_by_bounds fuel input_path output_path x_range y_range z_range center_crop_ratio
     interactive w = (Ret false, w1)
   /\ files w1 = files w)
  /\ (forall e,
        analyze_point_cloud_bounds fuel input_path 10000 w = (Exc e, w1) ->
        crop_by_bounds fuel input_path output_path x_range y_range z_range
          center_crop_ratio interactive w = (Exc e, w1)
        /\ files w1 = files w)
  /\ (analyze_point_cloud_bounds fuel input_path 10000 w = (Timeout, w1) ->
      crop_by_bounds fuel input_path output_path x_range y_range z_range center_crop_ratio
        interactive w = (Timeout, w1)
      /\ files w1 = files w).
Proof.
  pose proof (prints_read_only _ _ (prints_only_analyze fuel input_path 10000) w) as Hfiles.
  split; [|split]; [|intros e|]; intros Han; rewrite Han in Hfiles;
    (split; [|exact Hfiles]); unfold crop_by_bounds, bind at 1; now rewrite Han.
Qed.

Lemma crop_fails_when_the_analysis_fails_witness :
  analyze_point_cloud_bounds 20 "in.ply" 10000 (Sample.world_of Sample.empty_body)
  = (Ret None,
     printed [EvAnalyzing "in.ply"; EvNoVerticesRead] (Sample.world_of Sample.empty_body))
  /\ crop_by_bounds 20 "in.ply" "out.ply" (Some Sample.unit_range) (Some Sample.unit_range)
       (Some Sample.unit_range) None false (Sample.world_of Sample.empty_body)
     = (Ret false,
        printed [EvAnalyzing "in.ply"; EvNoVerticesRead] (Sample.world_of Sample.empty_body))
  /\ files (printed [EvAnalyzing "in.ply"; EvNoVerticesRead]
              (Sample.world_of Sample.empty_body))
     = files (Sample.world_of Sample.empty_body).
Proof.
  assert (H : analyze_point_cloud_bounds 20 "in.ply" 10000
                (Sample.world_of Sample.empty_body)
              = (Ret None,
                 printed [EvAnalyzing "in.ply"; EvNoVerticesRead]
                   (Sample.world_of Sample.empty_body)))
    by (vm_compute; reflexivity).
  split; [exact H|].
  exact (proj1 (crop_fails_when_the_analysis_fails 20 "in.ply" "out.ply"
                  (Some Sample.unit_range) (Some Sample.unit_range)
                  (Some Sample.unit_range) None false (Sample.world_of Sample.empty_body)
                  _) H).
Defined.

(** * Further properties *)

(** ** What is read and what is written *)

(** X1. The analysis reads: whatever it returns or raises, and also when it
    does not return, every file is as it was before. *)
Theorem analysis_leaves_every_file_untouched fuel filepath sample_size w :
  files (snd (analyze_point_cloud_bounds fuel filepath sample_size w)) = files w.
Proof. apply (prints_read_only _ _ (prints_only_analyze fuel filepath sample_size)). Qed.

Lemma writes_only_prints path P {A : Type} (c : M A) : prints P c -> writes_only path c.
Proof. intros H w p _. destruct (H w) as (evs & -> & _). reflexivity. Qed.

Lemma writes_only_bind path {A B : Type} (c : M A) (k : A -> M B) :
  writes_only path c -> (forall a, writes_only path (k a)) -> writes_only path (bind c k).
Proof.
  intros Hc Hk w p Hp. specialize (Hc w p Hp). unfold bind.
  destruct (c w) as [[a| |] w1]; cbn [snd] in *; [|assumption..].
  now rewrite (Hk a w1 p Hp).
Qed.

Lemma writes_only_open_write path : writes_only path (open_write path).
Proof. intros w p Hp. cbn. now rewrite lookup_insert_ne. Qed.

Lemma writes_only_f_write path bs : writes_only path (f_write path bs).
Proof. intros w p Hp. cbn. now rewrite lookup_insert_ne. Qed.

Lemma writes_only_write_text path text : writes_only path (write_text path text).
Proof.
  unfold write_text. apply writes_only_bind; [apply (writes_only_prints _ (fun _ => True)), prints_liftR|].
  intros bs. apply writes_only_f_write.
Qed.

Lemma writes_only_for_each path {A : Type} (body : A -> M unit) xs :
  (forall x, writes_only path (body x)) -> writes_only path (for_each body xs).
Proof.
  intros Hbody. induction xs as [|x xs IH]; cbn [for_each].
  - apply (writes_only_prints _ (fun _ => True)), prints_ret.
  - apply writes_only_bind; [apply Hbody | intros _; apply IH].
Qed.

Lemma writes_only_write_ply_file output_path vertices properties comments :
  writes_only output_path (write_ply_file output_path vertices properties comments).
Proof.
  unfold write_ply_file.
  repeat first
    [ apply writes_only_open_write | apply writes_only_f_write | apply writes_only_write_text
    | apply writes_only_for_each; intros ?
    | apply writes_only_bind; [|intros ?]
    | match goal with |- writes_only _ (let '(_, _) := ?x in _) => destruct x end
    | apply (writes_only_prints _ (fun _ => True)), prints_liftR ].
Qed.

Lemma writes_only_crop_pass fuel input_path output_path r :
  writes_only output_path (crop_pass fuel input_path output_path r).
Proof.
  unfold crop_pass.
  repeat first
    [ apply writes_only_write_ply_file
    | apply (writes_only_prints _ (fun _ => True)), prints_read_ply_header
    | apply (writes_only_prints _ is_progress), prints_chunk_loop
    | apply writes_only_bind; [|intros ?]
    | match goal with
      | |- writes_only _ (let '(_, _) := ?x in _) => destruct x
      | |- writes_only _ (match ?x with _ => _ end) => destruct x
      end
    | solve [apply (writes_only_prints _ (fun _ => True)); prints] ].
Qed.

(** X2. The crop writes to its output path and to nothing else: on every
    run, whether it returns, raises or does not return, any file at another
    path, the input file among them when it is not the output path, is as
    it was before. *)
Theorem crop_changes_no_file_but_the_output
  fuel input_path output_path x_range y_range z_range center_crop_ratio interactive w p :
  p <> output_path ->
  files (snd (crop_by_bounds fuel input_path output_path x_range y_range z_range
                center_crop_ratio interactive w)) !! p
  = files w !! p.
Proof.
  revert w p. change (writes_only output_path
    (crop_by_bounds fuel input_path output_path x_range y_range z_range center_crop_ratio
       interactive)).
  unfold crop_by_bounds.
  apply writes_only_bind; [apply (writes_only_prints _ _ _ (prints_only_analyze _ _ _))|].
  intros [bi|]; [|apply (writes_only_prints _ (fun _ => True)), prints_ret].
  apply writes_only_bind; [apply (writes_only_prints _ _ _ (prints_choose_ranges _ _ _ _ _ _))|].
  intros r. apply writes_only_bind; [apply (writes_only_prints _ (fun _ => True)); prints|].
  intros _. apply writes_only_crop_pass.
Qed.

Lemma crop_changes_no_file_but_the_output_witness :
  "in.ply"%string <> "out.ply"%string
  /\ files (snd (crop_by_bounds 20 "in.ply" "out.ply" (Some Sample.unit_range)
                   (Some Sample.unit_range) (Some Sample.unit_range) None false
                   (Sample.world_of Sample.input))) !! "in.ply"%string
     = files (Sample.world_of Sample.input) !! "in.ply"%string.
Proof.
  assert (H : "in.ply"%string <> "out.ply"%string) by discriminate.
  split; [exact H|].
  exact (crop_changes_no_file_but_the_output 20 "in.ply" "out.ply" (Some Sample.unit_range)
           (Some Sample.unit_range) (Some Sample.unit_range) None false
           (Sample.world_of Sample.input) "in.ply"%string H).
Defined.

(** X3. When there is no file at the input path, the analysis and the crop
    both raise [FileNotFoundError] right after the first message, and no
    file is created or changed. *)
Theorem missing_input_raises_file_not_found
  fuel input_path output_path x_range y_range z_range center_crop_ratio interactive
  sample_size w :
  files w !! input_path = None ->
  analyze_point_cloud_bounds fuel input_path sample_size w
  = (Exc FileNotFoundError, printed [EvAnalyzing input_path] w)
  /\ crop_by_bounds fuel input_path output_path x_range y_range z_range center_crop_ratio
       interactive w
     = (Exc FileNotFoundError, printed [EvAnalyzing input_path] w)
  /\ files (printed [EvAnalyzing input_path] w) = files w.
Proof.
  intros Hf.
  assert (Han : forall n, analyze_point_cloud_bounds fuel input_path n w
                          = (Exc FileNotFoundError, printed [EvAnalyzing input_path] w)).
  { intros n. unfold analyze_point_cloud_bounds. rewrite print_run.
    unfold bind at 1, read_ply_header, bind, open_read. cbn [files printed].
    now rewrite Hf. }
  split; [apply Han|]. split; [|reflexivity].
  unfold crop_by_bounds, bind at 1. now rewrite Han.
Qed.

Lemma missing_input_raises_file_not_found_witness :
  files (Sample.world_of Sample.input) !! "other.ply"%string = None
  /\ analyze_point_cloud_bounds 20 "other.ply" 10000 (Sample.world_of Sample.input)
     = (Exc FileNotFoundError, printed [EvAnalyzing "other.ply"] (Sample.world_of Sample.input))
  /\ crop_by_bounds 20 "other.ply" "out.ply" None None None None false
       (Sample.world_of Sample.input)
     = (Exc FileNotFoundError, printed [EvAnalyzing "other.ply"] (Sample.world_of Sample.input))
  /\ files (printed [EvAnalyzing "other.ply"] (Sample.world_of Sample.input))
     = files (Sample.world_of Sample.input).
Proof.
  assert (H : files (Sample.world_of Sample.input) !! "other.ply"%string = None)
    by (vm_compute; reflexivity).
  split; [exact H|].
  exact (missing_input_raises_file_not_found 20 "other.ply" "out.ply" None None None None
           false 10000 (Sample.world_of Sample.input) H).
Defined.

(** ** Reading the header *)

(** The reader on a file with a terminator line, with fuel for each line
    before it. *)
Lemma read_ply_header_returns fuel path w data pre texts t more :
  files w !! path = Some data ->
  Forall2 (fun raw s => line_text raw = Ok s /\ s <> "end_header"%string) pre texts ->
  line_text t = Ok "end_header"%string ->
  split_lines data = pre ++ t :: more ->
  (length pre <= fuel)%nat ->
  read_ply_header fuel path w
  = (Ret (texts ++ ["end_header"%string], length (concat pre ++ t)), w).
Proof.
  intros Hf Hpre Ht Hsplit Hfuel. rewrite (read_ply_header_run _ _ _ data Hf). f_equal.
  assert (Hret : read_header_bytes (length pre) data
                 = Ret (texts ++ ["end_header"%string], length (concat pre ++ t))).
  { unfold read_header_bytes.
    destruct Hpre as [|raw s pre texts [Hraw Hs] Hpre].
    - cbn [app] in Hsplit. apply readline_of_split_lines in Hsplit as [-> _].
      apply line_text_Ok in Ht as (s0 & -> & <-). now rewrite header_loop_done.
    - cbn [app] in Hsplit. apply readline_of_split_lines in Hsplit as [-> Hmore].
      apply line_text_Ok in Hraw as (s0 & -> & ->). cbn [length].
      rewrite (header_loop_returns pre texts t more _ _ _ _ Hs Hpre Ht Hmore).
      cbn [concat app]. rewrite <- !app_assoc, !length_app. reflexivity. }
  rewrite <- Hret. apply read_header_bytes_more_fuel; [|exact Hfuel].
  rewrite Hret. discriminate.
Qed.

(** X4. A file whose lines up to a terminator line are ASCII text: the reader
    returns those lines stripped, the terminator included, and the offset
    of the first byte after the terminator line; the world is unchanged.
    One unit of fuel per line before the terminator is enough, and more
    fuel gives the same result. *)
Theorem header_is_read_up_to_the_terminator fuel path w data pre texts t more :
  files w !! path = Some data ->
  Forall2 (fun raw s => line_text raw = Ok s /\ s <> "end_header"%string) pre texts ->
  line_text t = Ok "end_header"%string ->
  split_lines data = pre ++ t :: more ->
  (length pre <= fuel)%nat ->
  read_ply_header fuel path w
  = (Ret (texts ++ ["end_header"%string], length (concat pre ++ t)), w).
Proof. apply read_ply_header_returns. Qed.

Lemma header_is_read_up_to_the_terminator_witness :
  read_ply_header 20 "in.ply" (Sample.world_of Sample.input)
  = (Ret (Sample.header_lines, 175%nat), Sample.world_of Sample.input).
Proof.
  pose (lines := split_lines Sample.input).
  assert (Hf : files (Sample.world_of Sample.input) !! "in.ply"%string = Some Sample.input)
    by (vm_compute; reflexivity).
  assert (Hpre : Forall2 (fun raw s => line_text raw = Ok s /\ s <> "end_header"%string)
                   (firstn 9 lines) (firstn 9 Sample.header_lines)).
  { let l := eval vm_compute in (firstn 9 lines) in change (firstn 9 lines) with l.
    cbn [firstn Sample.header_lines].
    repeat (constructor; [split; [vm_compute; reflexivity | discriminate]|]).
    constructor. }
  assert (Ht : line_text (nth 9 lines []) = Ok "end_header"%string)
    by (vm_compute; reflexivity).
  assert (Hsplit : split_lines Sample.input = firstn 9 lines ++ nth 9 lines [] :: skipn 10 lines)
    by (vm_compute; reflexivity).
  assert (Hfuel : (length (firstn 9 lines) <= 20)%nat) by (vm_compute; lia).
  exact (header_is_read_up_to_the_terminator 20 "in.ply" (Sample.world_of Sample.input)
           Sample.input (firstn 9 lines) (firstn 9 Sample.header_lines) (nth 9 lines [])
           (skipn 10 lines) Hf Hpre Ht Hsplit Hfuel).
Defined.

Lemma header_loop_undecodable pre texts bad more rest pos line header_lines :
  line <> "end_header"%string ->
  Forall2 (fun raw s => line_text raw = Ok s /\ s <> "end_header"%string) pre texts ->
  forallb is_ascii_byte bad = false ->
  split_lines rest = pre ++ bad :: more ->
  header_loop (S (length pre)) rest pos line header_lines = Exc UnicodeDecodeError.
Proof.
  intros Hline Hpre Hbad. revert rest pos line header_lines Hline.
  induction Hpre as [|raw s pre texts [Hraw Hs] _ IH];
    intros rest pos line header_lines Hline Hsplit; cbn [length].
  - apply readline_of_split_lines in Hsplit as [Hrl _].
    apply terminator_neq in Hline. cbn [header_loop]. rewrite Hline, Hrl.
    unfold decode_ascii. now rewrite Hbad.
  - cbn [app] in Hsplit. apply readline_of_split_lines in Hsplit as [Hrl Hmore].
    apply line_text_Ok in Hraw as (s0 & Hd & ->).
    rewrite (header_loop_step _ _ _ _ _ _ _ _ Hline Hrl Hd).
    now rewrite (IH _ _ _ _ Hs Hmore).
Qed.

(** X5. A header line that holds a byte outside ASCII, before any terminator
    line: the reader raises [UnicodeDecodeError], and so do the analysis,
    after its first message, and the crop. *)
Theorem undecodable_header_line_raises
  fuel path output_path x_range y_range z_range center_crop_ratio interactive sample_size
  w data pre texts bad more :
  files w !! path = Some data ->
  Forall2 (fun raw s => line_text raw = Ok s /\ s <> "end_header"%string) pre texts ->
  forallb is_ascii_byte bad = false ->
  split_lines data = pre ++ bad :: more ->
  (length pre <= fuel)%nat ->
  read_ply_header fuel path w = (Exc UnicodeDecodeError, w)
  /\ analyze_point_cloud_bounds fuel path sample_size w
     = (Exc UnicodeDecodeError, printed [EvAnalyzing path] w)
  /\ crop_by_bounds fuel path output_path x_range y_range z_range center_crop_ratio
       interactive w
     = (Exc UnicodeDecodeError, printed [EvAnalyzing path] w).
Proof.
  intros Hf Hpre Hbad Hsplit Hfuel.
  assert (Hexc : read_header_bytes fuel data = Exc UnicodeDecodeError).
  { assert (Hmin : read_header_bytes (length pre) data = Exc UnicodeDecodeError).
    { unfold read_header_bytes.
      destruct Hpre as [|raw s pre texts [Hraw Hs] Hpre].
      - cbn [app] in Hsplit. apply readline_of_split_lines in Hsplit as [-> _].
        unfold decode_ascii. now rewrite Hbad.
      - cbn [app] in Hsplit. apply readline_of_split_lines in Hsplit as [-> Hmore].
        apply line_text_Ok in Hraw as (s0 & -> & ->). cbn [length].
        apply (header_loop_undecodable pre texts bad more); assumption. }
    rewrite <- Hmin. apply read_header_bytes_more_fuel; [|exact Hfuel].
    rewrite Hmin. discriminate. }
  assert (Hrd : forall w', files w' = files w ->
                           read_ply_header fuel path w' = (Exc UnicodeDecodeError, w')).
  { intros w' Hw'. rewrite (read_ply_header_run _ _ _ data) by now rewrite Hw'.
    now rewrite Hexc. }
  assert (Han : forall n, analyze_point_cloud_bounds fuel path n w
                          = (Exc UnicodeDecodeError, printed [EvAnalyzing path] w)).
  { intros n. unfold analyze_point_cloud_bounds. rewrite print_run.
    unfold bind at 1. now rewrite Hrd by reflexivity. }
  split; [now apply Hrd|]. split; [apply Han|].
  unfold crop_by_bounds, bind at 1. now rewrite Han.
Qed.

Lemma undecodable_header_line_raises_witness :
  read_ply_header 20 "in.ply" (Sample.world_of latin1_header)
  = (Exc UnicodeDecodeError, Sample.world_of latin1_header)
  /\ analyze_point_cloud_bounds 20 "in.ply" 10000 (Sample.world_of latin1_header)
     = (Exc UnicodeDecodeError, printed [EvAnalyzing "in.ply"] (Sample.world_of latin1_header))
  /\ crop_by_bounds 20 "in.ply" "out.ply" None None None None false
       (Sample.world_of latin1_header)
     = (Exc UnicodeDecodeError, printed [EvAnalyzing "in.ply"] (Sample.world_of latin1_header)).
Proof.
  pose (lines := split_lines latin1_header).
  assert (Hf : files (Sample.world_of latin1_header) !! "in.ply"%string = Some latin1_header)
    by (vm_compute; reflexivity).
  assert (Hpre : Forall2 (fun raw s => line_text raw = Ok s /\ s <> "end_header"%string)
                   (firstn 1 lines) ["ply"%string]).
  { let l := eval vm_compute in (firstn 1 lines) in change (firstn 1 lines) with l.
    repeat (constructor; [split; [vm_compute; reflexivity | discriminate]|]).
    constructor. }
  assert (Hbad : forallb is_ascii_byte (nth 1 lines []) = false) by (vm_compute; reflexivity).
  assert (Hsplit : split_lines latin1_header = firstn 1 lines ++ nth 1 lines [] :: skipn 2 lines)
    by (vm_compute; reflexivity).
  assert (Hfuel : (length (firstn 1 lines) <= 20)%nat) by (vm_compute; lia).
  exact (undecodable_header_line_raises 20 "in.ply" "out.ply" None None None None false 10000
           (Sample.world_of latin1_header) latin1_header (firstn 1 lines) ["ply"%string]
           (nth 1 lines []) (skipn 2 lines) Hf Hpre Hbad Hsplit Hfuel).
Defined.

(** ** Parsing the header *)

Lemma parse_header_lines_app st pre more :
  parse_header_lines st (pre ++ more)
  = rbind (parse_header_lines st pre) (fun st' => parse_header_lines st' more).
Proof.
  revert st. induction pre as [|line pre IH]; intros st; [reflexivity|].
  cbn [app parse_header_lines]. destruct (parse_header_line st line); [|reflexivity].
  cbn [rbind]. apply IH.
Qed.

Lemma keyword_prefixes_exclude line :
  (String.prefix "format" line = true ->
   String.prefix "element vertex" line = false /\ String.prefix "property" line = false)
  /\ (String.prefix "element vertex" line = true ->
      String.prefix "format" line = false /\ String.prefix "property" line = false)
  /\ (String.prefix "property" line = true ->
      String.prefix "format" line = false /\ String.prefix "element vertex" line = false).
Proof.
  destruct line as [|c s]; [repeat split; discriminate|].
  cbn [String.prefix].
  destruct (ascii_dec "f" c), (ascii_dec "e" c), (ascii_dec "p" c); subst;
    repeat split; try reflexivity; try discriminate; try congruence.
Qed.

Lemma parse_header_line_other st line :
  is_keyword_line line = false -> parse_header_line st line = Ok st.
Proof.
  unfold is_keyword_line. intros H.
  apply orb_false_elim in H as [H Hp]. apply orb_false_elim in H as [Hf He].
  unfold parse_header_line. destruct st as [[n p] f]. now rewrite Hf, He, Hp.
Qed.

(** X6. A line that starts with none of [format], [element vertex] and
    [property] is ignored: with or without it the parser gives the same
    result or the same exception. *)
Theorem other_header_lines_are_ignored pre line more :
  is_keyword_line line = false ->
  parse_ply_header (pre ++ line :: more) = parse_ply_header (pre ++ more).
Proof.
  intros H. unfold parse_ply_header. rewrite !parse_header_lines_app.
  destruct (parse_header_lines (0, [], None) pre) as [st|e]; [|reflexivity].
  cbn [rbind parse_header_lines]. now rewrite parse_header_line_other.
Qed.

Lemma other_header_lines_are_ignored_witness :
  parse_ply_header ["ply"; "format binary_little_endian 1.0"; "comment element vertex 7";
                    "element vertex 5"; "end_header"]%string
  = parse_ply_header ["ply"; "format binary_little_endian 1.0"; "element vertex 5";
                      "end_header"]%string.
Proof.
  assert (H : is_keyword_line "comment element vertex 7" = false) by (vm_compute; reflexivity).
  exact (other_header_lines_are_ignored ["ply"; "format binary_little_endian 1.0"]%string
           "comment element vertex 7" ["element vertex 5"; "end_header"]%string H).
Defined.

Lemma py_index_short {A : Type} (xs : list A) i :
  (length xs <= i)%nat -> py_index xs i = Raise IndexError.
Proof. intros H. unfold py_index. now rewrite lookup_ge_None_2. Qed.

(** X7. A keyword line with too few tokens, after lines that parse: the
    parser raises [IndexError]. A [format] line needs two tokens, an
    [element vertex] line and a [property] line three. *)
Theorem header_line_short_of_tokens_raises_index_error pre st line more :
  parse_ply_header pre = Ok st ->
  is_keyword_line line = true ->
  (length (split line) < tokens_needed line)%nat ->
  parse_ply_header (pre ++ line :: more) = Raise IndexError.
Proof.
  unfold parse_ply_header. intros Hpre Hkey Hlen.
  rewrite parse_header_lines_app, Hpre. cbn [rbind parse_header_lines].
  destruct st as [[n p] f]. unfold parse_header_line.
  unfold is_keyword_line in Hkey. unfold tokens_needed in Hlen.
  destruct (String.prefix "format" line).
  { rewrite py_index_short by lia. reflexivity. }
  destruct (String.prefix "element vertex" line).
  { rewrite py_index_short by lia. reflexivity. }
  destruct (String.prefix "property" line); [|discriminate].
  cbn zeta. rewrite (py_index_short _ 2) by lia.
  unfold py_index. destruct (split line !! 1%nat); reflexivity.
Qed.

Lemma header_line_short_of_tokens_raises_index_error_witness :
  parse_ply_header ["ply"; "format binary_little_endian 1.0"; "element vertex";
                    "property float x"; "end_header"]%string
  = Raise IndexError.
Proof.
  assert (Hpre : parse_ply_header ["ply"; "format binary_little_endian 1.0"]%string
                 = Ok (0, [], Some "binary_little_endian"%string)) by (vm_compute; reflexivity).
  assert (Hkey : is_keyword_line "element vertex" = true) by (vm_compute; reflexivity).
  assert (Hlen : (length (split "element vertex") < tokens_needed "element vertex")%nat)
    by (vm_compute; lia).
  exact (header_line_short_of_tokens_raises_index_error
           ["ply"; "format binary_little_endian 1.0"]%string _ "element vertex"
           ["property float x"; "end_header"]%string Hpre Hkey Hlen).
Defined.

(** X8. An [element vertex] line whose third token is no integer literal,
    after lines that parse: the parser raises [ValueError]. *)
Theorem vertex_count_that_is_no_integer_raises_value_error pre st line token more :
  parse_ply_header pre = Ok st ->
  String.prefix "element vertex" line = true ->
  split line !! 2%nat = Some token ->
  int_of_str token = Raise ValueError ->
  parse_ply_header (pre ++ line :: more) = Raise ValueError.
Proof.
  unfold parse_ply_header. intros Hpre Hkey Htok Hint.
  rewrite parse_header_lines_app, Hpre. cbn [rbind parse_header_lines].
  destruct st as [[n p] f]. unfold parse_header_line.
  destruct (keyword_prefixes_exclude line) as (_ & H & _). destruct (H Hkey) as [-> _].
  rewrite Hkey. unfold py_index. rewrite Htok. cbn [rbind]. now rewrite Hint.
Qed.

Lemma vertex_count_that_is_no_integer_raises_value_error_witness :
  parse_ply_header ["ply"; "format binary_little_endian 1.0"; "element vertex 5.0";
                    "property float x"; "end_header"]%string
  = Raise ValueError.
Proof.
  assert (Hpre : parse_ply_header ["ply"; "format binary_little_endian 1.0"]%string
                 = Ok (0, [], Some "binary_little_endian"%string)) by (vm_compute; reflexivity).
  assert (Hkey : String.prefix "element vertex" "element vertex 5.0" = true)
    by (vm_compute; reflexivity).
  assert (Htok : split "element vertex 5.0" !! 2%nat = Some "5.0"%string)
    by (vm_compute; reflexivity).
  assert (Hint : int_of_str "5.0" = Raise ValueError) by (vm_compute; reflexivity).
  exact (vertex_count_that_is_no_integer_raises_value_error
           ["ply"; "format binary_little_endian 1.0"]%string _ "element vertex 5.0" "5.0"
           ["property float x"; "end_header"]%string Hpre Hkey Htok Hint).
Defined.

Lemma parse_header_lines_properties st lines n props fmt :
  parse_header_lines st lines = Ok (n, props, fmt) ->
  props = snd (fst st) ++ omap property_of_line lines.
Proof.
  revert st. induction lines as [|line lines IH]; intros st H.
  - cbn in H. injection H as ->. cbn. now rewrite app_nil_r.
  - cbn [parse_header_lines] in H.
    destruct (parse_header_line st line) as [st'|] eqn:Hline; [|discriminate].
    cbn [rbind] in H. apply IH in H. subst props. cbn [omap list_omap].
    destruct st as [[n0 p0] f0]. unfold parse_header_line in Hline.
    unfold property_of_line. destruct (keyword_prefixes_exclude line) as (Hf & He & _).
    destruct (String.prefix "format" line).
    { destruct (Hf eq_refl) as [_ ->].
      destruct (py_index (split line) 1); [|discriminate]. now injection Hline as <-. }
    destruct (String.prefix "element vertex" line).
    { destruct (He eq_refl) as [_ ->].
      destruct (py_index (split line) 2) as [tok|]; [|discriminate]. cbn [rbind] in Hline.
      destruct (int_of_str tok); [|discriminate]. now injection Hline as <-. }
    destruct (String.prefix "property" line); [|now injection Hline as <-].
    cbn zeta in Hline. unfold py_index in Hline.
    destruct (split line) as [|t0 [|t1 [|t2 ts]]]; try discriminate.
    cbn in Hline. injection Hline as <-. cbn [fst snd]. now rewrite <- app_assoc.
Qed.

(** X9. The fields the parser returns are those of every [property] line of
    the header, in order, whichever element the line belongs to: the
    fields of a face element that follows the vertex element are appended
    to the vertex fields. *)
Theorem every_property_line_is_taken_as_a_vertex_field header_lines n props fmt :
  parse_ply_header header_lines = Ok (n, props, fmt) ->
  props = omap property_of_line header_lines.
Proof. intros H. now apply parse_header_lines_properties in H. Qed.

Lemma every_property_line_is_taken_as_a_vertex_field_witness :
  parse_ply_header header_with_faces
  = Ok (1, [("float", "x"); ("list", "uchar")], Some "ascii")%string
  /\ [("float", "x"); ("list", "uchar")]%string = omap property_of_line header_with_faces.
Proof.
  assert (H : parse_ply_header header_with_faces
              = Ok (1, [("float", "x"); ("list", "uchar")], Some "ascii")%string)
    by (vm_compute; reflexivity).
  split; [exact H|].
  exact (every_property_line_is_taken_as_a_vertex_field header_with_faces _ _ _ H).
Defined.

(** ** Field lists the program cannot handle *)

(** What a crop that returns [True] went through. *)
Lemma crop_returns_true_inv
  fuel input_path output_path x_range y_range z_range center_crop_ratio interactive w w' :
  crop_by_bounds fuel input_path output_path x_range y_range z_range center_crop_ratio
    interactive w = (Ret true, w') ->
  exists data header_lines data_offset N properties fmt r chunks,
    files w !! input_path = Some data
    /\ read_header_bytes fuel data = Ret (header_lines, data_offset)
    /\ parse_ply_header header_lines = Ok (N, properties, fmt)
    /\ (3 <= length (layout properties))%nat
    /\ let retained :=
         List.filter (inside r)
           (np_array (decoded_records properties N (drop data_offset data))) in
       retained <> []
       /\ rmapM (encode_vertex properties) retained = Ok chunks
       /\ files w'
          = <[output_path :=
                list_byte_of_string
                  (header_text (length retained) properties
                     (crop_comments input_path r N (length retained)))
                ++ concat chunks]> (files w).
Proof.
  unfold crop_by_bounds. intros (bounds & w1 & Han & H)%bind_Ret.
  destruct bounds as [bi|]; [|discriminate].
  apply bind_Ret in H as (r & w2 & Hr & H). rewrite print_run in H.
  destruct (analyze_returns_inv _ _ _ _ _ _ Han)
    as (data & header_lines & data_offset & N & properties & fmt & Hf & Hh & Hp).
  destruct (analysis_width _ _ _ _ _ _ _ _ _ _ _ _ Hf Hh Hp Han) as (Hw & evs1 & -> & _).
  destruct (prints_choose_ranges bi x_range y_range z_range center_crop_ratio interactive
              (printed evs1 w)) as (evs2 & Hw2 & _).
  rewrite Hr in Hw2. cbn [snd] in Hw2. subst w2. rewrite !printed_printed in H.
  cbv beta in H.
  match type of H with
  | crop_pass _ _ _ _ ?w3 = _ =>
      destruct (crop_pass_run fuel input_path output_path r w3 data header_lines
                  data_offset N properties fmt Hf Hh Hp Hw) as (evs3 & _ & Hrun)
  end.
  rewrite Hrun in H. clear Hrun.
  exists data, header_lines, data_offset, N, properties, fmt, r.
  destruct (List.filter (inside r) _) as [|row rows]; [discriminate|].
  apply bind_Ret in H as (u & w3 & Hwrite & H).
  apply write_ply_file_Ret in Hwrite as (chunks & Hchunks & ->).
  rewrite print_run in H. unfold ret in H. injection H as <-.
  exists chunks. repeat (split; [assumption|]). cbv zeta.
  split; [discriminate|]. split; [assumption | reflexivity].
Qed.

Lemma convert_vertex_Ok i properties vertex conv :
  convert_vertex i properties vertex = Ok conv ->
  properties = [] \/ (i + length properties <= length vertex)%nat.
Proof.
  revert i conv. induction properties as [|[t n] ps IH]; intros i conv H; [now left|].
  right. cbn [convert_vertex] in H.
  apply rbind_Ok in H as (v & Hv%py_index_Ok & H).
  apply rbind_Ok in H as (c & _ & H). apply rbind_Ok in H as (cs & Hcs & _).
  apply IH in Hcs as [-> | Hcs]; cbn [length]; lia.
Qed.

Lemma layout_all_supported properties :
  (length (layout properties) <= length properties)%nat
  /\ (length (layout properties) = length properties ->
      Forall (fun p => code_of_type (fst p) <> None) properties).
Proof.
  induction properties as [|[t n] ps [IHle IHeq]]; [split; [reflexivity | constructor]|].
  rewrite layout_cons. destruct (code_of_type t) eqn:Ht; cbn [length]; split; try lia.
  intros Heq. constructor; [cbn [fst]; congruence | apply IHeq; lia].
Qed.

(** X10. A crop that returns [True] has read a header in which every field is
    of a supported type: with a field of another type in the header the
    crop never succeeds. *)
Theorem successful_crop_means_every_field_is_supported
  fuel input_path output_path x_range y_range z_range center_crop_ratio interactive w w' :
  crop_by_bounds fuel input_path output_path x_range y_range z_range center_crop_ratio
    interactive w = (Ret true, w') ->
  exists data header_lines data_offset N properties fmt,
    files w !! input_path = Some data
    /\ read_header_bytes fuel data = Ret (header_lines, data_offset)
    /\ parse_ply_header header_lines = Ok (N, properties, fmt)
    /\ Forall (fun p => code_of_type (fst p) <> None) properties.
Proof.
  intros H. apply crop_returns_true_inv in H
    as (data & header_lines & data_offset & N & properties & fmt & r & chunks
        & Hf & Hh & Hp & _ & Hne & Henc & _).
  exists data, header_lines, data_offset, N, properties, fmt.
  repeat (split; [assumption|]).
  destruct (List.filter (inside r) _) as [|row rows] eqn:Hret; [contradiction|].
  assert (Hin : row ∈ np_array (decoded_records properties N (drop data_offset data))).
  { apply list_elem_of_In. apply (List.filter_In (inside r)). rewrite Hret. now left. }
  unfold decoded_records in Hin. apply np_array_decoded_width in Hin.
  cbn [rmapM] in Henc. apply rbind_Ok in Henc as (bs & Hbs & _).
  unfold encode_vertex in Hbs. apply rbind_Ok in Hbs as (conv & Hconv & _).
  apply layout_all_supported.
  apply convert_vertex_Ok in Hconv as [-> | Hconv]; [reflexivity|].
  pose proof (proj1 (layout_all_supported properties)). lia.
Qed.

Lemma successful_crop_means_every_field_is_supported_witness :
  let run :=
    crop_by_bounds 20 "in.ply" "out.ply" (Some Sample.unit_range) (Some Sample.unit_range)
      (Some Sample.unit_range) None false (Sample.world_of Sample.input) in
  run = (Ret true, snd run)
  /\ exists data header_lines data_offset N properties fmt,
       files (Sample.world_of Sample.input) !! "in.ply"%string = Some data
       /\ read_header_bytes 20 data = Ret (header_lines, data_offset)
       /\ parse_ply_header header_lines = Ok (N, properties, fmt)
       /\ Forall (fun p => code_of_type (fst p) <> None) properties.
Proof.
  intros run.
  assert (Hfst : fst run = Ret true) by (vm_compute; reflexivity).
  assert (H : run = (Ret true, snd run)).
  { rewrite <- Hfst. apply surjective_pairing. }
  split; [exact H|].
  exact (successful_crop_means_every_field_is_supported 20 "in.ply" "out.ply"
           (Some Sample.unit_range) (Some Sample.unit_range) (Some Sample.unit_range) None
           false (Sample.world_of Sample.input) (snd run) H).
Defined.

Lemma summarize_narrow_sample sampled cs recs N properties w :
  sampled = map (unpack_codes cs) recs ->
  sampled <> [] ->
  (length cs < 3)%nat ->
  fst (summarize_sample sampled N properties w) = Exc IndexError.
Proof.
  intros Hs Hne Hcs. unfold summarize_sample.
  assert (Hlen : length (np_array sampled) = length sampled).
  { unfold np_array. destruct (existsb _ _); [apply length_map | reflexivity]. }
  destruct (np_array sampled) as [|row rows] eqn:Hrows.
  { destruct sampled; [contradiction | discriminate]. }
  cbn [length Nat.eqb].
  assert (Hxyz : (length (first_three_columns (row :: rows)) < 3)%nat).
  { pose proof (first_three_columns_length (row :: rows) row ltac:(left)) as Hle.
    assert (Hrow : length row = length cs).
    { apply (np_array_decoded_width cs recs). rewrite <- Hs, Hrows. left. }
    lia. }
  destruct (first_three_columns (row :: rows)) as [|c0 [|c1 [|c2 more]]];
    cbn [length] in Hxyz; try lia;
    cbn [map zip_with]; rewrite print_run;
    repeat (rewrite print_axis_range_run; cbn [py_index lookup list_lookup]);
    reflexivity.
Qed.

(** X11. Fewer than three fields of a supported type, and a sample that is not
    empty: the analysis raises [IndexError] when it prints the range of
    an axis the sample does not have, and so does the crop, which starts
    with the analysis. *)
Theorem fewer_than_three_supported_fields_raise_index_error
  fuel path output_path x_range y_range z_range center_crop_ratio interactive sample_size
  w data header_lines data_offset N properties fmt sampled :
  files w !! path = Some data ->
  read_header_bytes fuel data = Ret (header_lines, data_offset) ->
  parse_ply_header header_lines = Ok (N, properties, fmt) ->
  (length (layout properties) < 3)%nat ->
  draw_sample (create_struct_format properties) (codes_size (layout properties)) data
    data_offset N sample_size = Ok sampled ->
  sampled <> [] ->
  fst (analyze_point_cloud_bounds fuel path sample_size w) = Exc IndexError
  /\ (sample_size = 10000 ->
      fst (crop_by_bounds fuel path output_path x_range y_range z_range center_crop_ratio
             interactive w) = Exc IndexError).
Proof.
  intros Hf Hh Hp Hw Hs Hne.
  assert (Han : fst (analyze_point_cloud_bounds fuel path sample_size w) = Exc IndexError).
  { rewrite (analyze_run _ _ _ _ _ _ _ _ _ _ Hf Hh Hp), liftR_run, Hs.
    destruct (draw_sample_rows _ _ _ _ _ _ _ _ (parse_format_create properties) eq_refl Hs)
      as (recs & Hrecs).
    now apply (summarize_narrow_sample sampled (layout properties) recs). }
  split; [exact Han|]. intros ->. unfold crop_by_bounds, bind at 1.
  destruct (analyze_point_cloud_bounds fuel path 10000 w) as [[ob| |] w1];
    cbn [fst] in Han; try discriminate. now injection Han as ->.
Qed.

Lemma fewer_than_three_supported_fields_raise_index_error_witness :
  fst (analyze_point_cloud_bounds 20 "in.ply" 10000 (Sample.world_of flat_input))
  = Exc IndexError
  /\ (10000 = 10000 ->
      fst (crop_by_bounds 20 "in.ply" "out.ply" None None None None false
             (Sample.world_of flat_input)) = Exc IndexError).
Proof.
  assert (Hf : files (Sample.world_of flat_input) !! "in.ply"%string = Some flat_input)
    by (vm_compute; reflexivity).
  assert (Hh : read_header_bytes 20 flat_input
               = Ret (["ply"; "format binary_little_endian 1.0"; "element vertex 1";
                       "property float x"; "property float y"; "end_header"]%string, 98%nat))
    by (vm_compute; reflexivity).
  assert (Hp : parse_ply_header
                 ["ply"; "format binary_little_endian 1.0"; "element vertex 1";
                  "property float x"; "property float y"; "end_header"]%string
               = Ok (1, two_fields, Some "binary_little_endian"%string))
    by (vm_compute; reflexivity).
  assert (Hw : (length (layout two_fields) < 3)%nat) by (vm_compute; lia).
  assert (Hs : draw_sample (create_struct_format two_fields) (codes_size (layout two_fields))
                 flat_input 98 1 10000
               = Ok [[PFloat (IEEE.of_Z 1); PFloat (IEEE.of_Z 1)]])
    by (vm_compute; reflexivity).
  assert (Hne : [[PFloat (IEEE.of_Z 1); PFloat (IEEE.of_Z 1)]] <> []) by discriminate.
  exact (fewer_than_three_supported_fields_raise_index_error 20 "in.ply" "out.ply" None None
           None None false 10000 (Sample.world_of flat_input) flat_input _ 98%nat 1
           two_fields _ _ Hf Hh Hp Hw Hs Hne).
Defined.

(** ** A negative declared count *)

Lemma draw_sample_negative properties data data_offset N sample_size :
  N < 0 ->
  draw_sample (create_struct_format properties) (codes_size (layout properties)) data
    data_offset N sample_size = Ok [].
Proof.
  intros HN. unfold draw_sample, floordiv.
  destruct (Z.min sample_size N =? 0) eqn:E; [lia|]. cbn [rbind].
  set (step := Z.max 1 (N / Z.min sample_size N)).
  assert (Hstep : 1 <= step) by (subst step; lia).
  assert (Hlen : range_length N step = 0%nat).
  { unfold range_length.
    assert ((N + step - 1) / step <= 0); [|lia].
    assert ((N + step - 1) / step < 1); [|lia].
    apply Z.div_lt_upper_bound; lia. }
  rewrite Hlen. reflexivity.
Qed.

(** X12. A header that declares a negative number of records: the range of
    sample indices is empty, so the analysis reports that no vertices
    were read and returns no bounds, and the crop returns [False]; either
    way every file is as it was. *)
Theorem negative_declared_count_is_reported_as_no_vertices
  fuel path output_path x_range y_range z_range center_crop_ratio interactive sample_size
  w data header_lines data_offset N properties fmt :
  files w !! path = Some data ->
  read_header_bytes fuel data = Ret (header_lines, data_offset) ->
  parse_ply_header header_lines = Ok (N, properties, fmt) ->
  N < 0 ->
  analyze_point_cloud_bounds fuel path sample_size w
  = (Ret None, printed [EvAnalyzing path; EvNoVerticesRead] w)
  /\ crop_by_bounds fuel path output_path x_range y_range z_range center_crop_ratio
       interactive w
     = (Ret false, printed [EvAnalyzing path; EvNoVerticesRead] w).
Proof.
  intros Hf Hh Hp HN.
  assert (Han : forall n, analyze_point_cloud_bounds fuel path n w
                          = (Ret None, printed [EvAnalyzing path; EvNoVerticesRead] w)).
  { intros n. apply (empty_sample_is_reported _ _ _ _ _ _ _ _ _ _ Hf Hh Hp).
    now apply draw_sample_negative. }
  split; [apply Han|]. unfold crop_by_bounds, bind at 1. now rewrite Han.
Qed.

Lemma negative_declared_count_is_reported_as_no_vertices_witness :
  analyze_point_cloud_bounds 20 "in.ply" 10000 (Sample.world_of negative_declared)
  = (Ret None, printed [EvAnalyzing "in.ply"; EvNoVerticesRead]
                 (Sample.world_of negative_declared))
  /\ crop_by_bounds 20 "in.ply" "out.ply" None None None None false
       (Sample.world_of negative_declared)
     = (Ret false, printed [EvAnalyzing "in.ply"; EvNoVerticesRead]
                     (Sample.world_of negative_declared)).
Proof.
  assert (Hf : files (Sample.world_of negative_declared) !! "in.ply"%string
               = Some negative_declared) by (vm_compute; reflexivity).
  assert (Hh : read_header_bytes 20 negative_declared
               = Ret (["ply"; "format binary_little_endian 1.0"; "element vertex -5";
                       "property float x"; "property float y"; "property float z";
                       "end_header"]%string, 116%nat))
    by (vm_compute; reflexivity).
  assert (Hp : parse_ply_header
                 ["ply"; "format binary_little_endian 1.0"; "element vertex -5";
                  "property float x"; "property float y"; "property float z";
                  "end_header"]%string
               = Ok (-5, [("float", "x"); ("float", "y"); ("float", "z")]%string,
                     Some "binary_little_endian"%string))
    by (vm_compute; reflexivity).
  assert (HN : -5 < 0) by lia.
  exact (negative_declared_count_is_reported_as_no_vertices 20 "in.ply" "out.ply" None None
           None None false 10000 (Sample.world_of negative_declared) negative_declared _
           116%nat (-5) _ _ Hf Hh Hp HN).
Defined.

(** ** The order of the comparisons *)

(** The comparison as an integer rank on pairs of exponent and
    significand. *)
Lemma SFcompare_finite s1 m1 e1 s2 m2 e2 :
  SFcompare (S754_finite s1 m1 e1) (S754_finite s2 m2 e2)
  = Some match s1, s2 with
         | true, false => Lt
         | false, true => Gt
         | false, false =>
             match e1 ?= e2 with Lt => Lt | Gt => Gt | Eq => (m1 ?= m2)%positive end
         | true, true =>
             match e1 ?= e2 with Lt => Gt | Gt => Lt | Eq => CompOpp (m1 ?= m2)%positive end
         end.
Proof. reflexivity. Qed.

Ltac order_cases :=
  repeat match goal with
         | H : context [(?a ?= ?b)%Z] |- _ => destruct (Z.compare_spec a b)
         | |- context [(?a ?= ?b)%Z] => destruct (Z.compare_spec a b)
         | H : context [(?a ?= ?b)%positive] |- _ => destruct (Pos.compare_spec a b)
         | |- context [(?a ?= ?b)%positive] => destruct (Pos.compare_spec a b)
         end;
  cbn in *; try reflexivity; try discriminate; try lia.

Lemma SFleb_trans x y z : SFleb x y = true -> SFleb y z = true -> SFleb x z = true.
Proof.
  unfold SFleb.
  destruct x as [sx|sx| |sx mx ex], y as [sy|sy| |sy my ey], z as [sz|sz| |sz mz ez];
    rewrite ?SFcompare_finite;
    try (cbn; repeat match goal with s : bool |- _ => destruct s end; cbn; congruence).
  destruct sx, sy, sz; intros Hxy Hyz; try discriminate; try reflexivity; order_cases.
Qed.

Lemma SFleb_total x y :
  IEEE.is_nan x = false -> IEEE.is_nan y = false -> SFltb x y = false -> SFleb y x = true.
Proof.
  unfold SFleb, SFltb.
  destruct x as [sx|sx| |sx mx ex], y as [sy|sy| |sy my ey];
    rewrite ?SFcompare_finite;
    try (cbn; repeat match goal with s : bool |- _ => destruct s end; cbn; congruence).
  destruct sx, sy; intros _ _ H; try discriminate; try reflexivity; order_cases.
Qed.

Lemma SFltb_SFleb x y : SFltb x y = true -> SFleb x y = true.
Proof. unfold SFleb, SFltb. destruct (SFcompare x y) as [[| |]|]; congruence. Qed.

Lemma SFleb_refl x : IEEE.is_nan x = false -> SFleb x x = true.
Proof.
  unfold SFleb. destruct x as [s|s| |s m e]; rewrite ?SFcompare_finite;
    try (cbn; try destruct s; congruence).
  intros _. destruct s; rewrite Z.compare_refl, Pos.compare_refl; reflexivity.
Qed.

Lemma SFleb_not_nan x y : SFleb x y = true -> IEEE.is_nan x = false /\ IEEE.is_nan y = false.
Proof.
  unfold SFleb. destruct x as [s|s| |s m e], y as [s'|s'| |s' m' e']; cbn; try discriminate;
    intros _; split; reflexivity.
Qed.

(** ** The bounds of the sample *)

Lemma fold_minimum_spec xs x :
  IEEE.is_nan x = false ->
  Forall (fun v => IEEE.is_nan v = false) xs ->
  let m := fold_left np_minimum xs x in
  IEEE.is_nan m = false /\ SFleb m x = true /\ Forall (fun v => SFleb m v = true) xs.
Proof.
  revert x. induction xs as [|y ys IH]; intros x Hx Hxs; cbn [fold_left].
  - split; [assumption|]. split; [now apply SFleb_refl | constructor].
  - inversion Hxs as [|? ? Hy Hys]; subst. cbv zeta.
    assert (E : np_minimum x y = if SFltb x y then x else y).
    { unfold np_minimum. now rewrite Hx, orb_false_r. }
    rewrite E. destruct (SFltb x y) eqn:Hlt.
    + destruct (IH x Hx Hys) as (Hm & Hmx & Hall). repeat split; try assumption.
      constructor; [|assumption].
      apply (SFleb_trans _ x); [exact Hmx | now apply SFltb_SFleb].
    + destruct (IH y Hy Hys) as (Hm & Hmy & Hall). repeat split; try assumption.
      * apply (SFleb_trans _ y); [exact Hmy | now apply SFleb_total].
      * now constructor.
Qed.

Lemma fold_maximum_spec xs x :
  IEEE.is_nan x = false ->
  Forall (fun v => IEEE.is_nan v = false) xs ->
  let m := fold_left np_maximum xs x in
  IEEE.is_nan m = false /\ SFleb x m = true /\ Forall (fun v => SFleb v m = true) xs.
Proof.
  revert x. induction xs as [|y ys IH]; intros x Hx Hxs; cbn [fold_left].
  - split; [assumption|]. split; [now apply SFleb_refl | constructor].
  - inversion Hxs as [|? ? Hy Hys]; subst. cbv zeta.
    assert (E : np_maximum x y = if SFltb y x then x else y).
    { unfold np_maximum. now rewrite Hx, orb_false_r. }
    rewrite E. destruct (SFltb y x) eqn:Hlt.
    + destruct (IH x Hx Hys) as (Hm & Hmx & Hall). repeat split; try assumption.
      constructor; [|assumption].
      apply (SFleb_trans _ x); [now apply SFltb_SFleb | exact Hmx].
    + destruct (IH y Hy Hys) as (Hm & Hmy & Hall). repeat split; try assumption.
      * apply (SFleb_trans _ y); [now apply SFleb_total | exact Hmy].
      * now constructor.
Qed.

Lemma reduce_encloses col :
  Forall (fun v => IEEE.is_nan v = false) col ->
  Forall (fun v => SFleb (np_reduce np_minimum col) v = true
                   /\ SFleb v (np_reduce np_maximum col) = true) col.
Proof.
  destruct col as [|x xs]; [constructor|]. intros H. inversion H as [|? ? Hx Hxs]; subst.
  cbn [np_reduce].
  destruct (fold_minimum_spec xs x Hx Hxs) as (_ & Hmin & Hmins).
  destruct (fold_maximum_spec xs x Hx Hxs) as (_ & Hmax & Hmaxs).
  constructor; [now split|].
  apply Forall_and. split; assumption.
Qed.

(** The bounds the summary returns are the reductions of the first three
    columns of the sample. *)
Lemma summarize_sample_bounds sampled N properties w bi w1 :
  summarize_sample sampled N properties w = (Ret (Some bi), w1) ->
  min_bounds bi = map (np_reduce np_minimum) (first_three_columns (np_array sampled))
  /\ max_bounds bi = map (np_reduce np_maximum) (first_three_columns (np_array sampled)).
Proof.
  unfold summarize_sample.
  destruct (np_array sampled) as [|row rows] eqn:Erows; [discriminate|].
  cbn [length Nat.eqb]. rewrite <- Erows.
  set (xyz := first_three_columns (np_array sampled)).
  rewrite print_run.
  repeat first
    [ rewrite print_axis_range_run | rewrite liftR_run | rewrite print_run
    | match goal with
      | |- context [match py_index ?l ?i with _ => _ end] =>
          destruct (py_index l i) eqn:?; [|discriminate]
      end ].
  unfold ret. intros [= <- _]. split; reflexivity.
Qed.

Lemma first_three_columns_lookup rows k col :
  (3 <= length (first_three_columns rows))%nat ->
  (k < 3)%nat ->
  column k rows = Some col ->
  first_three_columns rows !! k = Some col.
Proof.
  unfold first_three_columns. cbn [omap list_omap]. intros Hlen Hk Hcol.
  destruct (column 0 rows) as [c0|] eqn:E0, (column 1 rows) as [c1|] eqn:E1,
    (column 2 rows) as [c2|] eqn:E2; cbn [length] in Hlen; try lia.
  destruct k as [|[|[|k]]]; try lia; cbn; congruence.
Qed.

(** X13. When the analysis returns bounds, every value of a coordinate column
    of the sample that holds no NaN lies between the minimum and the
    maximum returned for that axis. *)
Theorem bounds_enclose_the_sample
  fuel path sample_size w data header_lines data_offset N properties fmt sampled bi w1 k col :
  files w !! path = Some data ->
  read_header_bytes fuel data = Ret (header_lines, data_offset) ->
  parse_ply_header header_lines = Ok (N, properties, fmt) ->
  draw_sample (create_struct_format properties) (codes_size (layout properties)) data
    data_offset N sample_size = Ok sampled ->
  analyze_point_cloud_bounds fuel path sample_size w = (Ret (Some bi), w1) ->
  (k < 3)%nat ->
  column k (np_array sampled) = Some col ->
  Forall (fun v => IEEE.is_nan v = false) col ->
  exists lo hi,
    min_bounds bi !! k = Some lo /\ max_bounds bi !! k = Some hi
    /\ Forall (fun v => SFleb lo v = true /\ SFleb v hi = true) col.
Proof.
  intros Hf Hh Hp Hs Han Hk Hcol Hnan.
  rewrite (analyze_run _ _ _ _ _ _ _ _ _ _ Hf Hh Hp), liftR_run, Hs in Han.
  destruct (summarize_sample_Some _ _ _ _ _ _ Han) as (_ & Hlen & _).
  destruct (summarize_sample_bounds _ _ _ _ _ _ Han) as [-> ->].
  pose proof (first_three_columns_lookup _ _ _ Hlen Hk Hcol) as Hlook.
  exists (np_reduce np_minimum col), (np_reduce np_maximum col).
  rewrite !list_lookup_fmap, Hlook. repeat split. now apply reduce_encloses.
Qed.

Lemma bounds_enclose_the_sample_witness :
  exists lo hi,
    min_bounds Sample.bounds !! 0%nat = Some lo /\ max_bounds Sample.bounds !! 0%nat = Some hi
    /\ Forall (fun v => SFleb lo v = true /\ SFleb v hi = true) x_column.
Proof.
  assert (Hf : files (Sample.world_of Sample.input) !! "in.ply"%string = Some Sample.input)
    by (vm_compute; reflexivity).
  assert (Hh : read_header_bytes 20 Sample.input = Ret (Sample.header_lines, 175%nat))
    by (vm_compute; reflexivity).
  assert (Hp : parse_ply_header Sample.header_lines
               = Ok (5, Sample.properties, Some "binary_little_endian"%string))
    by (vm_compute; reflexivity).
  assert (Hs : draw_sample (create_struct_format Sample.properties)
                 (codes_size (layout Sample.properties)) Sample.input 175 5 10000
               = Ok sampled_rows) by (vm_compute; reflexivity).
  assert (Han : analyze_point_cloud_bounds 20 "in.ply" 10000 (Sample.world_of Sample.input)
                = (Ret (Some Sample.bounds), snd Sample.analysed))
    by (vm_compute; reflexivity).
  assert (Hk : (0 < 3)%nat) by lia.
  assert (Hcol : column 0 (np_array sampled_rows) = Some x_column)
    by (vm_compute; reflexivity).
  assert (Hnan : Forall (fun v => IEEE.is_nan v = false) x_column).
  { apply List.Forall_forall. intros v Hv. apply negb_true_iff. revert v Hv.
    apply List.forallb_forall. vm_compute. reflexivity. }
  exact (bounds_enclose_the_sample 20 "in.ply" 10000 (Sample.world_of Sample.input)
           Sample.input Sample.header_lines 175%nat 5 Sample.properties _ sampled_rows
           Sample.bounds (snd Sample.analysed) 0%nat x_column Hf Hh Hp Hs Han Hk Hcol Hnan).
Defined.

(** ** Ranges that hold nothing *)

Lemma inside_needs_room r row :
  inside r row = true ->
  SFleb (fst (fst (fst r))) (snd (fst (fst r))) = true
  /\ SFleb (fst (snd (fst r))) (snd (snd (fst r))) = true
  /\ SFleb (fst (snd r)) (snd (snd r)) = true.
Proof.
  intros H. assert (Hlen : (3 <= length row)%nat).
  { unfold inside, in_range in H. destruct r as [[xr yr] zr].
    destruct (py_index row 0) eqn:E0; [|discriminate].
    destruct (py_index row 1) eqn:E1; [|discriminate].
    destruct (py_index row 2) eqn:E2; [|discriminate].
    now apply py_index_Ok in E2. }
  destruct row as [|x [|y [|z others]]]; cbn [length] in Hlen; try lia.
  apply inside_iff in H as (H1 & H2 & H3 & H4 & H5 & H6).
  repeat split; eapply SFleb_trans; eassumption.
Qed.

(** A crop whose ranges hold none of the decoded records. *)
Lemma crop_with_nothing_inside
  fuel input_path output_path x_range y_range z_range center_crop_ratio interactive
  w data header_lines data_offset N properties fmt bi w1 r w2 :
  files w !! input_path = Some data ->
  read_header_bytes fuel data = Ret (header_lines, data_offset) ->
  parse_ply_header header_lines = Ok (N, properties, fmt) ->
  analyze_point_cloud_bounds fuel input_path 10000 w = (Ret (Some bi), w1) ->
  choose_ranges bi x_range y_range z_range center_crop_ratio interactive w1 = (Ret r, w2) ->
  Forall (fun row => inside r row = false)
    (np_array (decoded_records properties N (drop data_offset data))) ->
  exists evs,
    crop_by_bounds fuel input_path output_path x_range y_range z_range center_crop_ratio
      interactive w
    = (Ret false, printed (evs ++ [EvNoVerticesRemain]) w).
Proof.
  intros Hf Hh Hp Han Hr Hout.
  destruct (analysis_width _ _ _ _ _ _ _ _ _ _ _ _ Hf Hh Hp Han) as (Hw & evs1 & -> & Hevs1).
  destruct (prints_choose_ranges bi x_range y_range z_range center_crop_ratio interactive
              (printed evs1 w)) as (evs2 & Hw2 & Hevs2).
  rewrite Hr in Hw2. cbn [snd] in Hw2. subst w2.
  destruct (crop_pass_run fuel input_path output_path r
              (printed [EvCroppingTo r] (printed evs2 (printed evs1 w)))
              data header_lines data_offset N properties fmt Hf Hh Hp Hw)
    as (evs3 & Hevs3 & Hrun).
  rewrite (filter_none _ _ Hout) in Hrun.
  exists (evs1 ++ evs2 ++ [EvCroppingTo r] ++ EvProcessing N :: evs3).
  unfold crop_by_bounds, bind at 1. rewrite Han. unfold bind at 1. rewrite Hr.
  rewrite print_run, Hrun, !printed_printed. f_equal. f_equal.
  rewrite <- !app_assoc. reflexivity.
Qed.

(** The ranges chosen are those given, on every axis for which a range
    was given, when neither the centre crop nor the suggestion is asked
    for. *)
Lemma choose_ranges_given bi x_range y_range z_range w1 r w2 :
  choose_ranges bi x_range y_range z_range None false w1 = (Ret r, w2) ->
  (forall rg, x_range = Some rg -> fst (fst r) = rg)
  /\ (forall rg, y_range = Some rg -> snd (fst r) = rg)
  /\ (forall rg, z_range = Some rg -> snd r = rg).
Proof.
  unfold choose_ranges.
  intros (xr & wx & Hx & (yr & wy & Hy & (zr & wz & Hz & [= <- _])%bind_Ret)%bind_Ret)%bind_Ret.
  cbn [fst snd]. repeat split; intros rg ->.
  - now injection Hx as ->.
  - now injection Hy as ->.
  - now injection Hz as ->.
Qed.

(** X14. A range given on the command line whose lower end is not below or
    equal to its upper end, because the ends are the wrong way round or
    one of them is NaN, holds no record: when the analysis has given
    bounds, the crop prints that no vertices remain and returns [False],
    and every file is as it was. *)
Theorem range_without_room_crops_to_nothing
  fuel input_path output_path x_range y_range z_range
  w data header_lines data_offset N properties fmt bi w1 r w2 :
  files w !! input_path = Some data ->
  read_header_bytes fuel data = Ret (header_lines, data_offset) ->
  parse_ply_header header_lines = Ok (N, properties, fmt) ->
  analyze_point_cloud_bounds fuel input_path 10000 w = (Ret (Some bi), w1) ->
  choose_ranges bi x_range y_range z_range None false w1 = (Ret r, w2) ->
  (exists rg, (x_range = Some rg \/ y_range = Some rg \/ z_range = Some rg)
              /\ SFleb (fst rg) (snd rg) = false) ->
  exists evs,
    crop_by_bounds fuel input_path output_path x_range y_range z_range None false w
    = (Ret false, printed (evs ++ [EvNoVerticesRemain]) w)
    /\ files (printed (evs ++ [EvNoVerticesRemain]) w) = files w.
Proof.
  intros Hf Hh Hp Han Hr (rg & Hgiven & Hroom).
  destruct (choose_ranges_given _ _ _ _ _ _ _ Hr) as (Hx & Hy & Hz).
  assert (Hout : Forall (fun row => inside r row = false)
                   (np_array (decoded_records properties N (drop data_offset data)))).
  { apply Forall_forall. intros row _. destruct (inside r row) eqn:Hin; [|reflexivity].
    apply inside_needs_room in Hin as (H1 & H2 & H3).
    destruct Hgiven as [H|[H|H]];
      [apply Hx in H | apply Hy in H | apply Hz in H]; subst rg; congruence. }
  destruct (crop_with_nothing_inside fuel input_path output_path x_range y_range z_range
              None false _ _ _ _ _ _ _ _ _ _ _ Hf Hh Hp Han Hr Hout) as (evs & Hrun).
  exists evs. split; [exact Hrun | reflexivity].
Qed.

Lemma range_without_room_crops_to_nothing_witness :
  exists evs,
    crop_by_bounds 20 "in.ply" "out.ply" (Some inverted_range) None None None false
      (Sample.world_of Sample.input)
    = (Ret false, printed (evs ++ [EvNoVerticesRemain]) (Sample.world_of Sample.input))
    /\ files (printed (evs ++ [EvNoVerticesRemain]) (Sample.world_of Sample.input))
       = files (Sample.world_of Sample.input).
Proof.
  assert (Hf : files (Sample.world_of Sample.input) !! "in.ply"%string = Some Sample.input)
    by (vm_compute; reflexivity).
  assert (Hh : read_header_bytes 20 Sample.input = Ret (Sample.header_lines, 175%nat))
    by (vm_compute; reflexivity).
  assert (Hp : parse_ply_header Sample.header_lines
               = Ok (5, Sample.properties, Some "binary_little_endian"%string))
    by (vm_compute; reflexivity).
  assert (Han : analyze_point_cloud_bounds 20 "in.ply" 10000 (Sample.world_of Sample.input)
                = (Ret (Some Sample.bounds), snd Sample.analysed))
    by (vm_compute; reflexivity).
  pose (chosen := choose_ranges Sample.bounds (Some inverted_range) None None None false
                    (snd Sample.analysed)).
  assert (Hr : chosen
               = (Ret (match fst chosen with Ret r => r | _ => Sample.unit_cube end),
                  snd chosen)) by (vm_compute; reflexivity).
  assert (Hroom : exists rg,
             (Some inverted_range = Some rg \/ None = Some rg \/ None = Some rg)
             /\ SFleb (fst rg) (snd rg) = false).
  { exists inverted_range. split; [now left | vm_compute; reflexivity]. }
  exact (range_without_room_crops_to_nothing 20 "in.ply" "out.ply" (Some inverted_range)
           None None (Sample.world_of Sample.input) Sample.input Sample.header_lines
           175%nat 5 Sample.properties _ Sample.bounds (snd Sample.analysed) _ _
           Hf Hh Hp Han Hr Hroom).
Defined.

(** ** The command line *)

Lemma path_exists_run {B : Type} path (k : bool -> M B) w :
  bind (Cli.path_exists path) k w
  = k (match files w !! path with Some _ => true | None => false end) w.
Proof. reflexivity. Qed.

Lemma axis_range_one_sided lo hi :
  Cli.one_sided lo hi = true <-> Cli.axis_range lo hi = None.
Proof. destruct lo, hi; cbn; split; congruence. Qed.

(** X15. A command line that names no existing input, or that asks for a crop
    with one bound of an axis and not the other: [main] prints one message
    and returns 1, and neither reads nor prints nor writes anything
    else. *)
Theorem usage_errors_return_1_before_any_work fuel args w :
  files w !! Cli.input args = None
  \/ (Cli.analyze_only args = false
      /\ (Cli.one_sided (Cli.x_min args) (Cli.x_max args) = true
          \/ Cli.one_sided (Cli.y_min args) (Cli.y_max args) = true
          \/ Cli.one_sided (Cli.z_min args) (Cli.z_max args) = true)) ->
  exists m, Cli.main fuel args w = (Ret (1, [m]), w).
Proof.
  intros H. unfold Cli.main. rewrite path_exists_run.
  destruct (files w !! Cli.input args) as [data|] eqn:Hf; cbn [negb];
    [|eexists; reflexivity].
  destruct H as [H | [Hmode H]]; [discriminate|]. rewrite Hmode.
  destruct (Cli.axis_range (Cli.x_min args) (Cli.x_max args)) as [xr|] eqn:Hx;
    [|eexists; reflexivity].
  destruct (Cli.axis_range (Cli.y_min args) (Cli.y_max args)) as [yr|] eqn:Hy;
    [|eexists; reflexivity].
  destruct (Cli.axis_range (Cli.z_min args) (Cli.z_max args)) as [zr|] eqn:Hz;
    [|eexists; reflexivity].
  destruct H as [H|[H|H]]; apply axis_range_one_sided in H; congruence.
Qed.

Lemma usage_errors_return_1_before_any_work_witness :
  exists m, Cli.main 20 Cli.lower_x_only (Sample.world_of Sample.input)
            = (Ret (1, [m]), Sample.world_of Sample.input).
Proof.
  assert (H : files (Sample.world_of Sample.input) !! Cli.input Cli.lower_x_only = None
              \/ (Cli.analyze_only Cli.lower_x_only = false
                  /\ (Cli.one_sided (Cli.x_min Cli.lower_x_only) (Cli.x_max Cli.lower_x_only)
                      = true
                      \/ Cli.one_sided (Cli.y_min Cli.lower_x_only)
                           (Cli.y_max Cli.lower_x_only) = true
                      \/ Cli.one_sided (Cli.z_min Cli.lower_x_only)
                           (Cli.z_max Cli.lower_x_only) = true))).
  { right. split; [reflexivity|]. left. reflexivity. }
  exact (usage_errors_return_1_before_any_work 20 Cli.lower_x_only
           (Sample.world_of Sample.input) H).
Defined.

(** X16. With [--analyze-only], [main] returns 0 whenever the analysis returns,
    also when the analysis reports that it read no vertices and gives no
    bounds; the range options are not looked at, and no file is created
    or changed. *)
Theorem analyze_only_returns_0_and_writes_nothing fuel args w :
  Cli.analyze_only args = true ->
  is_Some (files w !! Cli.input args) ->
  (forall bounds w1,
     analyze_point_cloud_bounds fuel (Cli.input args) 10000 w = (Ret bounds, w1) ->
     Cli.main fuel args w = (Ret (0, []), w1))
  /\ files (snd (Cli.main fuel args w)) = files w.
Proof.
  intros Hmode [data Hf]. unfold Cli.main. rewrite path_exists_run, Hf. cbn [negb].
  rewrite Hmode. split.
  - intros bounds w1 Han. unfold bind. now rewrite Han.
  - pose proof (prints_read_only _ _ (prints_only_analyze fuel (Cli.input args) 10000) w)
      as Hro.
    unfold bind. destruct (analyze_point_cloud_bounds fuel (Cli.input args) 10000 w)
      as [[ob| |] w1]; exact Hro.
Qed.

Lemma analyze_only_returns_0_and_writes_nothing_witness :
  (forall bounds w1,
     analyze_point_cloud_bounds 20 "in.ply" 10000 (Sample.world_of Sample.empty_body)
     = (Ret bounds, w1) ->
     Cli.main 20 Cli.analysis_with_one_bound (Sample.world_of Sample.empty_body)
     = (Ret (0, []), w1))
  /\ files (snd (Cli.main 20 Cli.analysis_with_one_bound (Sample.world_of Sample.empty_body)))
     = files (Sample.world_of Sample.empty_body).
Proof.
  assert (Hmode : Cli.analyze_only Cli.analysis_with_one_bound = true) by reflexivity.
  assert (Hf : is_Some (files (Sample.world_of Sample.empty_body)
                          !! Cli.input Cli.analysis_with_one_bound)).
  { exists Sample.empty_body. vm_compute. reflexivity. }
  exact (analyze_only_returns_0_and_writes_nothing 20 Cli.analysis_with_one_bound
           (Sample.world_of Sample.empty_body) Hmode Hf).
Defined.

(** X17. When [main] returns 0 for a crop, it printed no message of its own,
    the output path holds a file that starts with the header for the
    retained records, and every other file is as it was. *)
Theorem exit_status_0_means_the_output_was_written fuel args w w' msgs :
  Cli.analyze_only args = false ->
  Cli.main fuel args w = (Ret (0, msgs), w') ->
  msgs = []
  /\ (exists N properties r kept records,
        (0 < kept)%nat
        /\ files w' !! Cli.output args
           = Some (list_byte_of_string
                     (header_text kept properties
                        (crop_comments (Cli.input args) r N kept))
                   ++ records))
  /\ forall p, p <> Cli.output args -> files w' !! p = files w !! p.
Proof.
  intros Hmode. unfold Cli.main. rewrite path_exists_run.
  destruct (files w !! Cli.input args) as [data|] eqn:Hf; cbn [negb]; [|discriminate].
  rewrite Hmode.
  destruct (Cli.axis_range (Cli.x_min args) (Cli.x_max args)) as [xr|]; [|discriminate].
  destruct (Cli.axis_range (Cli.y_min args) (Cli.y_max args)) as [yr|]; [|discriminate].
  destruct (Cli.axis_range (Cli.z_min args) (Cli.z_max args)) as [zr|]; [|discriminate].
  intros (success & w1 & Hcrop & Hret)%bind_Ret.
  unfold ret in Hret. destruct success; [|discriminate]. injection Hret as <- <-.
  split; [reflexivity|].
  pose proof Hcrop as Hinv. apply crop_returns_true_inv in Hinv
    as (data' & header_lines & data_offset & N & properties & fmt & r & chunks
        & _ & _ & _ & _ & Hne & _ & Hfiles).
  cbv zeta in Hne, Hfiles. split.
  - exists N, properties, r,
      (length (List.filter (inside r)
                 (np_array (decoded_records properties N (drop data_offset data'))))),
      (concat chunks).
    split.
    + destruct (List.filter (inside r) _); [contradiction | cbn [length]; lia].
    + rewrite Hfiles. apply lookup_insert_eq.
  - intros p Hp. rewrite Hfiles. now apply lookup_insert_ne.
Qed.

Lemma exit_status_0_means_the_output_was_written_witness :
  let run := Cli.main 20 Cli.crop_to_unit_cube (Sample.world_of Sample.input) in
  run = (Ret (0, []), snd run)
  /\ [] = @nil Cli.message
  /\ (exists N properties r kept records,
        (0 < kept)%nat
        /\ files (snd run) !! Cli.output Cli.crop_to_unit_cube
           = Some (list_byte_of_string
                     (header_text kept properties
                        (crop_comments (Cli.input Cli.crop_to_unit_cube) r N kept))
                   ++ records))
  /\ forall p, p <> Cli.output Cli.crop_to_unit_cube ->
               files (snd run) !! p = files (Sample.world_of Sample.input) !! p.
Proof.
  intros run.
  assert (Hfst : fst run = Ret (0, [])) by (vm_compute; reflexivity).
  assert (H : run = (Ret (0, []), snd run)).
  { rewrite <- Hfst. apply surjective_pairing. }
  assert (Hmode : Cli.analyze_only Cli.crop_to_unit_cube = false) by reflexivity.
  split; [exact H|].
  exact (exit_status_0_means_the_output_was_written 20 Cli.crop_to_unit_cube
           (Sample.world_of Sample.input) (snd run) [] Hmode H).
Defined.

(** ** The frame loop of the video script *)

Lemma py_sub_same_kind a b :
  Viz.same_kind a b = true -> exists d, Viz.py_sub a b = Ok d.
Proof. destruct a, b; try discriminate; intros _; cbn; eauto. Qed.

(** X18. A video of a single frame, which is what [--seconds] times [--fps]
    at or below 1 asks for: the loop announces one frame, prints the
    message of frame 1 and raises [ZeroDivisionError] when it divides by
    the number of frames less one; no view is set, no frame is grabbed and
    the closing message is not printed. *)
Theorem single_frame_video_divides_by_zero seconds fps elev azim_start azim_end out :
  seconds * fps <= 1 ->
  Viz.same_kind azim_end azim_start = true ->
  Viz.render seconds fps elev azim_start azim_end out
  = ([Viz.Generating 1; Viz.Frame 1 1], Raise ZeroDivisionError).
Proof.
  intros Hn Hkind. unfold Viz.render.
  replace (Z.max 1 (seconds * fps)) with 1 by lia.
  change (Z.to_nat 1) with 1%nat. cbn [Viz.frame_loop].
  unfold Viz.azimuth. destruct (py_sub_same_kind _ _ Hkind) as [d ->].
  reflexivity.
Qed.

Lemma single_frame_video_divides_by_zero_witness :
  Viz.render 0 30 Viz.neon_elev Viz.neon_az0 Viz.neon_az1 "renders/out.mp4"
  = ([Viz.Generating 1; Viz.Frame 1 1], Raise ZeroDivisionError).
Proof.
  assert (Hn : 0 * 30 <= 1) by lia.
  assert (Hkind : Viz.same_kind Viz.neon_az1 Viz.neon_az0 = true) by reflexivity.
  exact (single_frame_video_divides_by_zero 0 30 Viz.neon_elev Viz.neon_az0 Viz.neon_az1
           "renders/out.mp4" Hn Hkind).
Defined.

Lemma filter_frame_message_snoc trace number n_frames :
  List.filter (fun ev => negb (Viz.is_frame_message ev)) (trace ++ [Viz.Frame number n_frames])
  = List.filter (fun ev => negb (Viz.is_frame_message ev)) trace.
Proof. rewrite List.filter_app. cbn. now rewrite app_nil_r. Qed.

Lemma flat_map_seq_shift {A : Type} (f : nat -> list A) a n :
  flat_map f (seq (S a) n) = flat_map (fun k => f (S k)) (seq a n).
Proof.
  revert a. induction n as [|n IH]; intros a; [reflexivity|].
  cbn [seq flat_map]. now rewrite IH.
Qed.

Lemma frame_loop_spec elev azim_start azim_end n_frames el d df s count i trace :
  n_frames <> 1 ->
  float_of_val elev = Ok el ->
  Viz.py_sub azim_end azim_start = Ok d ->
  float_of_val d = Ok df ->
  float_of_val azim_start = Ok s ->
  exists trace',
    Viz.frame_loop elev azim_start azim_end n_frames count i trace = (trace', Ok tt)
    /\ List.filter (fun ev => negb (Viz.is_frame_message ev)) trace'
       = List.filter (fun ev => negb (Viz.is_frame_message ev)) trace
         ++ flat_map (fun k => [Viz.ViewInit el (Viz.azimuth_of s df n_frames (i + Z.of_nat k));
                                Viz.GrabFrame])
              (seq 0 count).
Proof.
  intros Hn Hel Hd Hdf Hs. revert i trace.
  induction count as [|count IH]; intros i trace.
  - exists trace. split; [reflexivity|]. cbn. now rewrite app_nil_r.
  - cbn [Viz.frame_loop].
    assert (Haz : Viz.azimuth azim_start azim_end i n_frames
                  = Ok (Viz.azimuth_of s df n_frames i)).
    { unfold Viz.azimuth, Viz.py_truediv. rewrite Hd. cbn [rbind].
      destruct (n_frames - 1 =? 0) eqn:E; [lia|]. cbn [rbind]. now rewrite Hdf, Hs. }
    rewrite Haz, Hel.
    match goal with
    | |- context [Viz.frame_loop _ _ _ _ count (i + 1) ?t] =>
        destruct (IH (i + 1) t) as (trace' & Hrun & Hfilter)
    end.
    exists trace'. split; [exact Hrun|]. rewrite Hfilter.
    rewrite List.filter_app. cbn [List.filter Viz.is_frame_message negb app].
    assert (Hmsg : List.filter (fun ev => negb (Viz.is_frame_message ev))
                     (if i mod 10 =? 0 then trace ++ [Viz.Frame (i + 1) n_frames] else trace)
                   = List.filter (fun ev => negb (Viz.is_frame_message ev)) trace).
    { destruct (i mod 10 =? 0); [apply filter_frame_message_snoc | reflexivity]. }
    rewrite Hmsg, <- app_assoc. f_equal.
    cbn [seq flat_map app]. rewrite Z.add_0_r. f_equal. f_equal.
    rewrite flat_map_seq_shift. apply flat_map_ext. intros k. do 3 f_equal. lia.
Qed.

(** X19. A video of two frames or more, with an elevation and azimuths that
    convert to floats: the loop does not raise, and apart from its
    progress messages it sets the view and grabs a frame once for each
    frame number from 0 to the number of frames less one, in order, with
    the azimuth interpolated at that number, and prints the closing
    message last. *)
Theorem every_frame_is_set_and_grabbed_once
  seconds fps elev azim_start azim_end out el d df s :
  2 <= seconds * fps ->
  float_of_val elev = Ok el ->
  Viz.py_sub azim_end azim_start = Ok d ->
  float_of_val d = Ok df ->
  float_of_val azim_start = Ok s ->
  exists trace,
    Viz.render seconds fps elev azim_start azim_end out = (trace ++ [Viz.Saved out], Ok tt)
    /\ List.filter (fun ev => negb (Viz.is_frame_message ev)) trace
       = Viz.Generating (seconds * fps)
         :: flat_map (fun k => [Viz.ViewInit el
                                  (Viz.azimuth_of s df (seconds * fps) (Z.of_nat k));
                                Viz.GrabFrame])
              (seq 0 (Z.to_nat (seconds * fps))).
Proof.
  intros Hn Hel Hd Hdf Hs. unfold Viz.render.
  replace (Z.max 1 (seconds * fps)) with (seconds * fps) by lia.
  destruct (frame_loop_spec elev azim_start azim_end (seconds * fps) el d df s
              (Z.to_nat (seconds * fps)) 0 [Viz.Generating (seconds * fps)]
              ltac:(lia) Hel Hd Hdf Hs) as (trace & Hrun & Hfilter).
  rewrite Hrun. exists trace. split; [reflexivity|]. exact Hfilter.
Qed.

Lemma every_frame_is_set_and_grabbed_once_witness :
  exists trace,
    Viz.render 2 5 Viz.neon_elev Viz.neon_az0 Viz.neon_az1 "renders/out.mp4"
    = (trace ++ [Viz.Saved "renders/out.mp4"], Ok tt)
    /\ List.filter (fun ev => negb (Viz.is_frame_message ev)) trace
       = Viz.Generating (2 * 5)
         :: flat_map (fun k => [Viz.ViewInit (IEEE.of_Z 18)
                                  (Viz.azimuth_of (IEEE.of_Z (-80)) (IEEE.of_Z 360) (2 * 5)
                                     (Z.of_nat k));
                                Viz.GrabFrame])
              (seq 0 (Z.to_nat (2 * 5))).
Proof.
  assert (Hn : 2 <= 2 * 5) by lia.
  assert (Hel : float_of_val Viz.neon_elev = Ok (IEEE.of_Z 18)) by (vm_compute; reflexivity).
  assert (Hd : Viz.py_sub Viz.neon_az1 Viz.neon_az0 = Ok (PInt 360))
    by (vm_compute; reflexivity).
  assert (Hdf : float_of_val (PInt 360) = Ok (IEEE.of_Z 360)) by (vm_compute; reflexivity).
  assert (Hs : float_of_val Viz.neon_az0 = Ok (IEEE.of_Z (-80))) by (vm_compute; reflexivity).
  exact (every_frame_is_set_and_grabbed_once 2 5 Viz.neon_elev Viz.neon_az0 Viz.neon_az1
           "renders/out.mp4" _ _ _ _ Hn Hel Hd Hdf Hs).
Defined.

(** ** The sample of a small cloud *)

Lemma read_at_drop vertex_size data data_offset (j : nat) :
  read_at vertex_size data data_offset (Z.of_nat j)
  = take vertex_size (drop (j * vertex_size) (drop data_offset data)).
Proof.
  unfold read_at. rewrite drop_drop. do 2 f_equal. lia.
Qed.

Lemma consecutive_reads_are_records vertex_size data data_offset n j :
  map (read_at vertex_size data data_offset)
    (take_while
       (fun i => (length (read_at vertex_size data data_offset i) =? vertex_size)%nat)
       (map (fun k => Z.of_nat (j + k)) (seq 0 n)))
  = records_of vertex_size n (drop (j * vertex_size) (drop data_offset data)).
Proof.
  revert j. induction n as [|n IH]; intros j; [reflexivity|].
  cbn [seq map take_while records_of]. rewrite Nat.add_0_r, read_at_drop.
  destruct (length (take vertex_size (drop (j * vertex_size) (drop data_offset data)))
            =? vertex_size)%nat; [|reflexivity].
  cbn [map]. rewrite read_at_drop. f_equal.
  rewrite <- seq_shift, map_map.
  rewrite drop_drop. replace (j * vertex_size + vertex_size)%nat with (S j * vertex_size)%nat
    by lia.
  rewrite <- IH. do 2 f_equal. apply map_ext. intros k. f_equal. lia.
Qed.

(** The sample of a cloud with no more records than the sample size. *)
Lemma small_cloud_sample properties data data_offset N sample_size :
  0 < N <= sample_size ->
  draw_sample (create_struct_format properties) (codes_size (layout properties)) data
    data_offset N sample_size
  = Ok (decoded_records properties N (drop data_offset data)).
Proof.
  intros [HN Hc]. unfold draw_sample, floordiv.
  rewrite Z.min_r by lia. destruct (Z.eqb_spec N 0) as [|_]; [lia|]. cbn [rbind].
  rewrite Z_div_same_full by lia. change (Z.max 1 1) with 1.
  rewrite (sample_loop_spec _ (layout properties))
    by (apply parse_format_create || reflexivity).
  cbn [app length]. rewrite Nat.sub_0_r.
  assert (Hlen : range_length N 1 = Z.to_nat N).
  { unfold range_length. rewrite Z.div_1_r. f_equal. lia. }
  rewrite Hlen, Nat.min_id. f_equal. unfold decoded_records.
  pose proof (consecutive_reads_are_records (codes_size (layout properties)) data
                data_offset (Z.to_nat N) 0) as Hrec.
  change (drop (0 * codes_size (layout properties)) (drop data_offset data))
    with (drop data_offset data) in Hrec.
  rewrite <- Hrec, map_map. do 2 f_equal.
  apply map_ext. intros k. lia.
Qed.

(** X20. A cloud with no more records than the sample size is sampled in
    full: the step is 1 and the sample is every record the crop would
    decode, in order, so the bounds are those of the whole cloud. *)
Theorem small_cloud_is_sampled_in_full properties data data_offset N sample_size :
  0 < N <= sample_size ->
  draw_sample (create_struct_format properties) (codes_size (layout properties)) data
    data_offset N sample_size
  = Ok (decoded_records properties N (drop data_offset data)).
Proof. apply small_cloud_sample. Qed.

Lemma small_cloud_is_sampled_in_full_witness :
  draw_sample (create_struct_format Sample.properties)
    (codes_size (layout Sample.properties)) Sample.input 175 5 10000
  = Ok (decoded_records Sample.properties 5 (drop 175 Sample.input)).
Proof.
  assert (H : 0 < 5 <= 10000) by lia.
  exact (small_cloud_is_sampled_in_full Sample.properties Sample.input 175 5 10000 H).
Defined.

(** ** Decimal numbers, printed and parsed *)

Lemma digits_value_acc d acc :
  digits_value (Z.pos acc) true (list_ascii_of_string (NilEmpty.string_of_uint d))
  = Some (Z.pos (Pos.of_uint_acc d acc)).
Proof.
  revert acc. induction d as [|d IH|d IH|d IH|d IH|d IH|d IH|d IH|d IH|d IH|d IH];
    intros acc; [reflexivity|..];
    cbn [NilEmpty.string_of_uint list_ascii_of_string digits_value Pos.of_uint_acc];
    change (is_digit _) with true; cbv iota;
    match goal with
    | |- digits_value ?v true _ = Some (Z.pos (Pos.of_uint_acc d ?p)) =>
        replace v with (Z.pos p)
          by (match goal with
              | |- context [Z.of_nat (nat_of_ascii ?c)] =>
                  let k := eval vm_compute in (Z.of_nat (nat_of_ascii c)) in
                  change (Z.of_nat (nat_of_ascii c)) with k
              end; lia)
    end; apply IH.
Qed.

Lemma digits_value_zero d :
  digits_value 0 true (list_ascii_of_string (NilEmpty.string_of_uint d))
  = Some (Z.of_N (Pos.of_uint d)).
Proof.
  induction d as [|d IH|d IH|d IH|d IH|d IH|d IH|d IH|d IH|d IH|d IH];
    [reflexivity|..];
    cbn [NilEmpty.string_of_uint list_ascii_of_string digits_value Pos.of_uint];
    change (is_digit _) with true; cbv iota;
    [exact IH|..];
    match goal with
    | |- digits_value ?v true _ = Some (Z.of_N (N.pos (Pos.of_uint_acc d ?p))) =>
        change v with (Z.pos p)
    end; apply digits_value_acc.
Qed.

Lemma int_of_str_uint d :
  d <> Decimal.Nil ->
  int_of_str (NilEmpty.string_of_uint d) = Ok (Z.of_uint d).
Proof.
  intros Hd. unfold int_of_str, Z.of_uint.
  destruct d as [|d|d|d|d|d|d|d|d|d|d]; [contradiction|..];
    cbn [NilEmpty.string_of_uint list_ascii_of_string];
    match goal with
    | |- context [if (?c =? "-")%char then _ else _] =>
        change (c =? "-")%char with false; change (c =? "+")%char with false; cbv iota
    end;
    match goal with
    | |- context [digits_value 0 false (?c :: list_ascii_of_string (NilEmpty.string_of_uint d))] =>
        change (c :: list_ascii_of_string (NilEmpty.string_of_uint d))
          with (list_ascii_of_string (NilEmpty.string_of_uint ltac:(
                  match c with
                  | "0"%char => exact (Decimal.D0 d) | "1"%char => exact (Decimal.D1 d)
                  | "2"%char => exact (Decimal.D2 d) | "3"%char => exact (Decimal.D3 d)
                  | "4"%char => exact (Decimal.D4 d) | "5"%char => exact (Decimal.D5 d)
                  | "6"%char => exact (Decimal.D6 d) | "7"%char => exact (Decimal.D7 d)
                  | "8"%char => exact (Decimal.D8 d) | "9"%char => exact (Decimal.D9 d)
                  end)))
    end.
  all: match goal with
       | |- context [digits_value 0 false (list_ascii_of_string (NilEmpty.string_of_uint ?x))] =>
           assert (E : digits_value 0 false (list_ascii_of_string (NilEmpty.string_of_uint x))
                       = digits_value 0 true (list_ascii_of_string (NilEmpty.string_of_uint x)))
             by reflexivity;
           rewrite E, digits_value_zero; reflexivity
       end.
Qed.

Lemma string_of_Z_uint z :
  0 <= z ->
  exists d, d <> Decimal.Nil /\ string_of_Z z = NilEmpty.string_of_uint d /\ Z.of_uint d = z.
Proof.
  intros Hz. unfold string_of_Z. pose proof (DecimalZ.of_to z) as Hof.
  destruct z as [|p|p]; [| |lia].
  - exists (Decimal.D0 Decimal.Nil). repeat split. discriminate.
  - exists (Pos.to_uint p). cbn [Z.to_int Z.of_int] in *. split; [|split; [|exact Hof]].
    + apply DecimalPos.Unsigned.to_uint_nonnil.
    + cbn [NilZero.string_of_int]. unfold NilZero.string_of_uint.
      pose proof (DecimalPos.Unsigned.to_uint_nonnil p).
      destruct (Pos.to_uint p); [contradiction | reflexivity..].
Qed.

(** [int(str(n))] is [n]. *)
Lemma int_of_str_string_of_Z z : 0 <= z -> int_of_str (string_of_Z z) = Ok z.
Proof.
  intros (d & Hd & -> & <-)%string_of_Z_uint. now apply int_of_str_uint.
Qed.

Lemma digits_have_no_space d :
  forallb (fun c => negb (is_space c)) (list_ascii_of_string (NilEmpty.string_of_uint d))
  = true.
Proof.
  induction d as [|d IH|d IH|d IH|d IH|d IH|d IH|d IH|d IH|d IH|d IH]; [reflexivity|..];
    cbn [NilEmpty.string_of_uint list_ascii_of_string forallb];
    rewrite IH; reflexivity.
Qed.

Lemma string_of_Z_token z : 0 <= z -> is_token (string_of_Z z) = true.
Proof.
  intros (d & Hd & -> & _)%string_of_Z_uint. unfold is_token.
  pose proof (digits_have_no_space d) as H.
  destruct (NilEmpty.string_of_uint d) eqn:E; [|exact H].
  destruct d; try contradiction; discriminate.
Qed.

(** ** Stripping and splitting a written line *)

Lemma append_cons c (a b : string) : String c a +:+ b = String c (a +:+ b).
Proof. reflexivity. Qed.

Lemma append_assoc (a b c : string) : (a +:+ b) +:+ c = a +:+ (b +:+ c).
Proof.
  induction a as [|x a IH]; [reflexivity|]. rewrite !append_cons. now f_equal.
Qed.

Lemma append_nil_r (a : string) : a +:+ "" = a.
Proof. induction a as [|x a IH]; [reflexivity|]. rewrite append_cons. now f_equal. Qed.

Lemma rstrip_nonspace c s : is_space c = false -> rstrip (String c s) = String c (rstrip s).
Proof. intros H. cbn [rstrip]. rewrite H. now destruct (rstrip s). Qed.

Lemma rstrip_app_nl s : rstrip (s +:+ nl) = rstrip s.
Proof.
  induction s as [|c s IH]; [reflexivity|]. rewrite append_cons. cbn [rstrip]. now rewrite IH.
Qed.

Lemma rstrip_no_space t :
  forallb (fun c => negb (is_space c)) (list_ascii_of_string t) = true -> rstrip t = t.
Proof.
  induction t as [|c t IH]; [reflexivity|]. cbn [list_ascii_of_string forallb].
  intros [Hc Ht]%andb_prop. apply negb_true_iff in Hc.
  now rewrite rstrip_nonspace, IH.
Qed.

Lemma is_token_no_space t :
  is_token t = true ->
  t <> ""%string /\ forallb (fun c => negb (is_space c)) (list_ascii_of_string t) = true.
Proof. destruct t; [discriminate|]. intros H. split; [discriminate | exact H]. Qed.

Lemma rstrip_app_token a t : is_token t = true -> rstrip (a +:+ t) = a +:+ t.
Proof.
  intros [Hne Ht]%is_token_no_space. induction a as [|c a IH].
  - now apply rstrip_no_space.
  - rewrite append_cons. cbn [rstrip]. rewrite IH.
    destruct (a +:+ t) eqn:E; [|reflexivity].
    destruct a; [contradiction | discriminate].
Qed.

(** A written line whose text starts with a character that is no white
    space and ends with a word reads back as that text. *)
Lemma strip_written_line c a t :
  is_space c = false -> is_token t = true ->
  strip ((String c a +:+ t) +:+ nl) = String c a +:+ t.
Proof.
  intros Hc Ht. unfold strip. rewrite !append_cons. cbn [lstrip]. rewrite Hc.
  rewrite <- !append_cons, rstrip_app_nl. now apply rstrip_app_token.
Qed.

Lemma split_aux_no_space t rest tok :
  forallb (fun c => negb (is_space c)) (list_ascii_of_string t) = true ->
  split_aux (t +:+ rest) tok = split_aux rest (tok +:+ t).
Proof.
  revert tok. induction t as [|c t IH]; intros tok.
  - intros _. now rewrite append_nil_r.
  - cbn [list_ascii_of_string forallb]. intros [Hc Ht]%andb_prop.
    apply negb_true_iff in Hc. rewrite append_cons. cbn [split_aux]. rewrite Hc, (IH _ Ht).
    now rewrite append_assoc.
Qed.

Lemma split_aux_last t : is_token t = true -> split_aux t "" = [t].
Proof.
  intros [Hne Ht]%is_token_no_space.
  rewrite <- (append_nil_r t) at 1. rewrite (split_aux_no_space _ _ _ Ht).
  change ("" +:+ t)%string with t. cbn [split_aux].
  destruct (String.eqb_spec t ""); [contradiction | reflexivity].
Qed.

Lemma split_aux_word t rest :
  is_token t = true ->
  split_aux (t +:+ String " " rest) "" = t :: split_aux rest "".
Proof.
  intros [Hne Ht]%is_token_no_space. rewrite (split_aux_no_space _ _ _ Ht).
  change ("" +:+ t)%string with t. cbn [split_aux]. change (is_space " ") with true.
  cbv iota. destruct (String.eqb_spec t ""); [contradiction | reflexivity].
Qed.

Lemma split_property_line t n :
  is_token t = true -> is_token n = true ->
  split ("property " +:+ t +:+ " " +:+ n) = ["property"; t; n]%string.
Proof.
  intros Ht Hn. unfold split.
  change ("property " +:+ t +:+ " " +:+ n)%string
    with ("property" +:+ String " " (t +:+ String " " n))%string.
  rewrite split_aux_word by reflexivity. rewrite split_aux_word by assumption.
  now rewrite split_aux_last.
Qed.

Lemma split_count_line t :
  is_token t = true ->
  split ("element vertex " +:+ t) = ["element"; "vertex"; t]%string.
Proof.
  intros Ht. unfold split.
  change ("element vertex " +:+ t)%string
    with ("element" +:+ String " " ("vertex" +:+ String " " t))%string.
  rewrite !split_aux_word by reflexivity. now rewrite split_aux_last.
Qed.

(** ** The lines of a written header *)

Lemma raw_line_bytes line : raw_line line = list_byte_of_string line ++ [x0a].
Proof. unfold raw_line. now rewrite list_byte_of_string_app. Qed.

Lemma bytes_no_newline s :
  no_newline s = true -> Forall (fun b => b <> x0a) (list_byte_of_string s).
Proof.
  unfold no_newline, list_byte_of_string.
  induction (list_ascii_of_string s) as [|c cs IH]; [constructor|].
  cbn [forallb map]. intros [Hc Hcs]%andb_prop. constructor; [|now apply IH].
  intros Hb. apply negb_true_iff, Ascii.eqb_neq in Hc. apply Hc.
  rewrite <- (ascii_of_byte_of_ascii c), Hb. reflexivity.
Qed.

Lemma split_lines_line l rest :
  Forall (fun b => b <> x0a) l ->
  split_lines (l ++ x0a :: rest) = (l ++ [x0a]) :: split_lines rest.
Proof.
  induction 1 as [|b l Hb _ IH]; [reflexivity|].
  change (split_lines ((b :: l) ++ x0a :: rest))
    with (if Byte.eqb b x0a then [b] :: split_lines (l ++ x0a :: rest)
          else match split_lines (l ++ x0a :: rest) with
               | [] => [[b]]
               | l0 :: ls => (b :: l0) :: ls
               end).
  destruct (Byte.eqb b x0a) eqn:E; [apply Byte.byte_dec_bl in E; contradiction|].
  now rewrite IH.
Qed.

Lemma split_lines_raw_line line rest :
  no_newline line = true ->
  split_lines (raw_line line ++ rest) = raw_line line :: split_lines rest.
Proof.
  intros H. rewrite raw_line_bytes, <- app_assoc. cbn [app].
  now apply split_lines_line, bytes_no_newline.
Qed.

Lemma split_lines_raw_lines lines rest :
  Forall (fun line => no_newline line = true) lines ->
  split_lines (concat (map raw_line lines) ++ rest) = map raw_line lines ++ split_lines rest.
Proof.
  induction 1 as [|line lines Hline _ IH]; [reflexivity|].
  cbn [map concat app]. rewrite <- app_assoc, split_lines_raw_line by assumption.
  now rewrite IH.
Qed.

Lemma header_text_lines vertex_count properties comments :
  list_byte_of_string (header_text vertex_count properties comments)
  = concat (map raw_line (written_lines vertex_count properties comments))
    ++ raw_line "end_header".
Proof.
  unfold header_text, written_lines, raw_line.
  rewrite !map_app, !concat_app. cbn [map concat].
  assert (Hc : list_byte_of_string
                 (foldr (fun comment s => comment_line comment +:+ s) "" comments)
               = concat (map (fun line => list_byte_of_string (line +:+ nl))
                           (map (fun comment => "comment " +:+ comment) comments))).
  { induction comments as [|c cs IH]; [reflexivity|]. cbn [foldr map concat].
    rewrite list_byte_of_string_app, IH. unfold comment_line. now rewrite append_assoc. }
  assert (Hp : list_byte_of_string
                 (foldr (fun p s => property_line p +:+ s) "" properties)
               = concat (map (fun line => list_byte_of_string (line +:+ nl))
                           (map (fun p => "property " +:+ fst p +:+ " " +:+ snd p)
                              properties))).
  { induction properties as [|p ps IH]; [reflexivity|]. cbn [foldr map concat].
    rewrite list_byte_of_string_app, IH. unfold property_line.
    now rewrite !append_assoc. }
  rewrite !list_byte_of_string_app, Hc, Hp, ?app_nil_r, <- ?app_assoc. reflexivity.
Qed.

Lemma no_newline_app a b : no_newline (a +:+ b) = no_newline a && no_newline b.
Proof. unfold no_newline. now rewrite list_ascii_of_string_app, forallb_app. Qed.

Lemma token_no_newline t : is_token t = true -> no_newline t = true.
Proof.
  intros [_ Ht]%is_token_no_space. unfold no_newline.
  apply List.forallb_forall. intros c Hc.
  apply (proj1 (List.forallb_forall _ _) Ht) in Hc.
  apply negb_true_iff. apply negb_true_iff in Hc.
  destruct (Ascii.eqb_spec c (ascii_of_nat 10)) as [->|]; [discriminate | reflexivity].
Qed.

Lemma written_lines_no_newline vertex_count properties comments :
  Forall (fun comment => no_newline comment = true) comments ->
  Forall (fun p => is_token (fst p) = true /\ is_token (snd p) = true) properties ->
  Forall (fun line => no_newline line = true)
    (written_lines vertex_count properties comments).
Proof.
  intros Hc Hp. unfold written_lines.
  repeat first [apply Forall_app; split | apply Forall_cons; split | apply Forall_nil];
    try reflexivity.
  - apply Forall_fmap. eapply Forall_impl; [exact Hc|]. intros c H.
    unfold compose. cbv beta. now rewrite no_newline_app, H.
  - rewrite no_newline_app, (token_no_newline (string_of_Z _))
      by (apply string_of_Z_token; lia).
    reflexivity.
  - apply Forall_fmap. eapply Forall_impl; [exact Hp|]. intros [t n] [Ht Hn].
    unfold compose. cbv beta. cbn [fst snd].
    rewrite !no_newline_app, (token_no_newline t), (token_no_newline n) by assumption.
    reflexivity.
Qed.

(** ** Reading a written header back *)

Lemma line_text_raw_line line :
  forallb is_ascii_byte (raw_line line) = true ->
  line_text (raw_line line) = Ok (strip (line +:+ nl)).
Proof.
  intros H. unfold line_text, decode_ascii. rewrite H. cbn [rbind].
  unfold raw_line. now rewrite string_of_list_byte_of_string.
Qed.

Lemma strip_comment_line comment :
  exists rest, strip (("comment " +:+ comment) +:+ nl) = String "c" rest.
Proof.
  exists (rstrip (("omment " +:+ comment) +:+ nl)). unfold strip.
  change (("comment " +:+ comment) +:+ nl)
    with (String "c" (("omment " +:+ comment) +:+ nl)).
  cbn [lstrip]. change (is_space "c") with false. cbv iota.
  now apply rstrip_nonspace.
Qed.

Lemma strip_count_line t :
  is_token t = true -> strip (("element vertex " +:+ t) +:+ nl) = "element vertex " +:+ t.
Proof. intros Ht. now apply (strip_written_line "e" "lement vertex " t). Qed.

Lemma strip_property_line t n :
  is_token n = true ->
  strip (("property " +:+ t +:+ " " +:+ n) +:+ nl) = "property " +:+ t +:+ " " +:+ n.
Proof.
  intros Hn.
  assert (E : "property " +:+ t +:+ " " +:+ n
              = String "p" (("roperty " +:+ t) +:+ " ") +:+ n).
  { change (String "p" (("roperty " +:+ t) +:+ " ") +:+ n)
      with (String "p" ((("roperty " +:+ t) +:+ " ") +:+ n)).
    rewrite !append_assoc. reflexivity. }
  rewrite E. now apply strip_written_line.
Qed.

Lemma parse_count_line vertex_count properties fmt t n :
  is_token t = true -> int_of_str t = Ok n ->
  parse_header_line (vertex_count, properties, fmt) ("element vertex " +:+ t)
  = Ok (n, properties, fmt).
Proof.
  intros Ht Hn. unfold parse_header_line.
  change (String.prefix "format" ("element vertex " +:+ t)) with false.
  change (String.prefix "element vertex" ("element vertex " +:+ t)) with true.
  cbv iota. rewrite split_count_line by assumption. cbn [py_index lookup list_lookup rbind].
  now rewrite Hn.
Qed.

Lemma parse_property_line vertex_count properties fmt t n :
  is_token t = true -> is_token n = true ->
  parse_header_line (vertex_count, properties, fmt) ("property " +:+ t +:+ " " +:+ n)
  = Ok (vertex_count, properties ++ [(t, n)], fmt).
Proof.
  intros Ht Hn. unfold parse_header_line.
  change (String.prefix "format" ("property " +:+ t +:+ " " +:+ n)) with false.
  change (String.prefix "element vertex" ("property " +:+ t +:+ " " +:+ n)) with false.
  change (String.prefix "property" ("property " +:+ t +:+ " " +:+ n)) with true.
  cbv iota zeta. rewrite split_property_line by assumption. reflexivity.
Qed.

Lemma parse_comment_lines st comments :
  parse_header_lines st
    (map (fun line => strip (line +:+ nl)) (map (fun comment => "comment " +:+ comment) comments))
  = Ok st.
Proof.
  induction comments as [|c cs IH]; [reflexivity|]. cbn [map parse_header_lines].
  destruct (strip_comment_line c) as [rest ->].
  rewrite parse_header_line_other by reflexivity. exact IH.
Qed.

Lemma parse_property_lines vertex_count acc fmt properties :
  Forall (fun p => is_token (fst p) = true /\ is_token (snd p) = true) properties ->
  parse_header_lines (vertex_count, acc, fmt)
    (map (fun line => strip (line +:+ nl))
       (map (fun p => "property " +:+ fst p +:+ " " +:+ snd p) properties))
  = Ok (vertex_count, acc ++ properties, fmt).
Proof.
  intros H. revert acc. induction H as [|[t n] ps [Ht Hn] _ IH]; intros acc.
  - cbn. now rewrite app_nil_r.
  - cbn [map parse_header_lines fst snd].
    rewrite strip_property_line, parse_property_line by assumption. cbn [rbind].
    rewrite IH, <- app_assoc. reflexivity.
Qed.

(** The lines of a written header parse back to what was written. *)
Lemma parse_written_lines vertex_count properties comments :
  Forall (fun p => is_token (fst p) = true /\ is_token (snd p) = true) properties ->
  parse_ply_header
    (map (fun line => strip (line +:+ nl)) (written_lines vertex_count properties comments)
     ++ ["end_header"%string])
  = Ok (Z.of_nat vertex_count, properties, Some "binary_little_endian"%string).
Proof.
  intros Hp. unfold parse_ply_header, written_lines.
  rewrite !map_app, <- !app_assoc. cbn [map app].
  change (strip ("ply" +:+ nl)) with "ply"%string.
  change (strip ("format binary_little_endian 1.0" +:+ nl))
    with "format binary_little_endian 1.0"%string.
  cbn [parse_header_lines].
  change (parse_header_line (0, [], None) "ply") with (Ok (0, @nil (string * string), @None string)).
  cbn [rbind].
  change (parse_header_line (0, [], None) "format binary_little_endian 1.0")
    with (Ok (0, @nil (string * string), Some "binary_little_endian"%string)).
  cbn [rbind].
  rewrite parse_header_lines_app, parse_comment_lines. cbn [rbind parse_header_lines].
  rewrite strip_count_line by (apply string_of_Z_token; lia).
  rewrite (parse_count_line _ _ _ _ (Z.of_nat vertex_count))
    by (apply string_of_Z_token || apply int_of_str_string_of_Z; lia).
  cbn [rbind]. rewrite parse_header_lines_app, parse_property_lines by assumption.
  cbn [rbind parse_header_lines app]. reflexivity.
Qed.

Lemma written_lines_not_terminator vertex_count properties comments :
  Forall (fun p => is_token (fst p) = true /\ is_token (snd p) = true) properties ->
  Forall (fun line => strip (line +:+ nl) <> "end_header"%string)
    (written_lines vertex_count properties comments).
Proof.
  intros Hp. unfold written_lines.
  repeat first [apply Forall_app; split | apply Forall_cons; split | apply Forall_nil];
    try exact I; try (vm_compute; discriminate).
  - apply Forall_fmap, Forall_forall. intros c _.
    unfold compose. cbv beta. destruct (strip_comment_line c) as [rest ->]. discriminate.
  - rewrite strip_count_line by (apply string_of_Z_token; lia). discriminate.
  - apply Forall_fmap. eapply Forall_impl; [exact Hp|]. intros [t n] [Ht Hn].
    unfold compose. cbv beta. cbn [fst snd].
    rewrite strip_property_line by assumption. discriminate.
Qed.

Lemma encode_ascii_ascii s bs :
  encode_ascii s = Ok bs -> forallb is_ascii_byte (list_byte_of_string s) = true.
Proof. unfold encode_ascii. destruct (forallb _ _); [reflexivity | discriminate]. Qed.

Lemma rmapM_encoded_ascii {A : Type} (f : A -> string) xs chunks :
  rmapM (fun x => encode_ascii (f x)) xs = Ok chunks ->
  Forall (fun x => forallb is_ascii_byte (list_byte_of_string (f x)) = true) xs.
Proof.
  intros H%rmapM_Forall2. induction H as [|x bs xs chunks Hx _ IH]; constructor.
  - now apply encode_ascii_ascii in Hx.
  - exact IH.
Qed.

(** A [write_ply_file] that returns has encoded every line of its header
    and every row. *)
Lemma write_ply_file_Ret_ascii output_path vertices properties comments w u w' :
  write_ply_file output_path vertices properties comments w = (Ret u, w') ->
  Forall (fun line => forallb is_ascii_byte (raw_line line) = true)
    (written_lines (length vertices) properties comments).
Proof.
  unfold write_ply_file. rewrite open_write_run, !f_write_run.
  intros (u1 & w1 & Hcomments & H)%bind_Ret.
  apply (for_each_write_Ret _ (fun c => encode_ascii (comment_line c))) in Hcomments
    as (cchunks & Hc & ->); [|reflexivity].
  rewrite write_text_run in H.
  destruct (encode_ascii _) as [ebytes|] eqn:Ee; [|discriminate].
  apply encode_ascii_ascii in Ee. apply bind_Ret in H as (u2 & w2 & Hprops & H).
  apply (for_each_write_Ret _ (fun p => encode_ascii (property_line p))) in Hprops
    as (pchunks & Hp & ->); [|now intros [t n]].
  apply rmapM_encoded_ascii in Hc, Hp. unfold written_lines, raw_line.
  repeat first [apply Forall_app; split | apply Forall_cons; split | apply Forall_nil];
    try exact I; try reflexivity.
  - apply Forall_fmap. eapply Forall_impl; [exact Hc|]. intros c Hascii.
    unfold compose. cbv beta. unfold comment_line in Hascii.
    now rewrite append_assoc.
  - now rewrite append_assoc.
  - apply Forall_fmap. eapply Forall_impl; [exact Hp|]. intros [t n] Hascii.
    unfold compose. cbv beta. unfold property_line in Hascii.
    now rewrite !append_assoc.
Qed.

Lemma rows_decode_back properties rows chunks :
  Forall (fun row => Forall2 typed_value (map fst properties) row) rows ->
  rmapM (encode_vertex properties) rows = Ok chunks ->
  decoded_records properties (Z.of_nat (length rows)) (concat chunks)
  = map (zip_with read_back (map fst properties)) rows.
Proof.
  unfold decoded_records. rewrite Nat2Z.id. intros Hrows. revert chunks.
  induction Hrows as [|row rows Hrow _ IH]; intros chunks Hchunks.
  - cbn in Hchunks. injection Hchunks as <-. reflexivity.
  - cbn [rmapM] in Hchunks.
    apply rbind_Ok in Hchunks as (data & Hdata & (rest & Hrest & [= <-])%rbind_Ok).
    destruct (record_round_trip_from properties row [] Hrow)
      as (conv & data' & Hc & Hp & Hl & Hu).
    assert (data' = data) as ->.
    { unfold encode_vertex in Hdata. cbn [length app] in Hc. rewrite Hc in Hdata.
      cbn [rbind] in Hdata. unfold struct_pack in Hdata.
      rewrite parse_format_create in Hdata. cbn [rbind] in Hdata. congruence. }
    cbn [length concat records_of map].
    rewrite take_app_length' by (symmetry; exact Hl). rewrite Hl, Nat.eqb_refl.
    rewrite drop_app_length' by (symmetry; exact Hl). cbn [map].
    now rewrite Hu, (IH _ Hrest).
Qed.

(** X21. A file that [write_ply_file] has written, with comments that hold
    no line feed and field types and names that are single words, reads
    back: [read_ply_header] returns on it, [parse_ply_header] gives the
    number of rows, the fields and the format that were written, the data
    offset is where the encoded rows start and, when the values of the
    rows fit their fields, the body decodes to the rows that were written,
    a uchar value reduced modulo 256. *)
Theorem written_file_reads_back output_path vertices properties comments w u w' fuel :
  write_ply_file output_path vertices properties comments w = (Ret u, w') ->
  Forall (fun comment => no_newline comment = true) comments ->
  Forall (fun p => is_token (fst p) = true /\ is_token (snd p) = true) properties ->
  (3 + length comments + length properties <= fuel)%nat ->
  exists header_lines data_offset content chunks,
    files w' !! output_path = Some content
    /\ read_ply_header fuel output_path w' = (Ret (header_lines, data_offset), w')
    /\ parse_ply_header header_lines
       = Ok (Z.of_nat (length vertices), properties, Some "binary_little_endian"%string)
    /\ rmapM (encode_vertex properties) vertices = Ok chunks
    /\ drop data_offset content = concat chunks
    /\ (Forall (fun row => Forall2 typed_value (map fst properties) row) vertices ->
        decoded_records properties (Z.of_nat (length vertices)) (drop data_offset content)
        = map (zip_with read_back (map fst properties)) vertices).
Proof.
  intros Hwrite Hc Hp Hfuel.
  pose proof (write_ply_file_Ret_ascii _ _ _ _ _ _ _ Hwrite) as Hascii.
  apply write_ply_file_Ret in Hwrite as (chunks & Hchunks & ->).
  set (lines := written_lines (length vertices) properties comments) in *.
  set (content := list_byte_of_string (header_text (length vertices) properties comments)
                  ++ concat chunks).
  assert (Hcontent : content
                     = concat (map raw_line lines) ++ raw_line "end_header" ++ concat chunks).
  { subst content lines. now rewrite header_text_lines, <- app_assoc. }
  assert (Hsplit : split_lines content
                   = map raw_line lines
                     ++ raw_line "end_header" :: split_lines (concat chunks)).
  { rewrite Hcontent, split_lines_raw_lines
      by (subst lines; now apply written_lines_no_newline).
    now rewrite split_lines_raw_line. }
  assert (Hpre : Forall2 (fun raw s => line_text raw = Ok s /\ s <> "end_header"%string)
                   (map raw_line lines) (map (fun line => strip (line +:+ nl)) lines)).
  { apply Forall2_fmap, Forall_Forall2_diag.
    pose proof (written_lines_not_terminator (length vertices) properties comments Hp)
      as Hnot. fold lines in Hnot.
    apply Forall_forall. intros line Hin. split.
    - apply line_text_raw_line. revert line Hin. now apply Forall_forall.
    - revert line Hin. now apply Forall_forall. }
  assert (Hlen : (length (map raw_line lines) <= fuel)%nat).
  { rewrite length_map. subst lines. unfold written_lines.
    rewrite !length_app, !length_map. cbn [length]. lia. }
  exists (map (fun line => strip (line +:+ nl)) lines ++ ["end_header"%string]),
    (length (concat (map raw_line lines) ++ raw_line "end_header")), content, chunks.
  split; [apply files_set_file|]. split.
  - apply (read_ply_header_returns fuel output_path _ content (map raw_line lines) _
             (raw_line "end_header") (split_lines (concat chunks)));
      [apply files_set_file | exact Hpre | reflexivity | exact Hsplit | exact Hlen].
  - assert (Hdrop : drop (length (concat (map raw_line lines) ++ raw_line "end_header"))
                      content = concat chunks).
    { rewrite Hcontent, app_assoc. apply drop_app_length. }
    split; [subst lines; now apply parse_written_lines|]. split; [exact Hchunks|].
    split; [exact Hdrop|]. intros Htyped. rewrite Hdrop.
    now apply rows_decode_back.
Qed.

Lemma written_file_reads_back_witness :
  let run :=
    write_ply_file "out.ply" [Sample.mixed_record] Sample.mixed_properties
      ["made by hand"]%string (Sample.world_of Sample.input) in
  run = (Ret tt, snd run)
  /\ exists header_lines data_offset content chunks,
       files (snd run) !! "out.ply"%string = Some content
       /\ read_ply_header 20 "out.ply" (snd run) = (Ret (header_lines, data_offset), snd run)
       /\ parse_ply_header header_lines
          = Ok (Z.of_nat (length [Sample.mixed_record]), Sample.mixed_properties,
                Some "binary_little_endian"%string)
       /\ rmapM (encode_vertex Sample.mixed_properties) [Sample.mixed_record] = Ok chunks
       /\ drop data_offset content = concat chunks
       /\ (Forall (fun row => Forall2 typed_value (map fst Sample.mixed_properties) row)
             [Sample.mixed_record] ->
           decoded_records Sample.mixed_properties
             (Z.of_nat (length [Sample.mixed_record])) (drop data_offset content)
           = map (zip_with read_back (map fst Sample.mixed_properties))
               [Sample.mixed_record]).
Proof.
  intros run.
  assert (Hfst : fst run = Ret tt) by (vm_compute; reflexivity).
  assert (H : run = (Ret tt, snd run)).
  { rewrite <- Hfst. apply surjective_pairing. }
  assert (Hc : Forall (fun comment => no_newline comment = true) ["made by hand"]%string).
  { constructor; [vm_compute; reflexivity | constructor]. }
  assert (Hp : Forall (fun p => is_token (fst p) = true /\ is_token (snd p) = true)
                 Sample.mixed_properties).
  { repeat constructor. }
  assert (Hfuel : (3 + length ["made by hand"%string] + length Sample.mixed_properties
                   <= 20)%nat) by (vm_compute; lia).
  split; [exact H|].
  exact (written_file_reads_back "out.ply" [Sample.mixed_record] Sample.mixed_properties
           ["made by hand"]%string (Sample.world_of Sample.input) tt (snd run) 20
           H Hc Hp Hfuel).
Defined.

(** ** What a write that fails leaves behind *)

Lemma appends_to_ret path {A : Type} (a : A) : appends_to path (ret a).
Proof. intros w content H. split; [discriminate|]. exists []. now rewrite app_nil_r. Qed.

Lemma appends_to_liftR path {A : Type} (r : result A) : appends_to path (liftR r).
Proof.
  intros w content H. unfold liftR.
  destruct r; (split; [discriminate|]); exists []; now rewrite app_nil_r.
Qed.

Lemma appends_to_f_write path bs : appends_to path (f_write path bs).
Proof.
  intros w content H. split; [discriminate|]. exists bs. unfold f_write. cbn [snd files].
  now rewrite H, lookup_insert_eq.
Qed.

Lemma appends_to_bind path {A B : Type} (c : M A) (k : A -> M B) :
  appends_to path c -> (forall a, appends_to path (k a)) -> appends_to path (bind c k).
Proof.
  intros Hc Hk w content H. destruct (Hc w content H) as (Ht & more & Hmore).
  unfold bind. destruct (c w) as [[a| |] w1]; cbn [fst snd] in *.
  - destruct (Hk a w1 _ Hmore) as (Ht' & more' & Hmore'). split; [exact Ht'|].
    exists (more ++ more'). now rewrite app_assoc.
  - split; [discriminate | eauto].
  - contradiction.
Qed.

Lemma appends_to_for_each path {A : Type} (body : A -> M unit) xs :
  (forall x, appends_to path (body x)) -> appends_to path (for_each body xs).
Proof.
  intros Hbody. induction xs as [|x xs IH]; cbn [for_each].
  - apply appends_to_ret.
  - apply appends_to_bind; [apply Hbody | intros _; exact IH].
Qed.

Lemma appends_to_write_text path text : appends_to path (write_text path text).
Proof.
  unfold write_text. apply appends_to_bind; [apply appends_to_liftR|].
  intros bs. apply appends_to_f_write.
Qed.

(** Whatever [write_ply_file] goes on to do, it returns or raises, and
    the file at the output path then starts with the first two lines of
    the header; what the file held before is gone. *)
Lemma write_ply_file_opens output_path vertices properties comments w :
  fst (write_ply_file output_path vertices properties comments w) <> Timeout
  /\ exists more,
       files (snd (write_ply_file output_path vertices properties comments w)) !! output_path
       = Some (magic ++ more).
Proof.
  unfold write_ply_file. rewrite open_write_run, !f_write_run. cbn [app].
  match goal with
  | |- context [for_each ?b comments ;;; ?k] =>
      assert (Happ : appends_to output_path (for_each b comments ;;; k))
  end.
  { repeat first
      [ apply appends_to_write_text | apply appends_to_f_write | apply appends_to_liftR
      | apply appends_to_for_each; intros ?
      | apply appends_to_bind; [|intros ?]
      | match goal with |- appends_to _ (let '(_, _) := ?x in _) => destruct x end ]. }
  match goal with
  | |- context [set_file output_path ?c w] =>
      destruct (Happ (set_file output_path c w) c (files_set_file _ _ _))
        as (Ht & more & Hmore)
  end.
  split; [exact Ht|]. exists more. rewrite Hmore.
  unfold magic. now rewrite !list_byte_of_string_app, <- !app_assoc.
Qed.

(** X22. A crop that retains a record of a file with a field of an
    unsupported type: the crop raises, it does not return, and it leaves
    at the output path a file that starts with the first two header lines,
    in place of whatever was there before. *)
Theorem crop_that_fails_while_writing_leaves_a_truncated_file
  fuel input_path output_path x_range y_range z_range center_crop_ratio interactive
  w data header_lines data_offset N properties fmt bi w1 r w2 :
  files w !! input_path = Some data ->
  read_header_bytes fuel data = Ret (header_lines, data_offset) ->
  parse_ply_header header_lines = Ok (N, properties, fmt) ->
  analyze_point_cloud_bounds fuel input_path 10000 w = (Ret (Some bi), w1) ->
  choose_ranges bi x_range y_range z_range center_crop_ratio interactive w1 = (Ret r, w2) ->
  List.filter (inside r) (np_array (decoded_records properties N (drop data_offset data)))
  <> [] ->
  (length (layout properties) < length properties)%nat ->
  exists e more,
    fst (crop_by_bounds fuel input_path output_path x_range y_range z_range
           center_crop_ratio interactive w) = Exc e
    /\ files (snd (crop_by_bounds fuel input_path output_path x_range y_range z_range
                     center_crop_ratio interactive w)) !! output_path
       = Some (magic ++ more).
Proof.
  intros Hf Hh Hp Han Hr Hne Hshort.
  destruct (analysis_width _ _ _ _ _ _ _ _ _ _ _ _ Hf Hh Hp Han) as (Hw & evs1 & -> & _).
  destruct (prints_choose_ranges bi x_range y_range z_range center_crop_ratio interactive
              (printed evs1 w)) as (evs2 & Hw2 & _).
  rewrite Hr in Hw2. cbn [snd] in Hw2. subst w2.
  destruct (crop_pass_run fuel input_path output_path r
              (printed [EvCroppingTo r] (printed evs2 (printed evs1 w)))
              data header_lines data_offset N properties fmt Hf Hh Hp Hw)
    as (evs3 & _ & Hrun).
  assert (Hcrop : crop_by_bounds fuel input_path output_path x_range y_range z_range
                    center_crop_ratio interactive w
                  = crop_pass fuel input_path output_path r
                      (printed [EvCroppingTo r] (printed evs2 (printed evs1 w)))).
  { unfold crop_by_bounds, bind at 1. rewrite Han. unfold bind at 1. rewrite Hr.
    now rewrite print_run. }
  rewrite Hcrop, Hrun. clear Hcrop Hrun.
  destruct (List.filter (inside r) _) as [|row rows] eqn:Hret; [contradiction|].
  match goal with
  | |- context [(write_ply_file ?o ?v ?p ?c ;;; ?k) ?w3] =>
      destruct (write_ply_file_opens o v p c w3) as (Ht & more & Hmore);
      destruct (write_ply_file o v p c w3) as [[u|e|] w4] eqn:Hwrite
  end; cbn [fst snd] in *.
  - exfalso. apply write_ply_file_Ret in Hwrite as (chunks & Hchunks & _).
    cbn [rmapM] in Hchunks. apply rbind_Ok in Hchunks as (bs & Hbs & _).
    unfold encode_vertex in Hbs. apply rbind_Ok in Hbs as (conv & Hconv & _).
    assert (Hin : row ∈ np_array (decoded_records properties N (drop data_offset data))).
    { apply list_elem_of_In. apply (List.filter_In (inside r)). rewrite Hret. now left. }
    unfold decoded_records in Hin. apply np_array_decoded_width in Hin.
    apply convert_vertex_Ok in Hconv as [-> | Hconv]; cbn [length] in *; lia.
  - exists e, more. unfold bind. rewrite Hwrite. cbn [fst snd]. split; [reflexivity|].
    exact Hmore.
  - contradiction.
Qed.

Lemma crop_that_fails_while_writing_leaves_a_truncated_file_witness :
  exists e more,
    fst (crop_by_bounds 20 "in.ply" "out.ply" None None None None false
           (Sample.world_of Sample.with_short)) = Exc e
    /\ files (snd (crop_by_bounds 20 "in.ply" "out.ply" None None None None false
                     (Sample.world_of Sample.with_short))) !! "out.ply"%string
       = Some (magic ++ more).
Proof.
  pose (w := Sample.world_of Sample.with_short).
  pose (an := analyze_point_cloud_bounds 20 "in.ply" 10000 w).
  pose (bi := match fst an with Ret (Some bi) => bi | _ => Sample.bounds end).
  pose (chosen := choose_ranges bi None None None None false (snd an)).
  pose (r := match fst chosen with Ret r => r | _ => Sample.unit_cube end).
  assert (Hf : files w !! "in.ply"%string = Some Sample.with_short)
    by (vm_compute; reflexivity).
  assert (Hh : read_header_bytes 20 Sample.with_short
               = Ret (["ply"; "format binary_little_endian 1.0"; "element vertex 1";
                       "property float x"; "property float y"; "property float z";
                       "property short s"; "end_header"]%string, 132%nat))
    by (vm_compute; reflexivity).
  assert (Hp : parse_ply_header
                 ["ply"; "format binary_little_endian 1.0"; "element vertex 1";
                  "property float x"; "property float y"; "property float z";
                  "property short s"; "end_header"]%string
               = Ok (1, Sample.short_properties, Some "binary_little_endian"%string))
    by (vm_compute; reflexivity).
  assert (Han : analyze_point_cloud_bounds 20 "in.ply" 10000 w = (Ret (Some bi), snd an))
    by (vm_compute; reflexivity).
  assert (Hr : choose_ranges bi None None None None false (snd an) = (Ret r, snd chosen))
    by (vm_compute; reflexivity).
  assert (Hne : List.filter (inside r)
                  (np_array (decoded_records Sample.short_properties 1
                               (drop 132 Sample.with_short))) <> [])
    by (vm_compute; discriminate).
  assert (Hshort : (length (layout Sample.short_properties)
                    < length Sample.short_properties)%nat) by (vm_compute; lia).
  exact (crop_that_fails_while_writing_leaves_a_truncated_file 20 "in.ply" "out.ply"
           None None None None false w Sample.with_short _ 132%nat 1
           Sample.short_properties _ bi (snd an) r (snd chosen)
           Hf Hh Hp Han Hr Hne Hshort).
Defined.

(** ** The crop without options *)

Lemma filter_all {A : Type} (f : A -> bool) xs :
  Forall (fun x => f x = true) xs -> List.filter f xs = xs.
Proof.
  induction 1 as [|x xs Hx _ IH]; [reflexivity|]. cbn [List.filter]. now rewrite Hx, IH.
Qed.

Lemma first_three_columns_three rows :
  (3 <= length (first_three_columns rows))%nat ->
  exists c0 c1 c2,
    column 0 rows = Some c0 /\ column 1 rows = Some c1 /\ column 2 rows = Some c2
    /\ first_three_columns rows = [c0; c1; c2].
Proof.
  unfold first_three_columns. cbn [omap list_omap].
  destruct (column 0 rows) as [c0|], (column 1 rows) as [c1|], (column 2 rows) as [c2|];
    cbn [length]; try lia.
  intros _. now exists c0, c1, c2.
Qed.

Lemma column_values k rows col row :
  column k rows = Some col ->
  row ∈ rows ->
  exists v, row !! k = Some v /\ as_float v ∈ col.
Proof.
  unfold column. intros Hcol%mapM_Some Hin.
  apply list_elem_of_lookup in Hin as [i Hi].
  destruct (Forall2_lookup_l _ _ _ _ _ Hcol Hi) as (x & Hx & Hv).
  destruct (row !! k) as [v|]; [|discriminate]. cbn in Hv. injection Hv as <-.
  exists v. split; [reflexivity|]. now apply list_elem_of_lookup_2 in Hx.
Qed.

Lemma column_without_nan k rows col :
  (k < 3)%nat ->
  column k rows = Some col ->
  Forall (fun row => Forall (fun v => IEEE.is_nan (as_float v) = false) (take 3 row)) rows ->
  Forall (fun x => IEEE.is_nan x = false) col.
Proof.
  unfold column. intros Hk Hcol%mapM_Some Hrows. apply Forall_forall. intros x Hx.
  apply list_elem_of_lookup in Hx as [i Hi].
  destruct (Forall2_lookup_r _ _ _ _ _ Hcol Hi) as (row & Hrow & Hv).
  destruct (row !! k) as [v|] eqn:Ev; [|discriminate]. cbn in Hv. injection Hv as <-.
  apply list_elem_of_lookup_2 in Hrow.
  apply (proj1 (Forall_forall _ _) Hrows) in Hrow.
  apply (proj1 (Forall_forall _ _) Hrow). apply list_elem_of_lookup. exists k.
  now rewrite lookup_take_lt.
Qed.

(** X23. A cloud of no more records than the sample size, none of whose
    coordinates is NaN, cropped without any range option: when the
    analysis has given bounds, the ranges are the bounds of the whole
    cloud, every decoded record is retained, and the crop goes on to write
    them all. *)
Theorem crop_without_options_keeps_every_record
  fuel input_path output_path w data header_lines data_offset N properties fmt bi w1 :
  files w !! input_path = Some data ->
  read_header_bytes fuel data = Ret (header_lines, data_offset) ->
  parse_ply_header header_lines = Ok (N, properties, fmt) ->
  0 < N <= 10000 ->
  analyze_point_cloud_bounds fuel input_path 10000 w = (Ret (Some bi), w1) ->
  let rows := np_array (decoded_records properties N (drop data_offset data)) in
  Forall (fun row => Forall (fun v => IEEE.is_nan (as_float v) = false) (take 3 row)) rows ->
  exists r evs,
    List.filter (inside r) rows = rows
    /\ crop_by_bounds fuel input_path output_path None None None None false w
       = (write_ply_file output_path rows properties
            (crop_comments input_path r N (length rows)) ;;;
          print (EvSaved output_path) ;;;
          ret true) (printed evs w).
Proof.
  intros Hf Hh Hp HN Han rows Hnan.
  destruct (analysis_width _ _ _ _ _ _ _ _ _ _ _ _ Hf Hh Hp Han) as (Hw & evs1 & Hw1 & _).
  pose proof Han as Hsum.
  rewrite (analyze_run _ _ _ _ _ _ _ _ _ _ Hf Hh Hp), liftR_run in Hsum.
  rewrite small_cloud_sample in Hsum by exact HN.
  destruct (summarize_sample_Some _ _ _ _ _ _ Hsum) as (Hne & Hlen & _).
  destruct (summarize_sample_bounds _ _ _ _ _ _ Hsum) as [Hmin Hmax].
  fold rows in Hne, Hlen, Hmin, Hmax.
  destruct (first_three_columns_three _ Hlen) as (c0 & c1 & c2 & H0 & H1 & H2 & Hxyz).
  rewrite Hxyz in Hmin, Hmax. cbn [map] in Hmin, Hmax.
  set (r := ((np_reduce np_minimum c0, np_reduce np_maximum c0),
             (np_reduce np_minimum c1, np_reduce np_maximum c1),
             (np_reduce np_minimum c2, np_reduce np_maximum c2)) : range3).
  assert (Hr : choose_ranges bi None None None None false w1 = (Ret r, w1)).
  { unfold choose_ranges. rewrite Hmin, Hmax. reflexivity. }
  assert (Hall : Forall (fun row => inside r row = true) rows).
  { apply Forall_forall. intros row Hin.
    destruct (column_values _ _ _ _ H0 Hin) as (x & Hx & Hxin).
    destruct (column_values _ _ _ _ H1 Hin) as (y & Hy & Hyin).
    destruct (column_values _ _ _ _ H2 Hin) as (z & Hz & Hzin).
    destruct row as [|x' [|y' [|z' others]]]; try discriminate.
    cbn in Hx, Hy, Hz. injection Hx as ->. injection Hy as ->. injection Hz as ->.
    pose proof (reduce_encloses c0 (column_without_nan 0 _ _ ltac:(lia) H0 Hnan)) as E0.
    pose proof (reduce_encloses c1 (column_without_nan 1 _ _ ltac:(lia) H1 Hnan)) as E1.
    pose proof (reduce_encloses c2 (column_without_nan 2 _ _ ltac:(lia) H2 Hnan)) as E2.
    apply (proj1 (Forall_forall _ _) E0) in Hxin as [? ?].
    apply (proj1 (Forall_forall _ _) E1) in Hyin as [? ?].
    apply (proj1 (Forall_forall _ _) E2) in Hzin as [? ?].
    apply inside_iff. subst r. cbn [fst snd]. repeat split; assumption. }
  destruct (crop_pass_run fuel input_path output_path r
              (printed [EvCroppingTo r] w1)
              data header_lines data_offset N properties fmt
              ltac:(now rewrite Hw1) Hh Hp Hw) as (evs3 & _ & Hrun).
  fold rows in Hrun. rewrite (filter_all _ _ Hall) in Hrun.
  exists r, (evs1 ++ [EvCroppingTo r] ++ EvProcessing N :: evs3
                  ++ [EvResults N (length rows)]).
  split; [now apply filter_all|].
  unfold crop_by_bounds, bind at 1. rewrite Han. unfold bind at 1. rewrite Hr.
  rewrite print_run, Hrun. clear Hrun Hall Hmin Hmax H0 H1 H2 Hxyz Hlen Hnan.
  clearbody rows. destruct rows as [|row rest]; [contradiction|].
  rewrite Hw1, !printed_printed. reflexivity.
Qed.

Lemma crop_without_options_keeps_every_record_witness :
  let rows := np_array (decoded_records Sample.properties 5 (drop 175 Sample.input)) in
  exists r evs,
    List.filter (inside r) rows = rows
    /\ crop_by_bounds 20 "in.ply" "out.ply" None None None None false
         (Sample.world_of Sample.input)
       = (write_ply_file "out.ply" rows Sample.properties
            (crop_comments "in.ply" r 5 (length rows)) ;;;
          print (EvSaved "out.ply") ;;;
          ret true) (printed evs (Sample.world_of Sample.input)).
Proof.
  assert (Hf : files (Sample.world_of Sample.input) !! "in.ply"%string = Some Sample.input)
    by (vm_compute; reflexivity).
  assert (Hh : read_header_bytes 20 Sample.input = Ret (Sample.header_lines, 175%nat))
    by (vm_compute; reflexivity).
  assert (Hp : parse_ply_header Sample.header_lines
               = Ok (5, Sample.properties, Some "binary_little_endian"%string))
    by (vm_compute; reflexivity).
  assert (HN : 0 < 5 <= 10000) by lia.
  assert (Han : analyze_point_cloud_bounds 20 "in.ply" 10000 (Sample.world_of Sample.input)
                = (Ret (Some Sample.bounds), snd Sample.analysed))
    by (vm_compute; reflexivity).
  assert (Hnan : Forall (fun row => Forall (fun v => IEEE.is_nan (as_float v) = false)
                                      (take 3 row))
                   (np_array (decoded_records Sample.properties 5 (drop 175 Sample.input)))).
  { apply List.Forall_forall. intros row Hrow. apply List.Forall_forall. intros v Hv.
    apply negb_true_iff. revert v Hv. apply List.forallb_forall. revert row Hrow.
    apply List.forallb_forall. vm_compute. reflexivity. }
  exact (crop_without_options_keeps_every_record 20 "in.ply" "out.ply"
           (Sample.world_of Sample.input) Sample.input Sample.header_lines 175%nat 5
           Sample.properties _ Sample.bounds (snd Sample.analysed) Hf Hh Hp HN Han Hnan).
Defined.
